(** * Verification of the USB scale service (scale_api.py, api_script.py)

    The development embeds the serial-scale pipeline of [scale_api.py]
    (device discovery, frame parsing, the reading operation and the
    [/read-scale] endpoint) and the tunnel query of [api_script.py] as
    executable Gallina, and proves the properties of the design document
    about them.

    Layout: the Python run-time pieces the program relies on come first
    ([PyStr], [Re], [PyFloat], [Utf8], [PyVal]), then the two source files
    ([ScaleApi], [ApiScript]), the vocabulary of the design document
    ([Design]), first-order readings of the code used to state lemmas
    ([Unfolded], [TunnelDefs]) and sample machines ([Examples]).  The lemmas
    follow ([PyStrFacts], [ReFacts], [ParserFacts], [DeviceFacts],
    [TraceFacts], [TunnelFacts]), with the theorems about the design document
    in [ParserSpec], [DeviceSpec] and [TunnelSpec]. *)

From Stdlib Require Import Ascii String.
From Stdlib Require DecimalString.
From Stdlib Require Import NArith ZArith List Bool Lia.
From Stdlib Require Import Floats.SpecFloat Floats.PrimFloat Floats.FloatOps.
Import ListNotations.

(* ================================================================== *)
(** * Python strings *)
(* ================================================================== *)

Module PyStr.

(** A Python [str] is a sequence of Unicode code points. *)
Definition char := N.
Definition str := list char.

(** ASCII literals of the source, as code points. *)
Definition lit (s : string) : str := map N_of_ascii (list_ascii_of_string s).

Definition ch_dot : char := 46%N.
Definition ch_g : char := 103%N.
Definition ch_k : char := 107%N.
Definition ch_l : char := 108%N.
Definition ch_b : char := 98%N.

Definition is_ascii_digit (c : char) : bool := ((48 <=? c) && (c <=? 57))%N.

(** [str.isspace] on one code point; also the class [\s] of [re] on [str]
    patterns. *)
Definition isspace (c : char) : bool :=
  (((9 <=? c) && (c <=? 13)) || ((28 <=? c) && (c <=? 32))
   || (c =? 133) || (c =? 160) || (c =? 5760)
   || ((8192 <=? c) && (c <=? 8202))
   || (c =? 8232) || (c =? 8233) || (c =? 8239) || (c =? 8287)
   || (c =? 12288))%N.

Fixpoint eqb (a b : str) : bool :=
  match a, b with
  | [], [] => true
  | x :: a', y :: b' => (x =? y)%N && eqb a' b'
  | _, _ => false
  end.

Fixpoint dropwhile (p : char -> bool) (s : str) : str :=
  match s with
  | [] => []
  | c :: t => if p c then dropwhile p t else s
  end.

Fixpoint takewhile (p : char -> bool) (s : str) : str :=
  match s with
  | [] => []
  | c :: t => if p c then c :: takewhile p t else []
  end.

(** [s.strip()]: blanks removed at both ends. *)
Definition lstrip (s : str) : str := dropwhile isspace s.
Definition rstrip (s : str) : str := rev (dropwhile isspace (rev s)).
Definition strip (s : str) : str := rstrip (lstrip s).

(** [s.startswith(p)]. *)
Fixpoint startswith (s p : str) {struct p} : bool :=
  match p, s with
  | [], _ => true
  | x :: p', y :: s' => (x =? y)%N && startswith s' p'
  | _ :: _, [] => false
  end.

(** [p in s] for two strings: [p] occurs in [s] as a substring. *)
Fixpoint contains (s p : str) : bool :=
  startswith s p || match s with [] => false | _ :: t => contains t p end.

(** [s.split(sep)] for a non-empty separator: cut at the occurrences of
    [sep], scanning left to right without overlap.  [skip] counts the
    characters of a separator still to be passed over, [cur] is the piece
    being collected, in reverse. *)
Fixpoint split_from (sep : str) (skip : nat) (cur : str) (s : str) : list str :=
  match s with
  | [] => [rev cur]
  | c :: t =>
      match skip with
      | S n => split_from sep n cur t
      | O =>
          if startswith s sep
          then rev cur :: split_from sep (length sep - 1) [] t
          else split_from sep 0 (c :: cur) t
      end
  end.

Definition split (s sep : str) : list str := split_from sep 0 [] s.

End PyStr.

(* ================================================================== *)
(** * The fragment of Python's [re] the parser uses *)
(* ================================================================== *)

Module Re.
Import PyStr.

(** Patterns.  [x+] is [Seq x (Star x)], [x?] is [Alt x Eps]; both are
    greedy, as in the source patterns. *)
Inductive regex : Type :=
| Eps
| Bol                              (* ^ without MULTILINE *)
| Cls (p : char -> bool)           (* one character of a class *)
| Seq (r1 r2 : regex)
| Alt (r1 r2 : regex)              (* r1|r2, r1 tried first *)
| Star (r : regex)                 (* greedy r* *)
| Group (n : nat) (r : regex).     (* capturing group number n *)

Definition Plus (r : regex) : regex := Seq r (Star r).
Definition Opt (r : regex) : regex := Alt r Eps.

Fixpoint Lit (s : str) : regex :=
  match s with
  | [] => Eps
  | c :: t => Seq (Cls (N.eqb c)) (Lit t)
  end.

(** Captured groups, most recent binding first. *)
Definition groups := list (nat * str).

Fixpoint lookup (n : nat) (g : groups) : option str :=
  match g with
  | [] => None
  | (m, s) :: g' => if Nat.eqb m n then Some s else lookup n g'
  end.

(** The backtracking matcher, in continuation-passing style.  [pos] is the
    index of the next character in the subject and [s] the text from there
    on; the continuation [k] stands for the rest of the pattern, and a [None]
    from it makes the matcher try its next alternative. *)
Definition cont (R : Type) : Type := nat -> str -> groups -> option R.

(** The greedy loop of [r*], given the matcher [body] of [r]: one more
    iteration is tried first, then the rest of the pattern.  An iteration
    that consumes nothing is not repeated, so [fuel = length s] iterations
    are enough. *)
Fixpoint star_loop {R : Type} (body : nat -> str -> groups -> cont R -> option R)
  (k : cont R) (fuel : nat) (pos : nat) (s : str) (g : groups) : option R :=
  match fuel with
  | O => k pos s g
  | S fuel' =>
      match body pos s g
              (fun pos' s' g' =>
                 if Nat.ltb pos pos' then star_loop body k fuel' pos' s' g'
                 else None)
      with
      | Some x => Some x
      | None => k pos s g
      end
  end.

Fixpoint run {R : Type} (r : regex) (pos : nat) (s : str) (g : groups)
  (k : cont R) {struct r} : option R :=
  match r with
  | Eps => k pos s g
  | Bol => if Nat.eqb pos 0 then k pos s g else None
  | Cls p =>
      match s with
      | c :: t => if p c then k (S pos) t g else None
      | [] => None
      end
  | Seq r1 r2 => run r1 pos s g (fun pos' s' g' => run r2 pos' s' g' k)
  | Alt r1 r2 =>
      match run r1 pos s g k with
      | Some x => Some x
      | None => run r2 pos s g k
      end
  | Star r1 => star_loop (run r1) k (length s) pos s g
  | Group n r1 =>
      run r1 pos s g
        (fun pos' s' g' => k pos' s' ((n, firstn (pos' - pos) s) :: g'))
  end.

(** A match object: the whole matched text and the groups. *)
Record match_object : Type := MkMatch { m_text : str; m_groups : groups }.

(** [match.group(n)] for [n >= 1]; [None] when the group took no part. *)
Definition group (n : nat) (m : match_object) : option str := lookup n (m_groups m).

(** [re.match(r, s)]: a match anchored at the start of [s] only; the end of
    the match is wherever the pattern stops. *)
Definition re_match (r : regex) (s : str) : option match_object :=
  run r 0 s [] (fun pos' _ g => Some (MkMatch (firstn pos' s) g)).

(** [re.sub(r, '', s)]: every non-overlapping match, found left to right, is
    deleted.  After an empty match the next one at the same position has to
    be non-empty ([must_advance]); where nothing matches the character is
    kept and the scan moves on. *)
Fixpoint sub_scan (r : regex) (fuel : nat) (pos : nat) (s : str)
  (must_advance : bool) : str :=
  match fuel with
  | O => s
  | S fuel' =>
      match run r pos s []
              (fun pos' s' _ =>
                 if must_advance && Nat.eqb pos' pos then None else Some (pos', s'))
      with
      | Some (pos', s') =>
          if Nat.eqb pos' pos
          then sub_scan r fuel' pos s true
          else sub_scan r fuel' pos' s' false
      | None =>
          match s with
          | [] => []
          | c :: t => c :: sub_scan r fuel' (S pos) t false
          end
      end
  end.

Definition re_sub_empty (r : regex) (s : str) : str :=
  sub_scan r (2 * length s + 2) 0 s false.

End Re.

(* ================================================================== *)
(** * Python floats *)
(* ================================================================== *)

Module PyFloat.
Import PyStr.

(** A Python [float] is an IEEE 754 binary64 number. *)
Definition float := spec_float.
Definition prec : Z := 53.
Definition emax : Z := 1024.

(** The number written by a run of ASCII digits. *)
Definition digit_value (c : char) : Z := (Z.of_N c - 48)%Z.

Definition digits_value (ds : str) : Z :=
  fold_left (fun acc c => (10 * acc + digit_value c)%Z) ds 0%Z.

(** The binary64 number nearest to [n / 10^k] (ties to even), for [n >= 0]. *)
Definition of_decimal (n : Z) (k : nat) : float :=
  match n with
  | Zpos m =>
      SFdiv prec emax (S754_finite false m 0)
        (S754_finite false (Z.to_pos (10 ^ Z.of_nat k)) 0)
  | _ => S754_zero false
  end.

(** [float(s)] on the plain decimal literals [digits] and [digits.digits],
    the only arguments [parse_scale_data] can pass (lemma
    [ParserFacts.number_of_float]).  The builtin accepts further spellings
    (sign, exponent, underscores, [inf], [nan], surrounding blanks); they are
    outside this model, which answers [None], the [ValueError] of the
    builtin, for everything that is not a plain decimal literal. *)
Definition float_of_str (s : str) : option float :=
  let int := takewhile is_ascii_digit s in
  match int, dropwhile is_ascii_digit s with
  | _ :: _, [] => Some (of_decimal (digits_value int) 0)
  | _ :: _, c :: frac =>
      if (c =? ch_dot)%N && forallb is_ascii_digit frac
         && negb (Nat.eqb (length frac) 0)
      then Some (of_decimal (digits_value (int ++ frac)) (length frac))
      else None
  | [], _ => None
  end.

End PyFloat.

(* ================================================================== *)
(** * Byte strings and the UTF-8 codec *)
(* ================================================================== *)

Module Utf8.
Import PyStr.

(** A Python [bytes] object; each element is below 256. *)
Definition bytes := list N.

Definition blit (s : string) : bytes := map N_of_ascii (list_ascii_of_string s).

Definition in_range (lo hi b : N) : bool := ((lo <=? b) && (b <=? hi))%N.

(** A continuation byte, [10xxxxxx]. *)
Definition is_cont (b : N) : bool := in_range 128 191 b.

(** The six payload bits of a continuation byte. *)
Definition low6 (b : N) : N := N.land b 63.

(** [b.decode('utf-8')] with the default strict error handler: [None] is the
    [UnicodeDecodeError].  Overlong forms, surrogates and code points above
    U+10FFFF are rejected through the ranges allowed for the second byte. *)
Fixpoint decode (bs : bytes) : option str :=
  match bs with
  | [] => Some []
  | b0 :: t0 =>
      if (b0 <? 128)%N then option_map (cons b0) (decode t0)
      else if in_range 194 223 b0 then
        match t0 with
        | b1 :: t1 =>
            if is_cont b1
            then option_map (cons (N.lor (N.shiftl (N.land b0 31) 6) (low6 b1)))
                   (decode t1)
            else None
        | _ => None
        end
      else if in_range 224 239 b0 then
        match t0 with
        | b1 :: b2 :: t2 =>
            if in_range (if (b0 =? 224)%N then 160 else 128)
                        (if (b0 =? 237)%N then 159 else 191) b1
               && is_cont b2
            then option_map
                   (cons (N.lor (N.shiftl (N.land b0 15) 12)
                            (N.lor (N.shiftl (low6 b1) 6) (low6 b2))))
                   (decode t2)
            else None
        | _ => None
        end
      else if in_range 240 244 b0 then
        match t0 with
        | b1 :: b2 :: b3 :: t3 =>
            if in_range (if (b0 =? 240)%N then 144 else 128)
                        (if (b0 =? 244)%N then 143 else 191) b1
               && is_cont b2 && is_cont b3
            then option_map
                   (cons (N.lor (N.shiftl (N.land b0 7) 18)
                            (N.lor (N.shiftl (low6 b1) 12)
                               (N.lor (N.shiftl (low6 b2) 6) (low6 b3)))))
                   (decode t3)
            else None
        | _ => None
        end
      else None
  end.

End Utf8.

(* ================================================================== *)
(** * Python values and exceptions *)
(* ================================================================== *)

Module PyVal.
Import PyStr.

(** The values that [dict] literals of the program and [response.json()]
    hold.  A [dict] keeps its entries in insertion order. *)
#[local] Unset Elimination Schemes.
Inductive pyval : Type :=
| PNone
| PBool (b : bool)
| PInt (z : Z)
| PFloat (f : PyFloat.float)
| PStr (s : str)
| PList (l : list pyval)
| PDict (d : list (str * pyval)).
#[local] Set Elimination Schemes.

Fixpoint dict_get (d : list (str * pyval)) (key : str) : option pyval :=
  match d with
  | [] => None
  | (k, v) :: d' => if eqb k key then Some v else dict_get d' key
  end.

(** The exception classes the two files can meet.  [SerialException] stands
    for the class and its subclasses, [RequestException] likewise. *)
Inductive exn_class : Type :=
| SerialException
| UnicodeDecodeError
| RequestException
| ValueError
| AttributeError
| TypeError
| KeyError
| IndexError.

(** An exception: its class and [str(e)]. *)
Record exn : Type := MkExn { exn_class_of : exn_class; exn_str : str }.

Definition is_class (c : exn_class) (e : exn) : bool :=
  match c, exn_class_of e with
  | SerialException, SerialException
  | UnicodeDecodeError, UnicodeDecodeError
  | RequestException, RequestException
  | ValueError, ValueError
  | AttributeError, AttributeError
  | TypeError, TypeError
  | KeyError, KeyError
  | IndexError, IndexError => true
  | _, _ => false
  end.

(** The outcome of evaluating a Python expression. *)
Inductive result (A : Type) : Type :=
| Ret (a : A)
| Raise (e : exn).
Arguments Ret {A} a.
Arguments Raise {A} e.

End PyVal.

(* ================================================================== *)
(** * scale_api.py *)
(* ================================================================== *)

Module ScaleApi.
Import PyStr Re PyFloat Utf8 PyVal.

(** ** The frame parser *)

(** The class [[0-9\.g]]. *)
Definition keeps (c : char) : bool :=
  is_ascii_digit c || (c =? ch_dot)%N || (c =? ch_g)%N.

(** [r'[^0-9\.g]'] *)
Definition pat_noise : regex := Cls (fun c => negb (keeps c)).

(** [r'([0-9]+(?:\.[0-9]+)?)\s*(g|kg|lb)?'], in three pieces: the number
    [[0-9]+(?:\.[0-9]+)?], the units [g|kg|lb], and the whole. *)
Definition pat_number : regex :=
  Seq (Plus (Cls is_ascii_digit))
      (Opt (Seq (Cls (N.eqb ch_dot)) (Plus (Cls is_ascii_digit)))).

Definition pat_unit : regex :=
  Alt (Lit (lit "g")) (Alt (Lit (lit "kg")) (Lit (lit "lb"))).

Definition pat_weight : regex :=
  Seq (Group 1 pat_number) (Seq (Star (Cls isspace)) (Opt (Group 2 pat_unit))).

Section Parser.

(** The class [\d] of a [str] pattern is Unicode category Nd: the ASCII
    digits and the decimal digits of other scripts.  Which code points those
    are depends on the Unicode tables of the interpreter, so the non-ASCII
    part is a parameter. *)
Variable nd_non_ascii : char -> bool.

Definition re_d (c : char) : bool := is_ascii_digit c || nd_non_ascii c.

(** [r'^[^\d]*'] *)
Definition pat_leading : regex := Seq Bol (Star (Cls (fun c => negb (re_d c)))).

(** The value of [cleaned_data] when the pattern is matched (line 63). *)
Definition cleaned_data (raw_data : str) : str :=
  strip (re_sub_empty pat_noise (re_sub_empty pat_leading raw_data)).

(** [parse_scale_data(raw_data)]: the pair [(weight, unit)], both [None] on
    failure.  Group 1 is not optional in the pattern, so a match binds it
    (lemma [ParserFacts.re_match_pat_weight]); the model answers the failure pair
    in the branch where it would be unbound. *)
Definition parse_scale_data (raw_data : str) : option float * option str :=
  let cleaned_data := re_sub_empty pat_leading raw_data in
  let cleaned_data := re_sub_empty pat_noise cleaned_data in
  let cleaned_data := strip cleaned_data in
  match re_match pat_weight cleaned_data with
  | Some mt =>
      match group 1 mt with
      | Some weight =>
          match float_of_str weight with
          | Some weight =>
              let unit :=
                match group 2 mt with
                | Some (c :: u) => c :: u
                | _ => lit "g"
                end in
              (Some weight, Some unit)
          | None => (None, None)
          end
      | None => (None, None)
      end
  | None => (None, None)
  end.

End Parser.

(** ** The host: operating system and serial driver *)

(** What the machine answers, as a function of the moment of the call: the
    state counts the calls made so far ([clock]).  A serial call either
    succeeds or raises [SerialException] with a message. *)
Record host : Type := MkHost {
  os_name_nt : bool;                          (* os.name == 'nt' *)
  listdir_dev : nat -> list str;              (* os.listdir('/dev') *)
  serial_open : str -> nat -> option str;     (* Some msg: the open raises *)
  serial_write : str -> nat -> option str;    (* Some msg: the write raises *)
  serial_readline : str -> nat -> str + bytes (* inl msg: the read raises *)
}.

(** A [serial.Serial] object. *)
Record Serial : Type := MkSerial {
  ser_id : nat;             (* identity of the object *)
  ser_port : str;
  ser_baudrate : Z;
  ser_timeout : Z;
  is_open : bool
}.

(** What the process does to the outside, in order. *)
Inductive event : Type :=
| Print (line : str)
| Listdir (path : str)
| SerialOpen (port : str) (baudrate timeout : Z)
| SerialWrite (ser : nat) (data : bytes)
| SerialReadline (ser : nat).

Record state : Type := MkState {
  clock : nat;              (* calls to the host so far *)
  next_id : nat;            (* identity of the next object created *)
  trace : list event
}.

Definition initial : state := MkState 0 0 [].

(** Computations: state passing, with exceptions. *)
Definition M (A : Type) : Type := state -> result A * state.

Definition ret {A} (a : A) : M A := fun s => (Ret a, s).

Definition bind {A B} (c : M A) (k : A -> M B) : M B :=
  fun s =>
    match c s with
    | (Ret a, s') => k a s'
    | (Raise e, s') => (Raise e, s')
    end.

Definition raise {A} (e : exn) : M A := fun s => (Raise e, s).

(** [try: body / except <classes> as e: handler e]. *)
Definition try_except {A} (body : M A) (caught : exn -> bool)
  (handler : exn -> M A) : M A :=
  fun s =>
    match body s with
    | (Raise e, s') => if caught e then handler e s' else (Raise e, s')
    | r => r
    end.

Declare Scope py_scope.
Delimit Scope py_scope with py.
Notation "x <- c ;; k" := (bind c (fun x => k))
  (at level 61, c at next level, right associativity) : py_scope.
Notation "c ;; k" := (bind c (fun _ => k))
  (at level 61, right associativity) : py_scope.
Local Open Scope py_scope.

Definition emit (e : event) : M unit :=
  fun s => (Ret tt, MkState (clock s) (next_id s) (trace s ++ [e])).

(** A call to the host: logged, and the clock advances. *)
Definition host_call (e : event) : M nat :=
  fun s => (Ret (clock s), MkState (S (clock s)) (next_id s) (trace s ++ [e])).

Definition fresh_id : M nat :=
  fun s => (Ret (next_id s), MkState (clock s) (S (next_id s)) (trace s)).

Definition print (line : str) : M unit := emit (Print line).

Section Program.

Variable nd_non_ascii : char -> bool.

(** [str(e)] of the [UnicodeDecodeError] the codec raises on a byte string;
    the wording is the interpreter's. *)
Variable codec_error_text : bytes -> str.

Variable h : host.

(** [os.listdir(path)], called on ['/dev'] only. *)
Definition listdir (path : str) : M (list str) :=
  t <- host_call (Listdir path) ;;
  ret (listdir_dev h t).

(** [serial.Serial(port, baudrate=..., timeout=...)]: the constructor opens
    the port, so the object it returns is open. *)
Definition Serial_new (port : str) (baudrate timeout : Z) : M Serial :=
  t <- host_call (SerialOpen port baudrate timeout) ;;
  match serial_open h port t with
  | Some msg => raise (MkExn SerialException msg)
  | None =>
      i <- fresh_id ;;
      ret (MkSerial i port baudrate timeout true)
  end.

Definition write (ser : Serial) (data : bytes) : M unit :=
  t <- host_call (SerialWrite (ser_id ser) data) ;;
  match serial_write h (ser_port ser) t with
  | Some msg => raise (MkExn SerialException msg)
  | None => ret tt
  end.

Definition readline (ser : Serial) : M bytes :=
  t <- host_call (SerialReadline (ser_id ser)) ;;
  match serial_readline h (ser_port ser) t with
  | inl msg => raise (MkExn SerialException msg)
  | inr line => ret line
  end.

Definition decode_utf8 (b : bytes) : M str :=
  match decode b with
  | Some s => ret s
  | None => raise (MkExn UnicodeDecodeError (codec_error_text b))
  end.

(** The body of both loops of [find_usb_scale] (lines 33-41 and 45-54): the
    [try] block for one port.  [Some ser] is [return ser]; [None] is the next
    iteration, reached by [continue] or by falling out of the [if]. *)
Definition probe (port : str) : M (option Serial) :=
  try_except
    (ser <- Serial_new port 9600 1 ;;
     if is_open ser then
       write ser (blit "CHECK") ;;
       raw <- readline ser ;;
       data <- decode_utf8 raw ;;
       let data := strip data in
       print (lit "Found USB scale at " ++ port) ;;
       ret (Some ser)
     else ret None)
    (is_class SerialException)
    (fun _ => ret None).

(** [f'{port}'] for a number. *)
Definition decimal (n : nat) : str :=
  lit (DecimalString.NilEmpty.string_of_uint (Nat.to_uint n)).

(** [for port in range(1, 256): ...] *)
Fixpoint scan_com (ports : list nat) : M (option Serial) :=
  match ports with
  | [] => ret None
  | port :: rest =>
      r <- probe (lit "COM" ++ decimal port) ;;
      match r with
      | Some ser => ret (Some ser)
      | None => scan_com rest
      end
  end.

(** [for dev in os.listdir('/dev'): if dev.startswith(...) ...] *)
Fixpoint scan_dev (entries : list str) : M (option Serial) :=
  match entries with
  | [] => ret None
  | dev :: rest =>
      if startswith dev (lit "ttyUSB") || startswith dev (lit "ttyACM") then
        r <- probe (lit "/dev/" ++ dev) ;;
        match r with
        | Some ser => ret (Some ser)
        | None => scan_dev rest
        end
      else scan_dev rest
  end.

Definition find_usb_scale : M (option Serial) :=
  print (lit "Searching for USB scale...") ;;
  if os_name_nt h then scan_com (seq 1 255)
  else
    entries <- listdir (lit "/dev") ;;
    scan_dev entries.

Definition opt_val (o : option str) : pyval :=
  match o with Some s => PStr s | None => PNone end.

(** [read_usb_scale_data()]: the pair of the body [dict] and the status. *)
Definition read_usb_scale_data : M (pyval * Z) :=
  scale <- find_usb_scale ;;
  match scale with
  | None => ret (PDict [(lit "error", PStr (lit "USB scale not found"))], 404%Z)
  | Some scale =>
      try_except
        (raw <- readline scale ;;
         data <- decode_utf8 raw ;;
         let data := strip data in
         let '(weight, unit) := parse_scale_data nd_non_ascii data in
         match weight with
         | Some weight =>
             ret (PDict [(lit "weight", PFloat weight); (lit "unit", opt_val unit)],
                  200%Z)
         | None =>
             ret (PDict [(lit "error",
                          PStr (lit "Failed to parse weight from scale data"))],
                  500%Z)
         end)
        (fun _ => true)
        (fun e =>
           ret (PDict [(lit "error", PStr (lit "Error reading scale: " ++ exn_str e))],
                500%Z))
  end.

(** An HTTP response with a JSON body. *)
Record response : Type := MkResponse { resp_json : pyval; resp_status : Z }.

Definition jsonify (v : pyval) : pyval := v.

(** The view of [GET /read-scale]. *)
Definition read_scale : M response :=
  r <- read_usb_scale_data ;;
  let '(result, status) := r in
  ret (MkResponse (jsonify result) status).

End Program.

End ScaleApi.

(* ================================================================== *)
(** * api_script.py: the tunnel query *)
(* ================================================================== *)

Module ApiScript.
Import PyStr PyVal.

Definition bind {A B} (c : result A) (k : A -> result B) : result B :=
  match c with
  | Ret a => k a
  | Raise e => Raise e
  end.

Definition try_except {A} (body : result A) (caught : exn -> bool)
  (handler : exn -> result A) : result A :=
  match body with
  | Raise e => if caught e then handler e else Raise e
  | r => r
  end.

Declare Scope exc_scope.
Delimit Scope exc_scope with exc.
Notation "x <- c ;; k" := (bind c (fun x => k))
  (at level 61, c at next level, right associativity) : exc_scope.
Local Open Scope exc_scope.

(** The [Response] object of [requests]: the status code, and what
    [response.json()] gives, which raises when the body is not JSON. *)
Record Response : Type := MkResponse {
  status_code : Z;
  json : result pyval
}.

(** The exceptions of the operations below; the texts are shortened, the
    program never looks at them. *)
Definition no_attribute : exn := MkExn AttributeError (lit "object has no attribute").
Definition not_iterable : exn := MkExn TypeError (lit "object is not iterable").
Definition key_error : exn := MkExn KeyError (lit "public_url").
Definition index_error : exn := MkExn IndexError (lit "list index out of range").

(** [v.get(key, default)]: only a [dict] has the method. *)
Definition py_get (v : pyval) (key : str) (default : pyval) : result pyval :=
  match v with
  | PDict d =>
      Ret (match dict_get d key with Some x => x | None => default end)
  | _ => Raise no_attribute
  end.

(** [v[key]] on a [dict]. *)
Definition py_getitem (v : pyval) (key : str) : result pyval :=
  match v with
  | PDict d =>
      match dict_get d key with
      | Some x => Ret x
      | None => Raise key_error
      end
  | _ => Raise (MkExn TypeError (lit "object is not subscriptable"))
  end.

(** The items a [for] loop over [v] visits. *)
Definition py_iter (v : pyval) : result (list pyval) :=
  match v with
  | PList l => Ret l
  | PDict d => Ret (map (fun kv => PStr (fst kv)) d)
  | PStr s => Ret (map (fun c => PStr [c]) s)
  | _ => Raise not_iterable
  end.

Definition is_str (needle : str) (v : pyval) : bool :=
  match v with
  | PStr s => eqb s needle
  | _ => false
  end.

(** [needle in v] for a string [needle]: substring test on a [str],
    membership on a [list], key membership on a [dict]. *)
Definition py_in (needle : str) (v : pyval) : result bool :=
  match v with
  | PStr s => Ret (contains s needle)
  | PList l => Ret (existsb (is_str needle) l)
  | PDict d => Ret (existsb (fun kv => eqb (fst kv) needle) d)
  | _ => Raise not_iterable
  end.

(** [v.split(sep)]: a method of [str]. *)
Definition py_split (v : pyval) (sep : str) : result (list str) :=
  match v with
  | PStr s => Ret (split s sep)
  | _ => Raise no_attribute
  end.

(** [l[-1]] and [l[0]]. *)
Definition last_item (l : list str) : result str :=
  match rev l with
  | x :: _ => Ret x
  | [] => Raise index_error
  end.

Definition first_item (l : list str) : result str :=
  match l with
  | x :: _ => Ret x
  | [] => Raise index_error
  end.

Definition status_dict (url status : str) : pyval :=
  PDict [(lit "url", PStr url); (lit "status", PStr status)].

(** The loop of lines 43-46; [Some d] is [return d], [None] is the end of the
    loop without a [return]. *)
Fixpoint scan_tunnels (items : list pyval) : result (option pyval) :=
  match items with
  | [] => Ret None
  | tunnel :: rest =>
      u <- py_get tunnel (lit "public_url") (PStr []) ;;
      secure <- py_in (lit "https") u ;;
      if secure : bool then
        full_url <- py_getitem tunnel (lit "public_url") ;;
        parts <- py_split full_url (lit "//") ;;
        host <- last_item parts ;;
        labels <- py_split (PStr host) (lit ".") ;;
        label <- first_item labels ;;
        Ret (Some (status_dict label (lit "connected")))
      else scan_tunnels rest
  end.

(** [get_ngrok_url()], as a function of what
    [requests.get("http://127.0.0.1:4040/api/tunnels", timeout=2)] does. *)
Definition get_ngrok_url (requests_get : result Response) : result pyval :=
  try_except
    (response <- requests_get ;;
     found <-
       (if (status_code response =? 200)%Z then
          tunnels <- json response ;;
          listed <- py_get tunnels (lit "tunnels") (PList []) ;;
          items <- py_iter listed ;;
          scan_tunnels items
        else Ret None) ;;
     match found with
     | Some d => Ret d
     | None => Ret (status_dict (lit "Not found") (lit "not_found"))
     end)
    (is_class RequestException)
    (fun _ => Ret (status_dict (lit "Not available") (lit "offline"))).

End ApiScript.

(* ================================================================== *)
(** * The vocabulary of the design document *)
(* ================================================================== *)

Module Design.
Import PyStr Re PyFloat Utf8 PyVal ScaleApi.
Local Open Scope py_scope.

(** The Reading Outcome (section 3).  [Success] carries the two fields of
    the reading as the parser returned them. *)
Inductive ReadingOutcome : Type :=
| Success (value : float) (unit : option str)
| DeviceNotFound
| ParseFailure
| IOError (detail : str).

(** The table of section 4.5. *)
Definition http_of_outcome (o : ReadingOutcome) : response :=
  match o with
  | Success value unit =>
      MkResponse (PDict [(lit "weight", PFloat value); (lit "unit", opt_val unit)])
        200
  | DeviceNotFound =>
      MkResponse (PDict [(lit "error", PStr (lit "USB scale not found"))]) 404
  | ParseFailure =>
      MkResponse
        (PDict [(lit "error", PStr (lit "Failed to parse weight from scale data"))])
        500
  | IOError detail =>
      MkResponse
        (PDict [(lit "error", PStr (lit "Error reading scale: " ++ detail))]) 500
  end.

(** The response the table gives for what the scale sent when the line was
    read: a [SerialException] with its message, or the bytes of the line. *)
Definition line_response (nd_non_ascii : char -> bool)
  (codec_error_text : bytes -> str) (sent : str + bytes) : response :=
  match sent with
  | inl msg => http_of_outcome (IOError msg)
  | inr raw =>
      match decode raw with
      | None => http_of_outcome (IOError (codec_error_text raw))
      | Some text =>
          match parse_scale_data nd_non_ascii (strip text) with
          | (Some value, unit) => http_of_outcome (Success value unit)
          | (None, _) => http_of_outcome ParseFailure
          end
      end
  end.

Definition map_result {A B} (f : A -> B) (r : result A) : result B :=
  match r with
  | Ret a => Ret (f a)
  | Raise e => Raise e
  end.

(** The numeric pattern of section 4.3, step 4: one or more digits,
    optionally a decimal point and more digits. *)
Definition numeric_pattern (s : str) : bool :=
  match takewhile is_ascii_digit s, dropwhile is_ascii_digit s with
  | _ :: _, [] => true
  | _ :: _, c :: frac =>
      (c =? ch_dot)%N && negb (Nat.eqb (length frac) 0)
      && forallb is_ascii_digit frac
  | [], _ => false
  end.

(** The text of a plain decimal number: the digits [int], then, if there are
    decimals, a point and the decimals [frac]. *)
Definition decimal_text (int frac : str) : str :=
  match frac with
  | [] => int
  | _ :: _ => int ++ ch_dot :: frac
  end.

(** The float nearest to the number written [int.frac], which is
    [digits_value (int ++ frac) / 10 ^ length frac]. *)
Definition decimal_value (int frac : str) : float :=
  of_decimal (digits_value (int ++ frac)) (length frac).

(** A URL of the secure scheme (section 4.6). *)
Definition secure_url (u : str) : bool := startswith u (lit "https://").

Definition searching : event := Print (lit "Searching for USB scale...").

Definition is_searching (e : event) : bool :=
  match e with
  | Print line => eqb line (lit "Searching for USB scale...")
  | _ => false
  end.

(** How many times a trace shows the discovery being started. *)
Definition discoveries (tr : list event) : nat := length (filter is_searching tr).

Definition is_open_event (e : event) : bool :=
  match e with
  | SerialOpen _ _ _ => true
  | _ => false
  end.

(** How many times a trace shows a port being opened. *)
Definition opens (tr : list event) : nat := length (filter is_open_event tr).

(** The serial object an event reads from or writes to. *)
Definition used_serial (e : event) : option nat :=
  match e with
  | SerialWrite i _ | SerialReadline i => Some i
  | _ => None
  end.

End Design.

(* ================================================================== *)
(** * The Reading Service and the table of the endpoint, from the design *)
(* ================================================================== *)

Module Service.
Import PyStr PyFloat Utf8 PyVal ScaleApi.
Local Open Scope py_scope.

(** The Reading Outcome of section 3, with the two fields of the Weight
    Reading that the endpoint serializes. *)
Inductive Outcome : Type :=
| Success (value : float) (unit : str)
| DeviceNotFound
| ParseFailure
| IOError (detail : str).

(** The table of section 4.5, row by row. *)
Definition respond (o : Outcome) : response :=
  match o with
  | Success value unit =>
      MkResponse (PDict [(lit "weight", PFloat value); (lit "unit", PStr unit)]) 200
  | DeviceNotFound =>
      MkResponse (PDict [(lit "error", PStr (lit "USB scale not found"))]) 404
  | ParseFailure =>
      MkResponse
        (PDict [(lit "error", PStr (lit "Failed to parse weight from scale data"))])
        500
  | IOError detail =>
      MkResponse
        (PDict [(lit "error", PStr (lit "Error reading scale: " ++ detail))]) 500
  end.

Section Service.
Variable nd_non_ascii : char -> bool.
Variable codec_error_text : bytes -> str.
Variable h : host.

(** [list_candidates()] of section 4.1: the numbered ports 1..255, or the
    entries of the device directory named as USB-serial or ACM devices. *)
Definition list_candidates : M (list str) :=
  if os_name_nt h then ret (map (fun n => lit "COM" ++ decimal n) (seq 1 255))
  else
    entries <- listdir h (lit "/dev") ;;
    ret (map (fun dev => lit "/dev/" ++ dev)
           (filter (fun dev => startswith dev (lit "ttyUSB")
                               || startswith dev (lit "ttyACM")) entries)).

(** [probe(candidate)] of section 4.2: open at the fixed baud rate and
    timeout, send the probe token, read one line back.  Any exception raised
    while opening and probing the candidate, a decode error on the reply
    included, is swallowed and the candidate skipped (sections 4.2 and 7); a
    candidate whose probe completes is accepted, whatever the reply says. *)
Definition probe (candidate : str) : M (option Serial) :=
  try_except
    (handle <- Serial_new h candidate 9600 1 ;;
     write h handle (blit "CHECK") ;;
     raw <- readline h handle ;;
     reply <- decode_utf8 codec_error_text raw ;;
     ret (Some handle))
    (fun _ => true)
    (fun _ => ret None).

(** [find_device()]: the first candidate, in order, whose probe gives a
    handle. *)
Fixpoint first_handle (candidates : list str) : M (option Serial) :=
  match candidates with
  | [] => ret None
  | candidate :: rest =>
      r <- probe candidate ;;
      match r with
      | Some handle => ret (Some handle)
      | None => first_handle rest
      end
  end.

Definition find_device : M (option Serial) :=
  candidates <- list_candidates ;;
  first_handle candidates.

(** The Frame Parser of section 4.3 is [parse_scale_data]; the unit defaults
    to g when the token is absent (step 7). *)
Definition parse (line : str) : option (float * str) :=
  match parse_scale_data nd_non_ascii line with
  | (Some value, Some unit) => Some (value, unit)
  | (Some value, None) => Some (value, lit "g")
  | (None, _) => None
  end.

(** [get_weight()] of section 4.4, without a handle kept between calls: no
    device gives [DeviceNotFound]; an exception while the line is read or
    decoded gives [IOError] with its text; a line that does not parse gives
    [ParseFailure]; a reading gives [Success].  It always returns an
    outcome. *)
Definition get_weight : M Outcome :=
  found <- find_device ;;
  match found with
  | None => ret DeviceNotFound
  | Some handle =>
      try_except
        (raw <- readline h handle ;;
         line <- decode_utf8 codec_error_text raw ;;
         match parse (strip line) with
         | Some (value, unit) => ret (Success value unit)
         | None => ret ParseFailure
         end)
        (fun _ => true)
        (fun e => ret (IOError (exn_str e)))
  end.

End Service.

(** Two states that differ in their traces only: the same moment, the same
    objects created. *)
Definition alike (s s' : state) : Prop :=
  clock s = clock s' /\ next_id s = next_id s'.

End Service.

(* ================================================================== *)
(** * First-order readings of the matcher and of the probe *)
(* ================================================================== *)

(** The functions below say directly what the continuation-passing matcher
    and the monadic probe compute; the lemmas further down prove them equal to
    the code, and the theorems are then proved on these. *)
Module Unfolded.
Import PyStr Re PyFloat Utf8 PyVal ScaleApi Design.
Local Open Scope py_scope.

(** A continuation that accepts wherever it is reached: the rest of a
    pattern all of whose parts can match the empty text. *)
Definition total {R : Type} (k : cont R) : Prop :=
  forall pos s g, k pos s g <> None.

(** The greedy loop over a character class: take characters of the class as
    long as there are any, and give them back one at a time while the rest of
    the pattern refuses. *)
Fixpoint greedy {R : Type} (p : char -> bool) (k : cont R)
  (pos : nat) (s : str) (g : groups) : option R :=
  match s with
  | c :: t =>
      if p c then
        match greedy p k (S pos) t g with
        | Some x => Some x
        | None => k pos s g
        end
      else k pos s g
  | [] => k pos s g
  end.

(** Group 1 on a text: the leading digits, and a point with the digits after
    it when there is at least one; the second component is what follows. *)
Definition number_of (s : str) : option (str * str) :=
  match takewhile is_ascii_digit s with
  | [] => None
  | int =>
      match dropwhile is_ascii_digit s with
      | c :: r =>
          match (c =? ch_dot)%N, takewhile is_ascii_digit r with
          | true, d :: ds => Some (int ++ c :: d :: ds, dropwhile is_ascii_digit r)
          | _, _ => Some (int, c :: r)
          end
      | [] => Some (int, [])
      end
  end.

(** Group 2 on a text: the first alternative of [g|kg|lb] that fits. *)
Definition unit_of (s : str) : option str :=
  if startswith s (lit "g") then Some (lit "g")
  else if startswith s (lit "kg") then Some (lit "kg")
  else if startswith s (lit "lb") then Some (lit "lb")
  else None.

(** How the probe of one port ends. *)
Inductive verdict : Type :=
| Accepted                (* [return ser] *)
| Skipped                 (* [continue] after a [SerialException] *)
| Undecodable.            (* the reply is not UTF-8 *)

(** The probe of [port] started at moment [t]: its verdict and the number of
    host calls it makes. *)
Definition attempt (h : host) (port : str) (t : nat) : verdict * nat :=
  match serial_open h port t with
  | Some _ => (Skipped, 1)
  | None =>
      match serial_write h port (S t) with
      | Some _ => (Skipped, 2)
      | None =>
          match serial_readline h port (S (S t)) with
          | inl _ => (Skipped, 3)
          | inr reply =>
              match decode reply with
              | Some _ => (Accepted, 3)
              | None => (Undecodable, 3)
              end
          end
      end
  end.

(** [skips h ports t t']: probed one after the other from moment [t], every
    port of [ports] is skipped, and the last probe ends at moment [t']. *)
Inductive skips (h : host) : list str -> nat -> nat -> Prop :=
| skips_nil (t : nat) : skips h [] t t
| skips_cons (p : str) (ps : list str) (t n t' : nat) :
    attempt h p t = (Skipped, n) ->
    skips h ps (t + n) t' ->
    skips h (p :: ps) t t'.

(** The candidates of [find_usb_scale], in the order they are tried, given
    the listing of [/dev]. *)
Definition is_tty (dev : str) : bool :=
  startswith dev (lit "ttyUSB") || startswith dev (lit "ttyACM").

Definition candidates (h : host) (listing : list str) : list str :=
  if os_name_nt h then map (fun port => lit "COM" ++ decimal port) (seq 1 255)
  else map (fun dev => lit "/dev/" ++ dev) (filter is_tty listing).

(** The moment the first probe starts: after the listing of [/dev], when
    there is one. *)
Definition first_probe (h : host) (t : nat) : nat :=
  if os_name_nt h then t else S t.

(** One loop for both platforms: the ports are probed in order until one is
    accepted. *)
Fixpoint scan_ports (codec_error_text : bytes -> str) (h : host)
  (ports : list str) : M (option Serial) :=
  match ports with
  | [] => ret None
  | port :: rest =>
      bind (probe codec_error_text h port)
        (fun r =>
           match r with
           | Some ser => ret (Some ser)
           | None => scan_ports codec_error_text h rest
           end)
  end.

(** An event that a call may add to the trace after its discovery has
    started, given the identity [b] of the first serial object the call can
    create: not the start of a discovery, and no use of an older object. *)
Definition later_event (b : nat) (e : event) : bool :=
  negb (is_searching e)
  && match used_serial e with
     | Some i => Nat.leb b i
     | None => true
     end.

(** [extends b s s']: from [s] to [s'] the trace grew by such events only,
    and no identity was given back. *)
Definition extends (b : nat) (s s' : state) : Prop :=
  next_id s <= next_id s' /\
  exists evs, trace s' = trace s ++ evs /\ forallb (later_event b) evs = true.

(** A computation that extends the state that way, and whose value, when it
    returns one, satisfies [Q]. *)
Definition keeps_to {A : Type} (b : nat) (c : M A) (Q : A -> Prop) : Prop :=
  forall s, b <= next_id s ->
    extends b s (snd (c s)) /\
    match fst (c s) with
    | Ret a => Q a
    | Raise _ => True
    end.

(** The state in which the first probe starts. *)
Definition probing_state (h : host) (s : state) : state :=
  MkState (first_probe h (clock s)) (next_id s)
    (trace s ++ searching ::
       (if os_name_nt h then [] else [Listdir (lit "/dev")])).

(** What [read_usb_scale_data] does once the discovery has found, or not
    found, a device. *)
Definition after_discovery (nd_non_ascii : char -> bool)
  (codec_error_text : bytes -> str) (h : host) (scale : option Serial) :
  M (pyval * Z) :=
  match scale with
  | None => ret (PDict [(lit "error", PStr (lit "USB scale not found"))], 404%Z)
  | Some scale =>
      try_except
        (raw <- readline h scale ;;
         data <- decode_utf8 codec_error_text raw ;;
         let data := strip data in
         let '(weight, unit) := parse_scale_data nd_non_ascii data in
         match weight with
         | Some weight =>
             ret (PDict [(lit "weight", PFloat weight); (lit "unit", opt_val unit)],
                  200%Z)
         | None =>
             ret (PDict [(lit "error",
                          PStr (lit "Failed to parse weight from scale data"))],
                  500%Z)
         end)
        (fun _ => true)
        (fun e =>
           ret (PDict [(lit "error", PStr (lit "Error reading scale: " ++ exn_str e))],
                500%Z))
  end.

End Unfolded.

(* ================================================================== *)
(** * The tunnel query, read directly *)
(* ================================================================== *)

Module TunnelDefs.
Import PyStr PyVal ApiScript.

(** The [public_url] a listed tunnel shows to the loop, when the tunnel has
    the expected shape: an object whose [public_url], if present, is a
    string.  An object without the key counts as the empty string, the
    default of the [get]. *)
Definition public_url (tunnel : pyval) : option str :=
  match tunnel with
  | PDict d =>
      match dict_get d (lit "public_url") with
      | Some (PStr u) => Some u
      | Some _ => None
      | None => Some []
      end
  | _ => None
  end.

Fixpoint listed_urls (tunnels : list pyval) : option (list str) :=
  match tunnels with
  | [] => Some []
  | t :: rest =>
      match public_url t, listed_urls rest with
      | Some u, Some us => Some (u :: us)
      | _, _ => None
      end
  end.

(** What lines 45-46 make of a URL: the text after the last ["//"], up to
    its first ["."]. *)
Definition label_of (u : str) : str :=
  match rev (split u (lit "//")) with
  | host :: _ =>
      match split host (lit ".") with
      | label :: _ => label
      | [] => []
      end
  | [] => []
  end.

Definition not_found : pyval := status_dict (lit "Not found") (lit "not_found").
Definition offline : pyval := status_dict (lit "Not available") (lit "offline").
Definition connected (label : str) : pyval := status_dict label (lit "connected").

(** The [state] of the Tunnel Status a result stands for. *)
Definition state_of (r : result pyval) : option str :=
  match r with
  | Ret (PDict d) =>
      match dict_get d (lit "status") with
      | Some (PStr s) => Some s
      | _ => None
      end
  | _ => None
  end.

End TunnelDefs.

(* ================================================================== *)
(** * Sample machines and answers *)
(* ================================================================== *)

Module Examples.
Import PyStr Re PyFloat Utf8 PyVal ScaleApi Design Unfolded.

(** A table for [\d] with the Arabic-Indic digits besides the ASCII ones. *)
Definition nd_arabic (c : char) : bool := ((1632 <=? c) && (c <=? 1641))%N.

(** The text CPython gives the codec error on [b'\xff\n']. *)
Definition codec_text (b : bytes) : str :=
  lit "'utf-8' codec can't decode byte 0xff in position 0: invalid start byte".

Definition crlf : bytes := [13; 10]%N.

(** A machine with [/dev/ttyUSB0] and [/dev/ttyUSB1]: both open and take the
    probe; the first answers every read with [reply0], the second with a
    weight. *)
Definition two_ports (reply0 : str + bytes) : host :=
  MkHost false
    (fun _ => [lit "tty0"; lit "ttyUSB0"; lit "ttyUSB1"])
    (fun _ _ => None)
    (fun _ _ => None)
    (fun port _ =>
       if eqb port (lit "/dev/ttyUSB0") then reply0
       else inr (blit "12.5g" ++ crlf)).

(** A machine with one scale on [/dev/ttyUSB0] that sends [line] at every
    read. *)
Definition one_port (line : bytes) : host :=
  MkHost false (fun _ => [lit "ttyUSB0"]) (fun _ _ => None) (fun _ _ => None)
    (fun _ _ => inr line).

(** One scale that answers the probe (the read at moment 3) with text and
    sends bytes that are not UTF-8 afterwards. *)
Definition garbage_after_probe : host :=
  MkHost false (fun _ => [lit "ttyUSB0"]) (fun _ _ => None) (fun _ _ => None)
    (fun _ t => if Nat.leb t 3 then inr (blit "OK" ++ crlf) else inr [255; 10]%N).

(** A machine on which no port opens. *)
Definition no_port : host :=
  MkHost false (fun _ => [lit "ttyUSB0"; lit "ttyACM0"])
    (fun _ _ => Some (lit "could not open port"))
    (fun _ _ => None) (fun _ _ => inr []).

Definition busy : str :=
  lit "device reports readiness to read but returned no data".

(** The answer of a tunnel manager with one plain and one secure tunnel. *)
Definition two_tunnels : list (str * pyval) :=
  [(lit "tunnels",
    PList [PDict [(lit "name", PStr (lit "command_line (http)"));
                  (lit "public_url", PStr (lit "http://ab12cd.ngrok.io"));
                  (lit "proto", PStr (lit "http"))];
           PDict [(lit "name", PStr (lit "command_line"));
                  (lit "public_url", PStr (lit "https://ab12cd.ngrok.io"));
                  (lit "proto", PStr (lit "https"))]]);
   (lit "uri", PStr (lit "/api/tunnels"))].

End Examples.

(* ================================================================== *)
(** * Measures of results and traces *)
(* ================================================================== *)

Module Measures.
Import PyStr PyFloat Utf8 PyVal ScaleApi.

(** A float that is zero, a positive number or plus infinity: neither
    negative (not even minus zero) nor a NaN. *)
Definition is_nonneg (w : float) : bool :=
  match w with
  | S754_zero false | S754_finite false _ _ | S754_infinity false => true
  | _ => false
  end.

(** The serial traffic a request is entitled to, given the candidate ports:
    opening one of them at 9600 baud with a timeout of one second, writing
    the probe, reading a line, listing [/dev]. *)
Definition entitled (ports : list str) (e : event) : Prop :=
  match e with
  | SerialOpen port baudrate timeout =>
      In port ports /\ baudrate = 9600%Z /\ timeout = 1%Z
  | SerialWrite _ data => data = blit "CHECK"
  | Listdir path => path = lit "/dev"
  | SerialReadline _ | Print _ => True
  end.

Definition is_write_event (e : event) : bool :=
  match e with
  | SerialWrite _ _ => true
  | _ => false
  end.

(** How many times a trace shows a write to a port. *)
Definition writes (tr : list event) : nat := length (filter is_write_event tr).

End Measures.

(* ================================================================== *)
(** * The window: [api_script.py], the client of the two services *)
(* ================================================================== *)

Module Window.
Import PyStr PyFloat PyVal.

(** ** Exceptions and computations *)

(** Besides the classes of [PyVal], the window can meet the [OverflowError]
    of [float] on a large [int] and the exception of [pyperclip]. *)
Inductive error : Type :=
| Known (e : exn)
| OverflowError (text : str)
| PyperclipException (text : str).

(** [str(e)]. *)
Definition error_str (e : error) : str :=
  match e with
  | Known e => exn_str e
  | OverflowError text | PyperclipException text => text
  end.

Definition is_known (c : exn_class) (e : error) : bool :=
  match e with
  | Known e => is_class c e
  | _ => false
  end.

Inductive outcome (A : Type) : Type :=
| Done (a : A)
| Failed (e : error).
Arguments Done {A} a.
Arguments Failed {A} e.

(** ** Widgets *)

(** The labels the two handlers write to. *)
Inductive widget : Type :=
| weight_value
| weight_status
| ngrok_value
| ngrok_status
| status_label.

Definition widget_eqb (a b : widget) : bool :=
  match a, b with
  | weight_value, weight_value
  | weight_status, weight_status
  | ngrok_value, ngrok_value
  | ngrok_status, ngrok_status
  | status_label, status_label => true
  | _, _ => false
  end.

Record QLabel : Type := MkQLabel { text : str; styleSheet : str }.

Inductive Icon : Type := Information | Warning.

(** What the window does to the outside: lines on the standard output, texts
    put on the clipboard, message boxes shown.  A message box carries one of
    two style sheets, the dark one or the light one. *)
Inductive output : Type :=
| Print (line : str)
| Copy (content : str)
| MessageBox (icon : Icon) (title message : str) (dark : bool).

(** The part of a [ScaleApp] object the two handlers read and write. *)
Record ScaleApp : Type := MkScaleApp {
  label : widget -> QLabel;
  current_ngrok_url : pyval;
  is_dark_mode : bool;
  outputs : list output
}.

Definition W (A : Type) : Type := ScaleApp -> outcome A * ScaleApp.

Definition ret {A} (a : A) : W A := fun s => (Done a, s).

Definition bind {A B} (c : W A) (k : A -> W B) : W B :=
  fun s =>
    match c s with
    | (Done a, s') => k a s'
    | (Failed e, s') => (Failed e, s')
    end.

Definition raise {A} (e : error) : W A := fun s => (Failed e, s).

Definition try_except {A} (body : W A) (caught : error -> bool)
  (handler : error -> W A) : W A :=
  fun s =>
    match body s with
    | (Failed e, s') => if caught e then handler e s' else (Failed e, s')
    | r => r
    end.

(** The result of a function of [ApiScript] inside a handler. *)
Definition call {A} (r : result A) : W A :=
  match r with
  | Ret a => ret a
  | Raise e => raise (Known e)
  end.

Declare Scope gui_scope.
Delimit Scope gui_scope with gui.
Notation "x <- c ;; k" := (bind c (fun x => k))
  (at level 61, c at next level, right associativity) : gui_scope.
Notation "c ;; k" := (bind c (fun _ => k))
  (at level 61, right associativity) : gui_scope.

Definition print (line : str) : W unit :=
  fun s =>
    (Done tt,
     MkScaleApp (label s) (current_ngrok_url s) (is_dark_mode s)
       (outputs s ++ [Print line])).

Definition update_label (w : widget) (f : QLabel -> QLabel) : W unit :=
  fun s =>
    (Done tt,
     MkScaleApp (fun w' => if widget_eqb w w' then f (label s w') else label s w')
       (current_ngrok_url s) (is_dark_mode s) (outputs s)).

(** [self.<w>.setText(v)]: the argument is a [str], or [None] for the empty
    text; Qt calls are taken to succeed on arguments of the right type. *)
Definition setText (w : widget) (v : pyval) : W unit :=
  match v with
  | PStr s => update_label w (fun l => MkQLabel s (styleSheet l))
  | PNone => update_label w (fun l => MkQLabel [] (styleSheet l))
  | _ =>
      raise (Known (MkExn TypeError (lit "setText: argument 1 has unexpected type")))
  end.

Definition setStyleSheet (w : widget) (sheet : str) : W unit :=
  update_label w (fun l => MkQLabel (text l) sheet).

(** [self.current_ngrok_url = v] *)
Definition set_current_ngrok_url (v : pyval) : W unit :=
  fun s => (Done tt, MkScaleApp (label s) v (is_dark_mode s) (outputs s)).

Definition get_current_ngrok_url : W pyval :=
  fun s => (Done (current_ngrok_url s), s).

(** ** Builtins *)

(** The wording of the interpreter's [TypeError] and [ValueError] messages
    is shortened: the handlers print it and never look at it. *)

(** [v[key]] for a [str] key; [str(KeyError(key))] is the [repr] of the key,
    written here for keys without quotes or escapes. *)
Definition subscript (v : pyval) (key : str) : result pyval :=
  match v with
  | PDict d =>
      match dict_get d key with
      | Some x => Ret x
      | None => Raise (MkExn KeyError (lit "'" ++ key ++ lit "'"))
      end
  | _ => Raise (MkExn TypeError (lit "object is not subscriptable"))
  end.

(** [v == s] for a [str] [s]. *)
Definition equals_str (v : pyval) (s : str) : bool :=
  match v with
  | PStr x => eqb x s
  | _ => false
  end.

(** [float(n)] for an [int]: the nearest binary64 number, ties to even. *)
Definition float_of_int (z : Z) : float := binary_normalize prec emax z 0 false.

(** A natural number in decimal. *)
Definition decimal_of_N (n : N) : str :=
  lit (DecimalString.NilEmpty.string_of_uint (N.to_uint n)).

(** The number of tenths nearest to [m * 2^e], ties to even. *)
Definition tenths (m : positive) (e : Z) : Z :=
  match e with
  | Zneg p =>
      let num := (Zpos m * 10)%Z in
      let den := (2 ^ Zpos p)%Z in
      let q := (num / den)%Z in
      let r := (num mod den)%Z in
      if (den <? 2 * r)%Z then (q + 1)%Z
      else if (2 * r =? den)%Z && Z.odd q then (q + 1)%Z
      else q
  | _ => (Zpos m * 2 ^ e * 10)%Z
  end.

Definition sign_text (s : bool) : str := if s then lit "-" else [].

(** [format(x, '.1f')]: one decimal, the exact value of [x] rounded to the
    nearest tenth, ties to even. *)
Definition format_1f (x : float) : str :=
  match x with
  | S754_nan => lit "nan"
  | S754_infinity s => sign_text s ++ lit "inf"
  | S754_zero s => sign_text s ++ lit "0.0"
  | S754_finite s m e =>
      let t := tenths m e in
      sign_text s ++ decimal_of_N (Z.to_N (t / 10)) ++ lit "."
        ++ decimal_of_N (Z.to_N (t mod 10))
  end.

(** ** The functions of the file *)

Definition reading (weight unit : pyval) (status : str) : pyval :=
  PDict [(lit "weight", weight); (lit "unit", unit); (lit "status", PStr status)].

(** [get_weight()] (lines 25-35), as a function of what
    [requests.get("http://127.0.0.1:5000/read-scale", timeout=2)] does. *)
Definition get_weight (requests_get : result ApiScript.Response) : result pyval :=
  ApiScript.try_except
    (ApiScript.bind requests_get (fun response =>
     if (ApiScript.status_code response =? 200)%Z then
       ApiScript.bind (ApiScript.json response) (fun data =>
       ApiScript.bind (subscript data (lit "weight")) (fun weight =>
       ApiScript.bind (subscript data (lit "unit")) (fun unit =>
       Ret (reading weight unit (lit "connected")))))
     else Ret (reading (PStr (lit "0.0")) (PStr (lit "g")) (lit "error"))))
    (is_class RequestException)
    (fun _ => Ret (reading (PStr (lit "0.0")) (PStr (lit "g")) (lit "disconnected"))).

(** The marks of the status texts, as the code points the file holds. *)
Definition mark_ok : str := [8218; 250; 236]%N.
Definition mark_warning : str := [8218; 246; 8224]%N.
Definition mark_off : str := [8218; 250; 243]%N.

Definition green : str := lit "color: #2ecc71; font-weight: bold;".
Definition orange : str := lit "color: #f39c12; font-weight: bold;".
Definition red : str := lit "color: #e74c3c; font-weight: bold;".

Local Open Scope gui_scope.

Section Handlers.

(** [str(v)] for a value that is not a [str]: the spelling of numbers,
    lists and dicts is the interpreter's. *)
Variable str_of : pyval -> str.

(** [float(s)] on the texts that are not plain decimal literals: signs,
    exponents, [inf], [nan], underscores, surrounding blanks and the decimal
    digits of other scripts are the interpreter's business; [None] is the
    [ValueError]. *)
Variable float_of_text : str -> option float.

(** A value inside an f-string. *)
Definition fmt (v : pyval) : str :=
  match v with
  | PStr s => s
  | _ => str_of v
  end.

(** [float(v)] *)
Definition py_float (v : pyval) : W float :=
  match v with
  | PFloat f => ret f
  | PInt z =>
      match float_of_int z with
      | S754_infinity _ =>
          raise (OverflowError (lit "int too large to convert to float"))
      | f => ret f
      end
  | PBool b => ret (float_of_int (if b then 1 else 0))
  | PStr s =>
      match float_of_str s with
      | Some f => ret f
      | None =>
          match float_of_text s with
          | Some f => ret f
          | None =>
              raise (Known (MkExn ValueError (lit "could not convert string to float")))
          end
      end
  | PNone | PList _ | PDict _ =>
      raise (Known (MkExn TypeError
                      (lit "float() argument must be a string or a real number")))
  end.

(** [update_info] (lines 533-583), given what the two requests do. *)
Definition update_info (scale_request tunnel_request : result ApiScript.Response) :
  W unit :=
  try_except
    (weight_data <- call (get_weight scale_request) ;;
     formatted_weight <-
       try_except
         (weight <- call (subscript weight_data (lit "weight")) ;;
          weight_value <- py_float weight ;;
          unit <- call (subscript weight_data (lit "unit")) ;;
          ret (format_1f weight_value ++ lit " " ++ fmt unit))
         (fun e => is_known ValueError e || is_known TypeError e)
         (fun _ =>
            weight <- call (subscript weight_data (lit "weight")) ;;
            unit <- call (subscript weight_data (lit "unit")) ;;
            ret (fmt weight ++ lit " " ++ fmt unit)) ;;
     setText weight_value (PStr formatted_weight) ;;
     status <- call (subscript weight_data (lit "status")) ;;
     (if equals_str status (lit "connected") then
        setText weight_status (PStr (mark_ok ++ lit " Connected")) ;;
        setStyleSheet weight_status green
      else
        status <- call (subscript weight_data (lit "status")) ;;
        if equals_str status (lit "error") then
          setText weight_status (PStr (mark_warning ++ lit " Scale Error")) ;;
          setStyleSheet weight_status orange
        else
          setText weight_status (PStr (mark_off ++ lit " Disconnected")) ;;
          setStyleSheet weight_status red ;;
          setText status_label
            (PStr (lit "Status: Scale disconnected. Check USB connection."))) ;;
     ngrok_data <- call (ApiScript.get_ngrok_url tunnel_request) ;;
     url <- call (subscript ngrok_data (lit "url")) ;;
     setText ngrok_value url ;;
     url <- call (subscript ngrok_data (lit "url")) ;;
     set_current_ngrok_url url ;;
     status <- call (subscript ngrok_data (lit "status")) ;;
     if equals_str status (lit "connected") then
       setText ngrok_status (PStr (mark_ok ++ lit " Tunnel Active")) ;;
       setStyleSheet ngrok_status green ;;
       setText status_label (PStr (lit "Status: System online and ready"))
     else
       status <- call (subscript ngrok_data (lit "status")) ;;
       if equals_str status (lit "offline") then
         setText ngrok_status (PStr (mark_off ++ lit " Ngrok Offline")) ;;
         setStyleSheet ngrok_status red ;;
         setText status_label (PStr (lit "Status: Ngrok is not running"))
       else
         setText ngrok_status (PStr (mark_warning ++ lit " Tunnel Not Found")) ;;
         setStyleSheet ngrok_status orange ;;
         setText status_label (PStr (lit "Status: No active Ngrok tunnel found")))
    (fun _ => true)
    (fun e =>
       print (lit "Error updating info: " ++ error_str e) ;;
       setText status_label (PStr (lit "Status: Error updating information")) ;;
       setText weight_value (PStr (lit "0.0 g"))).

(** A message box, shown until it is closed: the body shared by
    [show_message] (lines 600-648) and [show_error] (lines 650-701). *)
Definition message_box (icon : Icon) (title message : str) : W unit :=
  fun s =>
    (Done tt,
     MkScaleApp (label s) (current_ngrok_url s) (is_dark_mode s)
       (outputs s ++ [MessageBox icon title message (is_dark_mode s)])).

Definition show_message (title message : str) : W unit :=
  message_box Information title message.

Definition show_error (message : str) : W unit :=
  try_except
    (message_box Warning (lit "Error") message)
    (fun _ => true)
    (fun e => print (lit "Error showing message box: " ++ error_str e)).

(** [pyperclip.copy(v)]: numbers and booleans are copied as their [str],
    other values that are not a [str] are refused; [refusal] is the message
    of the exception when the platform has no way to copy. *)
Definition pyperclip_copy (refusal : option str) (v : pyval) : W unit :=
  match v with
  | PStr _ | PInt _ | PFloat _ | PBool _ =>
      match refusal with
      | Some msg => raise (PyperclipException msg)
      | None =>
          fun s =>
            (Done tt,
             MkScaleApp (label s) (current_ngrok_url s) (is_dark_mode s)
               (outputs s ++ [Copy (fmt v)]))
      end
  | _ =>
      raise
        (PyperclipException
           (lit "only str, int, float, and bool values can be copied to the clipboard"))
  end.

(** [copy_ngrok_url] (lines 585-598), the handler of the copy button. *)
Definition copy_ngrok_url (refusal : option str) : W unit :=
  try_except
    (url <- get_current_ngrok_url ;;
     if negb (equals_str url (lit "Not available") || equals_str url (lit "Not found"))
     then
       url <- get_current_ngrok_url ;;
       pyperclip_copy refusal url ;;
       url <- get_current_ngrok_url ;;
       setText status_label
         (PStr (lit "Status: Copied '" ++ fmt url ++ lit "' to clipboard")) ;;
       url <- get_current_ngrok_url ;;
       show_message (lit "Copied")
         (lit "Ngrok subdomain '" ++ fmt url ++ lit "' copied to clipboard!")
     else
       setText status_label
         (PStr (lit "Status: Nothing to copy - Ngrok not available")) ;;
       show_error (lit "Ngrok is not running or no tunnel is available."))
    (fun _ => true)
    (fun e =>
       print (lit "Error copying URL: " ++ error_str e) ;;
       setText status_label (PStr (lit "Status: Error copying to clipboard"))).

End Handlers.

End Window.

(* ================================================================== *)
(** * The handlers of the window, taken apart *)
(* ================================================================== *)

Module WindowParts.
Import PyStr PyFloat PyVal Window.
Local Open Scope gui_scope.

Section Parts.
Variable str_of : pyval -> str.
Variable float_of_text : str -> option float.

(** Lines 536-559: the weight. *)
Definition weight_section (scale_request : result ApiScript.Response) : W unit :=
  weight_data <- call (get_weight scale_request) ;;
  formatted_weight <-
    try_except
      (weight <- call (subscript weight_data (lit "weight")) ;;
       weight_value <- py_float float_of_text weight ;;
       unit <- call (subscript weight_data (lit "unit")) ;;
       ret (format_1f weight_value ++ lit " " ++ fmt str_of unit))
      (fun e => is_known ValueError e || is_known TypeError e)
      (fun _ =>
         weight <- call (subscript weight_data (lit "weight")) ;;
         unit <- call (subscript weight_data (lit "unit")) ;;
         ret (fmt str_of weight ++ lit " " ++ fmt str_of unit)) ;;
  setText weight_value (PStr formatted_weight) ;;
  status <- call (subscript weight_data (lit "status")) ;;
  if equals_str status (lit "connected") then
    setText weight_status (PStr (mark_ok ++ lit " Connected")) ;;
    setStyleSheet weight_status green
  else
    status <- call (subscript weight_data (lit "status")) ;;
    if equals_str status (lit "error") then
      setText weight_status (PStr (mark_warning ++ lit " Scale Error")) ;;
      setStyleSheet weight_status orange
    else
      setText weight_status (PStr (mark_off ++ lit " Disconnected")) ;;
      setStyleSheet weight_status red ;;
      setText status_label
        (PStr (lit "Status: Scale disconnected. Check USB connection.")).

(** Lines 561-577: the tunnel. *)
Definition tunnel_section (tunnel_request : result ApiScript.Response) : W unit :=
  ngrok_data <- call (ApiScript.get_ngrok_url tunnel_request) ;;
  url <- call (subscript ngrok_data (lit "url")) ;;
  setText ngrok_value url ;;
  url <- call (subscript ngrok_data (lit "url")) ;;
  set_current_ngrok_url url ;;
  status <- call (subscript ngrok_data (lit "status")) ;;
  if equals_str status (lit "connected") then
    setText ngrok_status (PStr (mark_ok ++ lit " Tunnel Active")) ;;
    setStyleSheet ngrok_status green ;;
    setText status_label (PStr (lit "Status: System online and ready"))
  else
    status <- call (subscript ngrok_data (lit "status")) ;;
    if equals_str status (lit "offline") then
      setText ngrok_status (PStr (mark_off ++ lit " Ngrok Offline")) ;;
      setStyleSheet ngrok_status red ;;
      setText status_label (PStr (lit "Status: Ngrok is not running"))
    else
      setText ngrok_status (PStr (mark_warning ++ lit " Tunnel Not Found")) ;;
      setStyleSheet ngrok_status orange ;;
      setText status_label (PStr (lit "Status: No active Ngrok tunnel found")).

(** Lines 579-583: the handler. *)
Definition update_failed (e : error) : W unit :=
  print (lit "Error updating info: " ++ error_str e) ;;
  setText status_label (PStr (lit "Status: Error updating information")) ;;
  setText weight_value (PStr (lit "0.0 g")).

End Parts.

(** The texts the status line can show after an update. *)
Definition online : str := lit "Status: System online and ready".
Definition tunnel_offline : str := lit "Status: Ngrok is not running".
Definition tunnel_missing : str := lit "Status: No active Ngrok tunnel found".
Definition update_error : str := lit "Status: Error updating information".
Definition scale_disconnected : str :=
  lit "Status: Scale disconnected. Check USB connection.".

(** The text of a label. *)
Definition shown (s : ScaleApp) (w : widget) : str := text (label s w).

(** The texts put on the clipboard, in order. *)
Definition copied (out : list output) : list str :=
  flat_map (fun o => match o with Copy content => [content] | _ => [] end) out.

(** A computation that leaves the kept URL and the outputs alone. *)
Definition quiet {A : Type} (c : W A) : Prop :=
  forall g,
    current_ngrok_url (snd (c g)) = current_ngrok_url g /\
    outputs (snd (c g)) = outputs g.

(** ** Numbers on display *)

(** What [float(v)] makes of a JSON number, a float or an integer; the
    overflow of a large integer is told by [too_large]. *)
Definition float_value (v : pyval) : option float :=
  match v with
  | PFloat f => Some f
  | PInt z => Some (float_of_int z)
  | _ => None
  end.

(** An integer that [float] refuses with an [OverflowError]. *)
Definition too_large (v : pyval) : bool :=
  match v with
  | PInt z =>
      match float_of_int z with
      | S754_infinity _ => true
      | _ => false
      end
  | _ => false
  end.

Definition is_finite (w : float) : bool :=
  match w with
  | S754_zero _ | S754_finite _ _ _ => true
  | _ => false
  end.

(** A text made of a sign or none, the digits of a natural number, a point
    and one digit. *)
Definition one_decimal (negative : bool) (t : str) : Prop :=
  exists n d : N,
    (d <= 9)%N /\
    t = sign_text negative ++ decimal_of_N n ++ lit "." ++ decimal_of_N d.

(** The sign bit of a float that is not a NaN. *)
Definition sign_of (w : float) : bool :=
  match w with
  | S754_zero s | S754_infinity s | S754_finite s _ _ => s
  | S754_nan => false
  end.

(** ** The two programs together *)

(** What the client gets when the view of [GET /read-scale] has run and the
    answer arrives: the status and the JSON body the view returned; when the
    view raised, the 500 page of the web framework, which is not JSON. *)
Definition served (r : result ScaleApi.response) : ApiScript.Response :=
  match r with
  | Ret resp =>
      ApiScript.MkResponse (ScaleApi.resp_status resp) (Ret (ScaleApi.resp_json resp))
  | Raise _ =>
      ApiScript.MkResponse 500 (Raise (MkExn RequestException (lit "Expecting value")))
  end.

(** A window that shows the texts its widgets are created with; style
    sheets are left empty, the handlers never read them. *)
Definition sample_window : ScaleApp :=
  MkScaleApp
    (fun w =>
       match w with
       | weight_value => MkQLabel (lit "0.0 g") []
       | weight_status | ngrok_status => MkQLabel (lit "Connecting...") []
       | ngrok_value => MkQLabel (lit "--") []
       | status_label => MkQLabel (lit "Status: Initializing...") []
       end)
    (PStr (lit "Not available")) true [].

End WindowParts.

(* ================================================================== *)
(** * Facts about strings *)
(* ================================================================== *)

Module PyStrFacts.
Import PyStr.

Lemma takewhile_dropwhile (p : char -> bool) (s : str) :
  takewhile p s ++ dropwhile p s = s.
Proof.
  induction s as [|c t IH]; simpl; [reflexivity|].
  destruct (p c); simpl; [now rewrite IH | reflexivity].
Qed.

Lemma takewhile_all (p : char -> bool) (s : str) :
  forallb p (takewhile p s) = true.
Proof.
  induction s as [|c t IH]; simpl; [reflexivity|].
  destruct (p c) eqn:E; simpl; [now rewrite E | reflexivity].
Qed.

Lemma takewhile_app_stop (p : char -> bool) (a b : str) :
  forallb p a = true ->
  match b with [] => True | c :: _ => p c = false end ->
  takewhile p (a ++ b) = a /\ dropwhile p (a ++ b) = b.
Proof.
  intros Ha Hb. induction a as [|c t IH]; simpl in *.
  - destruct b as [|c t]; simpl; [split; reflexivity|]. rewrite Hb. split; reflexivity.
  - apply andb_true_iff in Ha as [Hc Ht]. rewrite Hc.
    destruct (IH Ht) as [-> ->]. split; reflexivity.
Qed.

Lemma dropwhile_forall (p q : char -> bool) (s : str) :
  forallb q s = true -> forallb q (dropwhile p s) = true.
Proof.
  induction s as [|c t IH]; simpl; [reflexivity|].
  intros H. apply andb_true_iff in H as [Hc Ht].
  destruct (p c); [auto|]. simpl. now rewrite Hc, Ht.
Qed.

Lemma dropwhile_none (p : char -> bool) (s : str) :
  forallb (fun c => negb (p c)) s = true -> dropwhile p s = s.
Proof.
  destruct s as [|c t]; simpl; [reflexivity|].
  intros H. apply andb_true_iff in H as [Hc _].
  apply negb_true_iff in Hc. now rewrite Hc.
Qed.

Lemma forallb_rev (p : char -> bool) (s : str) :
  forallb p (rev s) = forallb p s.
Proof.
  induction s as [|c t IH]; simpl; [reflexivity|].
  rewrite forallb_app, IH. simpl. rewrite andb_true_r. apply andb_comm.
Qed.

(** Stripping changes nothing in a text without blanks. *)
Lemma strip_no_space (s : str) :
  forallb (fun c => negb (isspace c)) s = true -> strip s = s.
Proof.
  intros H. unfold strip, rstrip, lstrip.
  rewrite (dropwhile_none _ s H).
  rewrite dropwhile_none by now rewrite forallb_rev.
  apply rev_involutive.
Qed.

Lemma forallb_impl (p q : char -> bool) (s : str) :
  (forall c, p c = true -> q c = true) ->
  forallb p s = true -> forallb q s = true.
Proof.
  intros Hpq. induction s as [|c t IH]; simpl; [reflexivity|].
  intros H. apply andb_true_iff in H as [Hc Ht].
  now rewrite (Hpq _ Hc), IH.
Qed.

End PyStrFacts.

(* ================================================================== *)
(** * Facts about the matcher *)
(* ================================================================== *)

Module ReFacts.
Import PyStr Re Unfolded PyStrFacts.

Lemma first_success {R : Type} (a b : option R) :
  a <> None -> match a with Some x => Some x | None => b end = a.
Proof. destruct a; [reflexivity | congruence]. Qed.

Lemma star_loop_cls {R : Type} (p : char -> bool) (k : cont R) :
  forall fuel pos s g, length s <= fuel ->
    star_loop (run (Cls p)) k fuel pos s g = greedy p k pos s g.
Proof.
  induction fuel as [|fuel IH]; intros pos s g Hlen.
  - destruct s; [reflexivity | simpl in Hlen; lia].
  - destruct s as [|c t]; simpl; [reflexivity|].
    destruct (p c); [|reflexivity].
    assert (Hlt : Nat.ltb pos (S pos) = true) by (apply Nat.ltb_lt; lia).
    rewrite Hlt. rewrite IH by (simpl in Hlen; lia). reflexivity.
Qed.

Lemma run_star_cls {R : Type} (p : char -> bool) (k : cont R) pos s g :
  run (Star (Cls p)) pos s g k = greedy p k pos s g.
Proof. simpl. now apply star_loop_cls. Qed.

Lemma run_plus_cls {R : Type} (p : char -> bool) (k : cont R) pos s g :
  run (Plus (Cls p)) pos s g k =
  match s with
  | c :: t => if p c then greedy p k (S pos) t g else None
  | [] => None
  end.
Proof.
  unfold Plus. cbn [run]. destruct s as [|c t]; [reflexivity|].
  destruct (p c); [|reflexivity]. now apply star_loop_cls.
Qed.

(** When the rest of the pattern accepts, the loop takes the longest run. *)
Lemma greedy_total {R : Type} (p : char -> bool) (k : cont R) :
  total k ->
  forall s pos g,
    greedy p k pos s g = k (pos + length (takewhile p s)) (dropwhile p s) g.
Proof.
  intros Hk. induction s as [|c t IH]; intros pos g; simpl.
  - now rewrite Nat.add_0_r.
  - destruct (p c); simpl.
    + rewrite IH. rewrite first_success by apply Hk.
      f_equal. lia.
    + now rewrite Nat.add_0_r.
Qed.

(** When the class does not match the next character, nothing is taken. *)
Lemma greedy_stop {R : Type} (p : char -> bool) (k : cont R) pos s g :
  takewhile p s = [] -> greedy p k pos s g = k pos s g.
Proof.
  destruct s as [|c t]; simpl; [reflexivity|].
  destruct (p c); [discriminate | reflexivity].
Qed.

Lemma run_lit {R : Type} (l : str) (k : cont R) :
  forall pos s g,
    run (Lit l) pos s g k =
    if startswith s l then k (pos + length l) (skipn (length l) s) g else None.
Proof.
  induction l as [|x l IH]; intros pos s g; simpl.
  - now rewrite Nat.add_0_r.
  - destruct s as [|y s]; [reflexivity|].
    destruct (N.eqb x y); simpl; [|reflexivity].
    rewrite IH. replace (S pos + length l) with (pos + S (length l)) by lia.
    reflexivity.
Qed.

(** ** Deleting with [re.sub] *)

(** A pattern that is one character class deletes the characters of the
    class. *)
Lemma sub_scan_cls (q : char -> bool) :
  forall s fuel pos ma, length s <= fuel ->
    sub_scan (Cls q) fuel pos s ma = filter (fun c => negb (q c)) s.
Proof.
  induction s as [|c t IH]; intros fuel pos ma Hlen.
  - destruct fuel; reflexivity.
  - destruct fuel as [|fuel]; [simpl in Hlen; lia|].
    assert (E : Nat.eqb (S pos) pos = false) by (apply Nat.eqb_neq; lia).
    cbn [sub_scan run filter]. destruct (q c); cbn [negb].
    + rewrite E, andb_false_r. rewrite E.
      apply IH. simpl in Hlen; lia.
    + f_equal. apply IH. simpl in Hlen; lia.
Qed.

Lemma re_sub_empty_cls (q : char -> bool) (s : str) :
  re_sub_empty (Cls q) s = filter (fun c => negb (q c)) s.
Proof. unfold re_sub_empty. apply sub_scan_cls. lia. Qed.

(** A pattern anchored with [^] matches nowhere but at index 0. *)
Lemma sub_scan_bol_later (r : regex) :
  forall fuel pos s ma, 0 < pos ->
    sub_scan (Seq Bol r) fuel pos s ma = s.
Proof.
  induction fuel as [|fuel IH]; intros pos s ma Hpos; [reflexivity|].
  assert (E : Nat.eqb pos 0 = false) by (apply Nat.eqb_neq; lia).
  cbn [sub_scan run]. rewrite E.
  destruct s as [|c t]; [reflexivity|].
  f_equal. apply IH. lia.
Qed.

Lemma run_bol_seq {R : Type} (r : regex) (k : cont R) pos s g :
  run (Seq Bol r) pos s g k = if Nat.eqb pos 0 then run r pos s g k else None.
Proof. reflexivity. Qed.

Lemma sub_scan_step (r : regex) fuel pos s ma :
  sub_scan r (S fuel) pos s ma =
  match run r pos s []
          (fun pos' s' _ =>
             if ma && Nat.eqb pos' pos then None else Some (pos', s'))
  with
  | Some (pos', s') =>
      if Nat.eqb pos' pos
      then sub_scan r fuel pos s true
      else sub_scan r fuel pos' s' false
  | None =>
      match s with
      | [] => []
      | c :: t => c :: sub_scan r fuel (S pos) t false
      end
  end.
Proof. reflexivity. Qed.

(** [^[class]*] deletes the leading run of the class and nothing else. *)
Lemma re_sub_empty_leading (p : char -> bool) (s : str) :
  re_sub_empty (Seq Bol (Star (Cls p))) s = dropwhile p s.
Proof.
  unfold re_sub_empty.
  replace (2 * length s + 2) with (S (S (2 * length s))) by lia.
  rewrite sub_scan_step, run_bol_seq, run_star_cls.
  rewrite greedy_total by (intros ? ? ?; simpl; discriminate).
  cbn [andb Nat.add Nat.eqb].
  destruct (takewhile p s) as [|c0 t0] eqn:Etw.
  - (* an empty match at 0: the next one must be non-empty, and there is none *)
    assert (Edw : dropwhile p s = s).
    { rewrite <- (takewhile_dropwhile p s) at 2. now rewrite Etw. }
    rewrite Edw. cbn [length Nat.eqb].
    rewrite sub_scan_step, run_bol_seq, run_star_cls.
    rewrite greedy_stop by exact Etw. cbn [andb Nat.eqb].
    destruct s as [|c t]; [reflexivity|].
    f_equal. apply sub_scan_bol_later. lia.
  - cbn [length Nat.eqb]. apply sub_scan_bol_later. lia.
Qed.

End ReFacts.

(* ================================================================== *)
(** * Facts about the frame parser *)
(* ================================================================== *)

Module ParserFacts.
Import PyStr Re PyFloat ScaleApi Design Unfolded PyStrFacts ReFacts.

(** ** What the weight pattern matches *)

Lemma startswith_firstn (l : str) :
  forall s, startswith s l = true -> firstn (length l) s = l.
Proof.
  induction l as [|x l IH]; intros s H; [reflexivity|].
  destruct s as [|y s]; simpl in H; [discriminate|].
  apply andb_true_iff in H as [Hx Hl]. apply N.eqb_eq in Hx. subst y.
  simpl. now rewrite IH.
Qed.

Lemma total_opt {R : Type} (r : regex) (k : cont R) :
  total k -> total (fun pos s g => run (Opt r) pos s g k).
Proof.
  intros Hk pos s g. unfold Opt. cbn [run].
  destruct (run r pos s g k); [discriminate | apply Hk].
Qed.

Lemma run_opt {R : Type} (r : regex) (k : cont R) pos s g :
  run (Opt r) pos s g k =
  match run r pos s g k with Some x => Some x | None => k pos s g end.
Proof. reflexivity. Qed.

Lemma run_seq {R : Type} (r1 r2 : regex) (k : cont R) pos s g :
  run (Seq r1 r2) pos s g k =
  run r1 pos s g (fun pos' s' g' => run r2 pos' s' g' k).
Proof. reflexivity. Qed.

Lemma run_alt {R : Type} (r1 r2 : regex) (k : cont R) pos s g :
  run (Alt r1 r2) pos s g k =
  match run r1 pos s g k with Some x => Some x | None => run r2 pos s g k end.
Proof. reflexivity. Qed.

Lemma run_group {R : Type} n (r : regex) (k : cont R) pos s g :
  run (Group n r) pos s g k =
  run r pos s g (fun pos' s' g' => k pos' s' ((n, firstn (pos' - pos) s) :: g')).
Proof. reflexivity. Qed.

Lemma run_cls {R : Type} (p : char -> bool) (k : cont R) pos s g :
  run (Cls p) pos s g k =
  match s with
  | c :: t => if p c then k (S pos) t g else None
  | [] => None
  end.
Proof. reflexivity. Qed.

(** The optional unit group, before a rest of the pattern that accepts. *)
Lemma run_opt_unit {R : Type} (k : cont R) pos s g :
  total k ->
  run (Opt (Group 2 pat_unit)) pos s g k =
  match unit_of s with
  | Some u => k (pos + length u) (skipn (length u) s) ((2, u) :: g)
  | None => k pos s g
  end.
Proof.
  intros Hk. rewrite run_opt, run_group. unfold pat_unit, unit_of.
  rewrite !run_alt, !run_lit.
  destruct (startswith s (lit "g")) eqn:Eg.
  { rewrite !(first_success (k (pos + length (lit "g")) _ _)) by apply Hk.
    replace (pos + length (lit "g") - pos) with (length (lit "g")) by lia.
    now rewrite (startswith_firstn _ _ Eg). }
  destruct (startswith s (lit "kg")) eqn:Ekg.
  { rewrite !(first_success (k (pos + length (lit "kg")) _ _)) by apply Hk.
    replace (pos + length (lit "kg") - pos) with (length (lit "kg")) by lia.
    now rewrite (startswith_firstn _ _ Ekg). }
  destruct (startswith s (lit "lb")) eqn:Elb.
  { rewrite !(first_success (k (pos + length (lit "lb")) _ _)) by apply Hk.
    replace (pos + length (lit "lb") - pos) with (length (lit "lb")) by lia.
    now rewrite (startswith_firstn _ _ Elb). }
  reflexivity.
Qed.

(** The number pattern, before a rest of the pattern that accepts. *)
Lemma run_pat_number {R : Type} (k : cont R) pos s g :
  total k ->
  run pat_number pos s g k =
  match number_of s with
  | Some (num, rest) => k (pos + length num) rest g
  | None => None
  end.
Proof.
  intros Hk. unfold pat_number, number_of.
  rewrite run_seq, run_plus_cls.
  destruct s as [|c t]; [reflexivity|]. cbn [takewhile dropwhile].
  destruct (is_ascii_digit c); [|reflexivity].
  rewrite greedy_total by (apply total_opt, Hk).
  rewrite run_opt, run_seq, run_cls.
  destruct (dropwhile is_ascii_digit t) as [|c1 r] eqn:Edw.
  { f_equal. simpl. lia. }
  destruct (N.eqb ch_dot c1) eqn:Edot.
  - apply N.eqb_eq in Edot. subst c1. rewrite N.eqb_refl.
    rewrite run_plus_cls.
    destruct r as [|d ds]; cbn [takewhile dropwhile].
    { f_equal. simpl. lia. }
    destruct (is_ascii_digit d).
    + rewrite greedy_total by exact Hk.
      rewrite first_success by apply Hk.
      f_equal. rewrite length_app. simpl. lia.
    + f_equal. simpl. lia.
  - rewrite N.eqb_sym in Edot. rewrite Edot.
    f_equal. simpl. lia.
Qed.

Lemma number_of_app (s num rest : str) :
  number_of s = Some (num, rest) -> s = num ++ rest.
Proof.
  unfold number_of. intros H.
  pose proof (takewhile_dropwhile is_ascii_digit s) as Hs.
  destruct (takewhile is_ascii_digit s) as [|i int]; [discriminate|].
  destruct (dropwhile is_ascii_digit s) as [|c r].
  { injection H as <- <-. now rewrite Hs. }
  pose proof (takewhile_dropwhile is_ascii_digit r) as Hr.
  destruct (c =? ch_dot)%N.
  - destruct (takewhile is_ascii_digit r) as [|d ds].
    + injection H as <- <-. now rewrite Hs.
    + injection H as <- <-. rewrite <- Hs. simpl. f_equal.
      rewrite <- app_assoc. f_equal. simpl. f_equal. symmetry. exact Hr.
  - injection H as <- <-. now rewrite Hs.
Qed.

(** The match of the weight pattern at the start of a text. *)
Lemma re_match_pat_weight (s : str) :
  re_match pat_weight s =
  match number_of s with
  | None => None
  | Some (num, rest) =>
      let ws := takewhile isspace rest in
      match unit_of (dropwhile isspace rest) with
      | Some u =>
          Some (MkMatch (firstn (length num + length ws + length u) s)
                  [(2, u); (1, num)])
      | None =>
          Some (MkMatch (firstn (length num + length ws) s) [(1, num)])
      end
  end.
Proof.
  unfold re_match, pat_weight. rewrite run_seq, run_group.
  assert (Hfinal : total (fun (pos' : nat) (_ : str) (g : groups) =>
                            Some (MkMatch (firstn pos' s) g)))
    by (intros ? ? ?; discriminate).
  assert (Hunit : total (fun pos' s' g' =>
            run (Opt (Group 2 pat_unit)) pos' s' g'
              (fun (pos'0 : nat) (_ : str) (g : groups) =>
                 Some (MkMatch (firstn pos'0 s) g))))
    by (apply total_opt, Hfinal).
  rewrite run_pat_number.
  2:{ intros pos s' g'. rewrite run_seq, run_star_cls, greedy_total by exact Hunit.
      apply Hunit. }
  destruct (number_of s) as [[num rest]|] eqn:En; [|reflexivity].
  rewrite run_seq, run_star_cls, greedy_total by exact Hunit.
  rewrite run_opt_unit by exact Hfinal.
  assert (Hfn : firstn (length num) s = num).
  { rewrite (number_of_app _ _ _ En).
    now rewrite firstn_app, firstn_all, Nat.sub_diag, firstn_O, app_nil_r. }
  cbn [Nat.add]. rewrite Nat.sub_0_r, Hfn. cbv zeta.
  destruct (unit_of (dropwhile isspace rest)); reflexivity.
Qed.

(** ** The cleaned text *)

Lemma keeps_cases (c : char) :
  keeps c = true -> ((48 <= c <= 57) \/ c = ch_dot \/ c = ch_g)%N.
Proof.
  unfold keeps, is_ascii_digit. intros H.
  apply orb_true_iff in H as [H|H]; [apply orb_true_iff in H as [H|H]|].
  - apply andb_true_iff in H as [H1 H2].
    apply N.leb_le in H1, H2. left. lia.
  - apply N.eqb_eq in H. auto.
  - apply N.eqb_eq in H. auto.
Qed.

Lemma digit_not_space (c : char) : is_ascii_digit c = true -> isspace c = false.
Proof.
  unfold is_ascii_digit. intros H. apply andb_true_iff in H as [H1 H2].
  apply N.leb_le in H1, H2. unfold isspace.
  assert (E1 : (c <=? 13)%N = false) by (apply N.leb_gt; lia).
  assert (E2 : (c <=? 32)%N = false) by (apply N.leb_gt; lia).
  assert (E3 : (c =? 133)%N = false) by (apply N.eqb_neq; lia).
  assert (E4 : (c =? 160)%N = false) by (apply N.eqb_neq; lia).
  assert (E5 : (c =? 5760)%N = false) by (apply N.eqb_neq; lia).
  assert (E6 : (8192 <=? c)%N = false) by (apply N.leb_gt; lia).
  assert (E7 : (c =? 8232)%N = false) by (apply N.eqb_neq; lia).
  assert (E8 : (c =? 8233)%N = false) by (apply N.eqb_neq; lia).
  assert (E9 : (c =? 8239)%N = false) by (apply N.eqb_neq; lia).
  assert (E10 : (c =? 8287)%N = false) by (apply N.eqb_neq; lia).
  assert (E11 : (c =? 12288)%N = false) by (apply N.eqb_neq; lia).
  rewrite E1, E2, E3, E4, E5, E6, E7, E8, E9, E10, E11.
  now rewrite !andb_false_r.
Qed.

Lemma keeps_not_space (c : char) : keeps c = true -> isspace c = false.
Proof.
  intros H. unfold keeps in H.
  apply orb_true_iff in H as [H|H]; [apply orb_true_iff in H as [H|H]|].
  - now apply digit_not_space.
  - apply N.eqb_eq in H. now subst.
  - apply N.eqb_eq in H. now subst.
Qed.

Lemma forallb_filter (p : char -> bool) (s : str) : forallb p (filter p s) = true.
Proof.
  induction s as [|c t IH]; simpl; [reflexivity|].
  destruct (p c) eqn:E; simpl; [now rewrite E|exact IH].
Qed.

Section Cleaning.
Variable nd : char -> bool.

(** Lines 61-63 boil down to: drop the leading characters that are not in
    [\d], then keep the digits, the points and the letters g. *)
Lemma cleaned_data_spec (raw : str) :
  cleaned_data nd raw =
  filter keeps (dropwhile (fun c => negb (re_d nd c)) raw).
Proof.
  unfold cleaned_data, pat_leading, pat_noise.
  rewrite re_sub_empty_leading, re_sub_empty_cls.
  assert (E : forall l, filter (fun c => negb (negb (keeps c))) l = filter keeps l).
  { intros l. apply filter_ext. intros c. apply negb_involutive. }
  rewrite E. apply strip_no_space.
  apply (forallb_impl keeps); [|apply forallb_filter].
  intros c Hc. now rewrite (keeps_not_space c Hc).
Qed.

Lemma cleaned_keeps (raw : str) : forallb keeps (cleaned_data nd raw) = true.
Proof. rewrite cleaned_data_spec. apply forallb_filter. Qed.

End Cleaning.

(** ** The unit and the number *)

Lemma unit_of_keeps (s : str) :
  forallb keeps s = true -> unit_of s = Some (lit "g") \/ unit_of s = None.
Proof.
  destruct s as [|c t]; [now right|]. simpl. intros H.
  apply andb_true_iff in H as [Hc _]. apply keeps_cases in Hc.
  unfold unit_of. cbn [startswith lit map list_ascii_of_string].
  change (N_of_ascii "g") with 103%N. change (N_of_ascii "k") with 107%N.
  change (N_of_ascii "l") with 108%N.
  destruct (N.eqb_spec 103 c); [now left|].
  assert (E1 : (107 =? c)%N = false)
    by (apply N.eqb_neq; unfold ch_dot, ch_g in Hc; lia).
  assert (E2 : (108 =? c)%N = false)
    by (apply N.eqb_neq; unfold ch_dot, ch_g in Hc; lia).
  rewrite E1, E2. now right.
Qed.

Lemma dot_not_digit : is_ascii_digit ch_dot = false.
Proof. reflexivity. Qed.

Lemma float_of_decimal_text (d : char) (ds frac : str) :
  forallb is_ascii_digit (d :: ds) = true ->
  forallb is_ascii_digit frac = true ->
  float_of_str (decimal_text (d :: ds) frac) = Some (decimal_value (d :: ds) frac).
Proof.
  intros Hint Hfrac. unfold float_of_str, decimal_text, decimal_value.
  destruct frac as [|f fs].
  - destruct (takewhile_app_stop is_ascii_digit (d :: ds) [] Hint I) as [E1 E2].
    rewrite app_nil_r in E1, E2. rewrite E1, E2.
    now rewrite app_nil_r.
  - destruct (takewhile_app_stop is_ascii_digit (d :: ds) (ch_dot :: f :: fs) Hint
                dot_not_digit) as [-> ->].
    rewrite N.eqb_refl, Hfrac. reflexivity.
Qed.

(** What [number_of] finds is a plain decimal literal. *)
Lemma number_of_shape (s num rest : str) :
  number_of s = Some (num, rest) ->
  exists d ds frac,
    forallb is_ascii_digit (d :: ds) = true /\
    forallb is_ascii_digit frac = true /\
    num = decimal_text (d :: ds) frac.
Proof.
  unfold number_of. intros H.
  pose proof (takewhile_all is_ascii_digit s) as Hint.
  destruct (takewhile is_ascii_digit s) as [|d ds]; [discriminate|].
  exists d, ds.
  destruct (dropwhile is_ascii_digit s) as [|c r].
  { exists []. injection H as <- _. auto. }
  pose proof (takewhile_all is_ascii_digit r) as Hfrac.
  destruct (N.eqb_spec c ch_dot) as [->|_].
  - destruct (takewhile is_ascii_digit r) as [|f fs].
    + exists []. injection H as <- _. auto.
    + exists (f :: fs). injection H as <- _. auto.
  - exists []. injection H as <- _. auto.
Qed.

Lemma number_of_float (s num rest : str) :
  number_of s = Some (num, rest) -> exists w, float_of_str num = Some w.
Proof.
  intros H. destruct (number_of_shape _ _ _ H) as (d & ds & frac & Hi & Hf & ->).
  eexists. now apply float_of_decimal_text.
Qed.

Lemma number_of_digit (d : char) (t : str) :
  is_ascii_digit d = true -> exists num rest, number_of (d :: t) = Some (num, rest).
Proof.
  intros Hd. unfold number_of. cbn [takewhile dropwhile]. rewrite Hd.
  destruct (dropwhile is_ascii_digit t) as [|c r]; [eauto|].
  destruct (c =? ch_dot)%N; [|eauto].
  destruct (takewhile is_ascii_digit r); eauto.
Qed.

Lemma number_of_none (s : str) :
  forallb (fun c => negb (is_ascii_digit c)) s = true -> number_of s = None.
Proof.
  destruct s as [|c t]; [reflexivity|]. simpl. intros H.
  apply andb_true_iff in H as [Hc _]. apply negb_true_iff in Hc.
  unfold number_of. cbn [takewhile]. now rewrite Hc.
Qed.

Section Parse.
Variable nd : char -> bool.

(** [parse_scale_data] in one step: the number at the head of the cleaned
    text, with the unit g. *)
Lemma parse_scale_data_spec (raw : str) :
  parse_scale_data nd raw =
  match number_of (cleaned_data nd raw) with
  | Some (num, _) =>
      match float_of_str num with
      | Some w => (Some w, Some (lit "g"))
      | None => (None, None)
      end
  | None => (None, None)
  end.
Proof.
  unfold parse_scale_data. cbv zeta. fold (cleaned_data nd raw).
  rewrite re_match_pat_weight.
  destruct (number_of (cleaned_data nd raw)) as [[num rest]|] eqn:En;
    [|reflexivity].
  cbv zeta.
  assert (Hrest : forallb keeps (dropwhile isspace rest) = true).
  { apply dropwhile_forall.
    pose proof (cleaned_keeps nd raw) as Hk.
    rewrite (number_of_app _ _ _ En), forallb_app in Hk.
    now apply andb_true_iff in Hk as [_ Hk]. }
  destruct (unit_of_keeps _ Hrest) as [-> | ->]; cbn;
    destruct (float_of_str num); reflexivity.
Qed.

End Parse.

End ParserFacts.

(* ================================================================== *)
(** * The frame parser: theorems *)
(* ================================================================== *)

Module ParserSpec.
Import PyStr Re PyFloat ScaleApi Design Unfolded Examples.
Import PyStrFacts ReFacts ParserFacts.

Lemma numeric_pattern_decimal_text (d : char) (ds frac : str) :
  forallb is_ascii_digit (d :: ds) = true ->
  forallb is_ascii_digit frac = true ->
  numeric_pattern (decimal_text (d :: ds) frac) = true.
Proof.
  intros Hint Hfrac. unfold numeric_pattern, decimal_text.
  destruct frac as [|f fs].
  - destruct (takewhile_app_stop is_ascii_digit (d :: ds) [] Hint I) as [E1 E2].
    rewrite app_nil_r in E1, E2. now rewrite E1, E2.
  - destruct (takewhile_app_stop is_ascii_digit (d :: ds) (ch_dot :: f :: fs) Hint
                dot_not_digit) as [-> ->].
    now rewrite N.eqb_refl, Hfrac.
Qed.

Lemma decimal_text_keeps (int frac : str) :
  forallb is_ascii_digit int = true ->
  forallb is_ascii_digit frac = true ->
  forallb keeps (decimal_text int frac) = true.
Proof.
  intros Hi Hf.
  assert (Hd : forall l, forallb is_ascii_digit l = true -> forallb keeps l = true).
  { intros l. apply forallb_impl. intros c Hc. unfold keeps. now rewrite Hc. }
  unfold decimal_text. destruct frac; [now apply Hd|].
  rewrite forallb_app. rewrite (Hd _ Hi).
  change (forallb keeps (ch_dot :: c :: frac)) with (forallb keeps (c :: frac)).
  now apply Hd.
Qed.

Lemma filter_all (p : char -> bool) (s : str) :
  forallb p s = true -> filter p s = s.
Proof.
  induction s as [|c t IH]; simpl; [reflexivity|].
  intros H. apply andb_true_iff in H as [Hc Ht]. now rewrite Hc, IH.
Qed.

Lemma filter_forall (p q : char -> bool) (s : str) :
  forallb q s = true -> forallb q (filter p s) = true.
Proof.
  induction s as [|c t IH]; simpl; [reflexivity|].
  intros H. apply andb_true_iff in H as [Hc Ht].
  destruct (p c); simpl; [now rewrite Hc, IH | now apply IH].
Qed.

Lemma filter_none (p : char -> bool) (s : str) :
  forallb (fun c => negb (p c)) s = true -> filter p s = [].
Proof.
  induction s as [|c t IH]; simpl; [reflexivity|].
  intros H. apply andb_true_iff in H as [Hc Ht].
  apply negb_true_iff in Hc. now rewrite Hc, IH.
Qed.

Lemma number_of_decimal_text (d : char) (ds frac tail : str) :
  forallb is_ascii_digit (d :: ds) = true ->
  forallb is_ascii_digit frac = true ->
  number_of (decimal_text (d :: ds) frac ++ ch_g :: tail) =
  Some (decimal_text (d :: ds) frac, ch_g :: tail).
Proof.
  intros Hi Hf. unfold number_of, decimal_text.
  destruct frac as [|f fs].
  - destruct (takewhile_app_stop is_ascii_digit (d :: ds) (ch_g :: tail) Hi
                eq_refl) as [-> ->].
    reflexivity.
  - rewrite <- app_assoc.
    destruct (takewhile_app_stop is_ascii_digit (d :: ds)
                ((ch_dot :: f :: fs) ++ ch_g :: tail) Hi eq_refl) as [-> ->].
    cbn [app]. rewrite N.eqb_refl.
    destruct (takewhile_app_stop is_ascii_digit (f :: fs) (ch_g :: tail) Hf
                eq_refl) as [E1 E2].
    cbn [app] in E1, E2. rewrite E1, E2. reflexivity.
Qed.

Section ParserTheorems.
Variable nd : char -> bool.

(** C4. A line made of a decimal number and a trailing g, also when
    characters outside [\d] come before it (and characters the filter drops
    stand between the number and the g), parses to the float of that number
    with the unit g. *)
Theorem parse_number_then_g (garbage : str) (d : char) (ds frac noise : str) :
  forallb (fun c => negb (re_d nd c)) garbage = true ->
  forallb is_ascii_digit (d :: ds) = true ->
  forallb is_ascii_digit frac = true ->
  forallb (fun c => negb (keeps c)) noise = true ->
  parse_scale_data nd
    (garbage ++ decimal_text (d :: ds) frac ++ noise ++ lit "g") =
  (Some (decimal_value (d :: ds) frac), Some (lit "g")).
Proof.
  intros Hg Hi Hf Hn.
  assert (Hclean :
    cleaned_data nd (garbage ++ decimal_text (d :: ds) frac ++ noise ++ lit "g")
    = decimal_text (d :: ds) frac ++ lit "g").
  { rewrite cleaned_data_spec.
    assert (Hhead : exists t, decimal_text (d :: ds) frac ++ noise ++ lit "g" = d :: t).
    { unfold decimal_text. destruct frac; simpl; eauto. }
    destruct Hhead as [t Ht].
    destruct (takewhile_app_stop (fun c => negb (re_d nd c)) garbage
                (decimal_text (d :: ds) frac ++ noise ++ lit "g") Hg) as [_ ->].
    { rewrite Ht. simpl in Hi. apply andb_true_iff in Hi as [Hd _].
      unfold re_d. now rewrite Hd. }
    rewrite !filter_app.
    rewrite (filter_all keeps) by now apply decimal_text_keeps.
    rewrite (filter_none keeps) by exact Hn. reflexivity. }
  rewrite parse_scale_data_spec, Hclean.
  change (lit "g") with (ch_g :: []) at 1.
  rewrite number_of_decimal_text by assumption.
  now rewrite float_of_decimal_text.
Qed.

(** C5. The unit of a reading is always g: the letters k, l and b never
    reach the match, so the unit group holds g or takes no part, and the unit
    returned is g whenever there is one (a missing unit token defaults to
    g). *)
Theorem unit_is_always_g (raw : str) :
  forallb (fun c => negb ((c =? ch_k) || (c =? ch_l) || (c =? ch_b))%N)
    (cleaned_data nd raw) = true /\
  (match re_match pat_weight (cleaned_data nd raw) with
   | Some m => group 2 m = Some (lit "g") \/ group 2 m = None
   | None => True
   end) /\
  (snd (parse_scale_data nd raw) = Some (lit "g") \/
   parse_scale_data nd raw = (None, None)).
Proof.
  split; [|split].
  - apply (forallb_impl keeps); [|apply cleaned_keeps].
    intros c Hc. apply keeps_cases in Hc.
    assert (Ek : (c =? ch_k)%N = false)
      by (apply N.eqb_neq; unfold ch_k, ch_dot, ch_g in *; lia).
    assert (El : (c =? ch_l)%N = false)
      by (apply N.eqb_neq; unfold ch_l, ch_dot, ch_g in *; lia).
    assert (Eb : (c =? ch_b)%N = false)
      by (apply N.eqb_neq; unfold ch_b, ch_dot, ch_g in *; lia).
    now rewrite Ek, El, Eb.
  - rewrite re_match_pat_weight.
    destruct (number_of (cleaned_data nd raw)) as [[num rest]|] eqn:En;
      [|exact I].
    cbv zeta.
    assert (Hrest : forallb keeps (dropwhile isspace rest) = true).
    { apply dropwhile_forall. pose proof (cleaned_keeps nd raw) as Hk.
      rewrite (number_of_app _ _ _ En), forallb_app in Hk.
      now apply andb_true_iff in Hk as [_ Hk]. }
    destruct (unit_of_keeps _ Hrest) as [-> | ->]; [now left | now right].
  - rewrite parse_scale_data_spec.
    destruct (number_of (cleaned_data nd raw)) as [[num rest]|];
      [|now right].
    destruct (float_of_str num); [now left | now right].
Qed.

(** C6. A reading comes only from a cleaned text that starts with the
    numeric pattern, and an input without any digit gives the failure
    pair. *)
Theorem reading_only_from_number (raw : str) :
  (forall w u, parse_scale_data nd raw = (Some w, u) ->
     exists num rest,
       cleaned_data nd raw = num ++ rest /\
       numeric_pattern num = true /\
       float_of_str num = Some w) /\
  (forallb (fun c => negb (is_ascii_digit c)) raw = true ->
   parse_scale_data nd raw = (None, None)).
Proof.
  split.
  - intros w u. rewrite parse_scale_data_spec.
    destruct (number_of (cleaned_data nd raw)) as [[num rest]|] eqn:En;
      [|discriminate].
    destruct (float_of_str num) as [w'|] eqn:Ef; [|discriminate].
    intros H. injection H as <- _.
    exists num, rest. split; [now apply number_of_app|]. split; [|exact Ef].
    destruct (number_of_shape _ _ _ En) as (d & ds & frac & Hi & Hf & ->).
    now apply numeric_pattern_decimal_text.
  - intros Hraw. rewrite parse_scale_data_spec.
    rewrite number_of_none; [reflexivity|].
    rewrite cleaned_data_spec.
    now apply filter_forall, dropwhile_forall.
Qed.

(** C9. The result is the failure pair or a value together with a
    non-empty unit, never one without the other. *)
Theorem parse_all_or_nothing (raw : str) :
  parse_scale_data nd raw = (None, None) \/
  exists w u, parse_scale_data nd raw = (Some w, Some u) /\ u <> [].
Proof.
  rewrite parse_scale_data_spec.
  destruct (number_of (cleaned_data nd raw)) as [[num rest]|]; [|now left].
  destruct (float_of_str num) as [w|]; [|now left].
  right. exists w, (lit "g"). split; [reflexivity | discriminate].
Qed.

(** C10. The weight pattern is matched as a prefix: a cleaned text that
    starts with a digit gives a reading, whatever follows the matched part;
    "12.3.4g" is matched up to "12.3" and reads 12.3 g. *)
Theorem match_is_prefix_match (raw : str) (d : char) (rest : str) :
  cleaned_data nd raw = d :: rest ->
  is_ascii_digit d = true ->
  (exists m tail w,
     re_match pat_weight (cleaned_data nd raw) = Some m /\
     cleaned_data nd raw = m_text m ++ tail /\
     parse_scale_data nd raw = (Some w, Some (lit "g"))) /\
  cleaned_data nd (lit "12.3.4g") = lit "12.3.4g" /\
  option_map m_text (re_match pat_weight (lit "12.3.4g")) = Some (lit "12.3") /\
  parse_scale_data nd (lit "12.3.4g") =
    (Some (Prim2SF 0x1.899999999999ap+3%float), Some (lit "g")).
Proof.
  intros Hc Hd. split.
  - destruct (number_of_digit d rest Hd) as (num & rest' & En).
    destruct (number_of_float _ _ _ En) as [w Hw].
    rewrite parse_scale_data_spec, re_match_pat_weight, Hc, En, Hw. cbv zeta.
    destruct (unit_of (dropwhile isspace rest')) as [u|].
    + eexists _, _, w. split; [reflexivity|]. split; [|reflexivity].
      cbn [m_text]. symmetry. apply firstn_skipn.
    + eexists _, _, w. split; [reflexivity|]. split; [|reflexivity].
      cbn [m_text]. symmetry. apply firstn_skipn.
  - split; [|split].
    + rewrite cleaned_data_spec. reflexivity.
    + vm_compute. reflexivity.
    + rewrite parse_scale_data_spec.
      replace (cleaned_data nd (lit "12.3.4g")) with (lit "12.3.4g")
        by (rewrite cleaned_data_spec; reflexivity).
      vm_compute. reflexivity.
Qed.

End ParserTheorems.

(** The two lines of the design document, "12.5g" and "\x02\x03 45.0 g". *)
Lemma parse_number_then_g_witness :
  parse_scale_data nd_arabic (lit "12.5g") =
    (Some (Prim2SF 12.5%float), Some (lit "g")) /\
  parse_scale_data nd_arabic ([2; 3]%N ++ lit " 45.0 g") =
    (Some (Prim2SF 45%float), Some (lit "g")).
Proof.
  split.
  - refine (eq_trans
              (parse_number_then_g nd_arabic [] 49%N [50%N] [53%N] []
                 eq_refl eq_refl eq_refl eq_refl) _).
    vm_compute. reflexivity.
  - refine (eq_trans
              (parse_number_then_g nd_arabic [2; 3; 32]%N 52%N [53%N] [48%N]
                 [32%N] eq_refl eq_refl eq_refl eq_refl) _).
    vm_compute. reflexivity.
Defined.

(** Where the pattern ends.  The number is the numeric pattern of section
    4.3: it starts with a digit, so a point in front belongs to the prefix
    that line 61 strips and ".5g" reads 5 g; a point without decimals is left
    unmatched and "12.g" reads 12 g.  The digits of the number are ASCII and
    the prefix is made of characters outside [\d]; a decimal digit of another
    script is neither: in a prefix it stops the strip and is dropped by the
    filter afterwards, so U+0663 before ".12.5g" leaves ".12.5g" and no
    reading, while before "12g" it is harmless. *)
Lemma outside_the_numeric_pattern :
  parse_scale_data nd_arabic (lit ".5g") =
    (Some (Prim2SF 5%float), Some (lit "g")) /\
  parse_scale_data nd_arabic (lit "12.g") =
    (Some (Prim2SF 12%float), Some (lit "g")) /\
  cleaned_data nd_arabic (1635%N :: lit ".12.5g") = lit ".12.5g" /\
  parse_scale_data nd_arabic (1635%N :: lit ".12.5g") = (None, None) /\
  parse_scale_data nd_arabic (1635%N :: lit "12g") =
    (Some (Prim2SF 12%float), Some (lit "g")).
Proof. repeat split; vm_compute; reflexivity. Qed.

(** "12.5g" gives a reading from the number "12.5"; "ERROR" gives none. *)
Lemma reading_only_from_number_witness :
  (exists num rest,
     cleaned_data nd_arabic (lit "12.5g") = num ++ rest /\
     numeric_pattern num = true /\
     float_of_str num = Some (Prim2SF 12.5%float)) /\
  parse_scale_data nd_arabic (lit "ERROR") = (None, None).
Proof.
  split.
  - apply (proj1 (reading_only_from_number nd_arabic (lit "12.5g"))
             (Prim2SF 12.5%float) (Some (lit "g"))).
    vm_compute. reflexivity.
  - apply (proj2 (reading_only_from_number nd_arabic (lit "ERROR"))).
    reflexivity.
Defined.

(** "12.3.4g" starts with a digit once cleaned. *)
Lemma match_is_prefix_match_witness :
  exists m tail w,
    re_match pat_weight (cleaned_data nd_arabic (lit "12.3.4g")) = Some m /\
    cleaned_data nd_arabic (lit "12.3.4g") = m_text m ++ tail /\
    parse_scale_data nd_arabic (lit "12.3.4g") = (Some w, Some (lit "g")).
Proof.
  assert (Hc : cleaned_data nd_arabic (lit "12.3.4g") = 49%N :: lit "2.3.4g")
    by (vm_compute; reflexivity).
  exact (proj1 (match_is_prefix_match nd_arabic (lit "12.3.4g") 49%N
                  (lit "2.3.4g") Hc eq_refl)).
Defined.

End ParserSpec.

(* ================================================================== *)
(** * Facts about the discovery *)
(* ================================================================== *)

Module DeviceFacts.
Import PyStr Re PyFloat Utf8 PyVal ScaleApi Design Unfolded PyStrFacts.
Local Open Scope py_scope.

Section Device.
Variable nd : char -> bool.
Variable txt : bytes -> str.
Variable h : host.

(** ** One probe *)

(** The [try] block of the loops does what [attempt] says, and takes as many
    host calls. *)
Lemma probe_attempt (port : str) (s : state) :
  exists s',
    clock s' = clock s + snd (attempt h port (clock s)) /\
    match fst (attempt h port (clock s)) with
    | Skipped => probe txt h port s = (Ret None, s')
    | Accepted =>
        exists ser,
          probe txt h port s = (Ret (Some ser), s') /\
          ser_port ser = port /\ is_open ser = true
    | Undecodable =>
        exists e,
          probe txt h port s = (Raise e, s') /\
          exn_class_of e = UnicodeDecodeError
    end.
Proof.
  unfold attempt, probe, try_except, Serial_new, write, readline, decode_utf8,
    bind, host_call, fresh_id, raise, ret, print, emit.
  cbn [clock next_id trace fst snd].
  destruct (serial_open h port (clock s)) as [msg|].
  { cbn. eexists. split; [|reflexivity]. cbn. lia. }
  cbn [is_open ser_id ser_port clock next_id trace fst snd].
  destruct (serial_write h port (S (clock s))) as [msg|].
  { cbn. eexists. split; [|reflexivity]. cbn. lia. }
  cbn [clock next_id trace fst snd].
  destruct (serial_readline h port (S (S (clock s)))) as [msg|reply].
  { cbn. eexists. split; [|reflexivity]. cbn. lia. }
  cbn [clock next_id trace fst snd].
  destruct (decode reply) as [text|].
  - cbn. eexists. split; [|eexists; split; [reflexivity|split; reflexivity]].
    cbn. lia.
  - cbn. eexists. split; [|eexists; split; [reflexivity|reflexivity]].
    cbn. lia.
Qed.

(** ** The loops *)

Lemma scan_com_ports (ports : list nat) :
  scan_com txt h ports =
  scan_ports txt h (map (fun port => lit "COM" ++ decimal port) ports).
Proof.
  induction ports as [|port rest IH]; [reflexivity|].
  cbn [scan_com scan_ports map]. now rewrite IH.
Qed.

Lemma scan_dev_ports (entries : list str) :
  scan_dev txt h entries =
  scan_ports txt h (map (fun dev => lit "/dev/" ++ dev) (filter is_tty entries)).
Proof.
  induction entries as [|dev rest IH]; [reflexivity|].
  cbn [scan_dev filter]. fold (is_tty dev).
  destruct (is_tty dev); [|exact IH].
  cbn [scan_ports map]. now rewrite IH.
Qed.

Lemma scan_ports_step (port : str) (rest : list str) (s : state) :
  scan_ports txt h (port :: rest) s =
  match probe txt h port s with
  | (Ret (Some ser), s') => (Ret (Some ser), s')
  | (Ret None, s') => scan_ports txt h rest s'
  | (Raise e, s') => (Raise e, s')
  end.
Proof.
  cbn [scan_ports]. unfold bind.
  destruct (probe txt h port s) as [[[ser|]|e] s']; reflexivity.
Qed.

(** Ports that are all skipped leave the loop without a handle. *)
Lemma scan_ports_skips (ports : list str) (t t' : nat) :
  skips h ports t t' ->
  forall s, clock s = t ->
    exists s', scan_ports txt h ports s = (Ret None, s') /\ clock s' = t'.
Proof.
  induction 1 as [t|p ps t n t' Hp Hps IH]; intros s Hs.
  - exists s. split; [reflexivity | exact Hs].
  - rewrite scan_ports_step.
    destruct (probe_attempt p s) as (s1 & Hclock & Hprobe).
    rewrite Hs, Hp in Hprobe, Hclock. cbn [fst snd] in *.
    rewrite Hprobe. apply IH. exact Hclock.
Qed.

(** What it takes to be accepted: the open, the write and the read pass and
    the reply decodes, to whatever text. *)
Lemma attempt_accepted (port : str) (t : nat) :
  fst (attempt h port t) = Accepted <->
  serial_open h port t = None /\
  serial_write h port (S t) = None /\
  exists reply text,
    serial_readline h port (S (S t)) = inr reply /\ decode reply = Some text.
Proof.
  unfold attempt. split.
  - destruct (serial_open h port t); [discriminate|].
    destruct (serial_write h port (S t)); [discriminate|].
    destruct (serial_readline h port (S (S t))) as [msg|reply]; [discriminate|].
    destruct (decode reply) as [text|] eqn:Ed; [|discriminate].
    intros _. eauto 6.
  - intros (-> & -> & reply & text & -> & ->). reflexivity.
Qed.

Lemma attempt_accepted_calls (port : str) (t : nat) :
  fst (attempt h port t) = Accepted -> snd (attempt h port t) = 3.
Proof.
  unfold attempt.
  destruct (serial_open h port t); [discriminate|].
  destruct (serial_write h port (S t)); [discriminate|].
  destruct (serial_readline h port (S (S t))); [discriminate|].
  destruct (decode b); [reflexivity | discriminate].
Qed.

(** The first port that is accepted, after ports that are skipped, is the
    one the handle is bound to. *)
Lemma scan_ports_found (before : list str) (p : str) (after : list str)
  (t t1 : nat) :
  skips h before t t1 ->
  fst (attempt h p t1) = Accepted ->
  forall s, clock s = t ->
    exists ser s',
      scan_ports txt h (before ++ p :: after) s = (Ret (Some ser), s') /\
      ser_port ser = p /\ is_open ser = true /\ clock s' = t1 + 3.
Proof.
  induction 1 as [t|q qs t n t' Hq Hqs IH]; intros Hacc s Hs.
  - cbn [app]. rewrite scan_ports_step.
    destruct (probe_attempt p s) as (s1 & Hclock & Hprobe).
    rewrite Hs in Hprobe, Hclock.
    rewrite (attempt_accepted_calls _ _ Hacc) in Hclock.
    rewrite Hacc in Hprobe. destruct Hprobe as (ser & Hprobe & Hport & Hopen).
    rewrite Hprobe. eauto 7.
  - cbn [app]. rewrite scan_ports_step.
    destruct (probe_attempt q s) as (s1 & Hclock & Hprobe).
    rewrite Hs, Hq in Hprobe, Hclock. cbn [fst snd] in *.
    rewrite Hprobe. apply IH; assumption.
Qed.

(** A reply that is not UTF-8 ends the loop with the codec's exception. *)
Lemma scan_ports_undecodable (before : list str) (p : str) (after : list str)
  (t t1 : nat) :
  skips h before t t1 ->
  fst (attempt h p t1) = Undecodable ->
  forall s, clock s = t ->
    exists e s',
      scan_ports txt h (before ++ p :: after) s = (Raise e, s') /\
      exn_class_of e = UnicodeDecodeError.
Proof.
  induction 1 as [t|q qs t n t' Hq Hqs IH]; intros Hund s Hs.
  - cbn [app]. rewrite scan_ports_step.
    destruct (probe_attempt p s) as (s1 & _ & Hprobe).
    rewrite Hs, Hund in Hprobe. destruct Hprobe as (e & Hprobe & Hclass).
    rewrite Hprobe. eauto.
  - cbn [app]. rewrite scan_ports_step.
    destruct (probe_attempt q s) as (s1 & Hclock & Hprobe).
    rewrite Hs, Hq in Hprobe, Hclock. cbn [fst snd] in *.
    rewrite Hprobe. apply IH; assumption.
Qed.

(** ** The discovery *)

Lemma find_usb_scale_scan (s : state) :
  find_usb_scale txt h s =
  scan_ports txt h (candidates h (listdir_dev h (clock s))) (probing_state h s).
Proof.
  unfold find_usb_scale, candidates, probing_state, first_probe, listdir,
    print, emit, host_call, bind, ret, searching.
  cbn [clock next_id trace].
  destruct (os_name_nt h).
  - now rewrite scan_com_ports.
  - rewrite scan_dev_ports. cbn [clock next_id trace].
    now rewrite <- app_assoc.
Qed.

End Device.

End DeviceFacts.

(* ================================================================== *)
(** * Facts about traces *)
(* ================================================================== *)

Module TraceFacts.
Import PyStr Re PyFloat Utf8 PyVal ScaleApi Design Unfolded PyStrFacts DeviceFacts.
Local Open Scope py_scope.

Lemma extends_refl (b : nat) (s : state) : extends b s s.
Proof. split; [lia|]. exists []. now rewrite app_nil_r. Qed.

Lemma extends_trans (b : nat) (s1 s2 s3 : state) :
  extends b s1 s2 -> extends b s2 s3 -> extends b s1 s3.
Proof.
  intros [Hn1 (e1 & Ht1 & Hl1)] [Hn2 (e2 & Ht2 & Hl2)]. split; [lia|].
  exists (e1 ++ e2). split.
  - now rewrite Ht2, Ht1, app_assoc.
  - now rewrite forallb_app, Hl1, Hl2.
Qed.

Lemma keeps_ret {A : Type} (b : nat) (a : A) (Q : A -> Prop) :
  Q a -> keeps_to b (ret a) Q.
Proof. intros HQ s _. split; [apply extends_refl | exact HQ]. Qed.

Lemma keeps_raise {A : Type} (b : nat) (e : exn) (Q : A -> Prop) :
  keeps_to b (raise e) Q.
Proof. intros s _. split; [apply extends_refl | exact I]. Qed.

Lemma keeps_bind {A B : Type} (b : nat) (c : M A) (k : A -> M B)
  (Q : A -> Prop) (Q' : B -> Prop) :
  keeps_to b c Q ->
  (forall a, Q a -> keeps_to b (k a) Q') ->
  keeps_to b (bind c k) Q'.
Proof.
  intros Hc Hk s Hs. unfold bind. specialize (Hc s Hs).
  destruct (c s) as [[a|e] s1]; cbn [fst snd] in *.
  - destruct Hc as [Hext HQ].
    assert (Hs1 : b <= next_id s1) by (destruct Hext; lia).
    destruct (Hk a HQ s1 Hs1) as [Hext' HQ'].
    split; [eapply extends_trans; eassumption | exact HQ'].
  - exact Hc.
Qed.

Lemma keeps_try {A : Type} (b : nat) (body : M A) (caught : exn -> bool)
  (handler : exn -> M A) (Q : A -> Prop) :
  keeps_to b body Q ->
  (forall e, keeps_to b (handler e) Q) ->
  keeps_to b (try_except body caught handler) Q.
Proof.
  intros Hb Hh s Hs. unfold try_except. specialize (Hb s Hs).
  destruct (body s) as [[a|e] s1]; cbn [fst snd] in *; [exact Hb|].
  destruct (caught e); [|exact Hb].
  destruct Hb as [Hext _].
  assert (Hs1 : b <= next_id s1) by (destruct Hext; lia).
  destruct (Hh e s1 Hs1) as [Hext' HQ'].
  split; [eapply extends_trans; eassumption | exact HQ'].
Qed.

Lemma keeps_emit (b : nat) (e : event) :
  later_event b e = true -> keeps_to b (emit e) (fun _ => True).
Proof.
  intros He s _. split; [|exact I]. split; [cbn; lia|].
  exists [e]. split; [reflexivity|]. cbn. now rewrite He.
Qed.

Lemma keeps_host_call (b : nat) (e : event) :
  later_event b e = true -> keeps_to b (host_call e) (fun _ => True).
Proof.
  intros He s _. split; [|exact I]. split; [cbn; lia|].
  exists [e]. split; [reflexivity|]. cbn. now rewrite He.
Qed.

Lemma keeps_fresh_id (b : nat) : keeps_to b fresh_id (fun i => b <= i).
Proof.
  intros s Hs. split; [|exact Hs]. split; [cbn; lia|].
  exists []. split; [cbn; now rewrite app_nil_r | reflexivity].
Qed.

Section Traces.
Variable nd : char -> bool.
Variable txt : bytes -> str.
Variable h : host.

Lemma keeps_Serial_new (b : nat) (port : str) (baudrate timeout : Z) :
  keeps_to b (Serial_new h port baudrate timeout) (fun ser => b <= ser_id ser).
Proof.
  unfold Serial_new.
  apply keeps_bind with (Q := fun _ => True);
    [now apply keeps_host_call|].
  intros t _. destruct (serial_open h port t); [apply keeps_raise|].
  apply keeps_bind with (Q := fun i => b <= i); [apply keeps_fresh_id|].
  intros i Hi. now apply keeps_ret.
Qed.

Lemma keeps_write (b : nat) (ser : Serial) (data : bytes) :
  b <= ser_id ser -> keeps_to b (write h ser data) (fun _ => True).
Proof.
  intros Hser. unfold write.
  apply keeps_bind with (Q := fun _ => True).
  - apply keeps_host_call. cbn. now apply Nat.leb_le.
  - intros t _. destruct (serial_write h (ser_port ser) t);
      [apply keeps_raise | now apply keeps_ret].
Qed.

Lemma keeps_readline (b : nat) (ser : Serial) :
  b <= ser_id ser -> keeps_to b (readline h ser) (fun _ => True).
Proof.
  intros Hser. unfold readline.
  apply keeps_bind with (Q := fun _ => True).
  - apply keeps_host_call. cbn. now apply Nat.leb_le.
  - intros t _. destruct (serial_readline h (ser_port ser) t);
      [apply keeps_raise | now apply keeps_ret].
Qed.

Lemma keeps_decode_utf8 (b : nat) (raw : bytes) :
  keeps_to b (decode_utf8 txt raw) (fun _ => True).
Proof.
  unfold decode_utf8. destruct (decode raw);
    [now apply keeps_ret | apply keeps_raise].
Qed.

Lemma keeps_probe (b : nat) (port : str) :
  keeps_to b (probe txt h port)
    (fun r => forall ser, r = Some ser -> b <= ser_id ser).
Proof.
  unfold probe. apply keeps_try.
  - apply keeps_bind with (Q := fun ser => b <= ser_id ser);
      [apply keeps_Serial_new|].
    intros ser Hser. destruct (is_open ser); [|now apply keeps_ret].
    apply keeps_bind with (Q := fun _ => True); [now apply keeps_write|].
    intros _ _.
    apply keeps_bind with (Q := fun _ => True); [now apply keeps_readline|].
    intros raw _.
    apply keeps_bind with (Q := fun _ => True); [apply keeps_decode_utf8|].
    intros data _.
    apply keeps_bind with (Q := fun _ => True); [now apply keeps_emit|].
    intros _ _. apply keeps_ret. intros ser' E. now injection E as <-.
  - intros e. now apply keeps_ret.
Qed.

Lemma keeps_scan_ports (b : nat) (ports : list str) :
  keeps_to b (scan_ports txt h ports)
    (fun r => forall ser, r = Some ser -> b <= ser_id ser).
Proof.
  induction ports as [|port rest IH]; cbn [scan_ports].
  - now apply keeps_ret.
  - eapply keeps_bind; [apply keeps_probe|].
    intros [ser|] Hr; [|exact IH].
    apply keeps_ret. exact Hr.
Qed.

Lemma read_usb_scale_data_unfold (s : state) :
  read_usb_scale_data nd txt h s =
  bind (scan_ports txt h (candidates h (listdir_dev h (clock s))))
    (after_discovery nd txt h) (probing_state h s).
Proof.
  unfold read_usb_scale_data, bind at 1. rewrite find_usb_scale_scan.
  reflexivity.
Qed.

Lemma keeps_after_discovery (b : nat) (scale : option Serial) :
  (forall ser, scale = Some ser -> b <= ser_id ser) ->
  keeps_to b (after_discovery nd txt h scale) (fun _ => True).
Proof.
  intros Hscale. destruct scale as [scale|]; cbn [after_discovery];
    [|now apply keeps_ret].
  apply keeps_try; [|intros e; now apply keeps_ret].
  apply keeps_bind with (Q := fun _ => True);
    [apply keeps_readline; now apply Hscale|].
  intros raw _.
  apply keeps_bind with (Q := fun _ => True); [apply keeps_decode_utf8|].
  intros data _. cbv zeta.
  destruct (parse_scale_data nd (strip data)) as [[w|] u]; now apply keeps_ret.
Qed.

Lemma discoveries_app (a b : list event) :
  discoveries (a ++ b) = discoveries a + discoveries b.
Proof. unfold discoveries. now rewrite filter_app, length_app. Qed.

Lemma discoveries_later (b : nat) (evs : list event) :
  forallb (later_event b) evs = true -> discoveries evs = 0.
Proof.
  unfold discoveries. induction evs as [|e evs IH]; cbn; [reflexivity|].
  intros H. apply andb_true_iff in H as [He Hevs].
  unfold later_event in He. apply andb_true_iff in He as [He _].
  apply negb_true_iff in He. rewrite He. now apply IH.
Qed.

End Traces.

End TraceFacts.

(* ================================================================== *)
(** * The device side: theorems *)
(* ================================================================== *)

Module DeviceSpec.
Import PyStr Re PyFloat Utf8 PyVal ScaleApi Design Unfolded Examples.
Import PyStrFacts DeviceFacts TraceFacts.
Local Open Scope py_scope.

Section DeviceTheorems.
Variable nd : char -> bool.
Variable txt : bytes -> str.
Variable h : host.

Lemma read_scale_unfold (s : state) :
  read_scale nd txt h s =
  (map_result (fun r => MkResponse (jsonify (fst r)) (snd r))
     (fst (read_usb_scale_data nd txt h s)),
   snd (read_usb_scale_data nd txt h s)).
Proof.
  unfold read_scale, bind, ret.
  destruct (read_usb_scale_data nd txt h s) as [[[result status]|e] s'];
    reflexivity.
Qed.

Lemma after_discovery_found (ser : Serial) (s : state) :
  fst (after_discovery nd txt h (Some ser) s) =
  Ret (let r := line_response nd txt
                  (serial_readline h (ser_port ser) (clock s)) in
       (resp_json r, resp_status r)).
Proof.
  unfold after_discovery, line_response, readline, decode_utf8, try_except,
    bind, host_call, raise, ret.
  cbn [clock next_id trace fst snd].
  destruct (serial_readline h (ser_port ser) (clock s)) as [msg|raw];
    [reflexivity|].
  destruct (decode raw) as [text|]; [|reflexivity].
  cbv zeta. destruct (parse_scale_data nd (strip text)) as [[w|] u]; reflexivity.
Qed.

(** The probe of the design does what the [try] block of the loops does,
    whenever that block does not raise. *)
Lemma probe_alike (port : str) (s s' : state) (r : option Serial) (s1 : state) :
  Service.alike s s' ->
  ScaleApi.probe txt h port s = (Ret r, s1) ->
  exists s1',
    Service.probe txt h port s' = (Ret r, s1') /\ Service.alike s1 s1'.
Proof.
  destruct s as [c n tr], s' as [c' n' tr']. unfold Service.alike.
  cbn [clock next_id]. intros [<- <-].
  unfold ScaleApi.probe, Service.probe, try_except, Serial_new, write, readline,
    decode_utf8, bind, host_call, fresh_id, raise, ret, print, emit.
  cbn [clock next_id trace fst snd].
  destruct (serial_open h port c) as [msg|].
  { cbn. intros H. injection H as <- <-. eexists. split; [reflexivity|].
    split; reflexivity. }
  cbn [is_open ser_id ser_port clock next_id trace fst snd].
  destruct (serial_write h port (S c)) as [msg|].
  { cbn. intros H. injection H as <- <-. eexists. split; [reflexivity|].
    split; reflexivity. }
  cbn [clock next_id trace fst snd].
  destruct (serial_readline h port (S (S c))) as [msg|reply].
  { cbn. intros H. injection H as <- <-. eexists. split; [reflexivity|].
    split; reflexivity. }
  cbn [clock next_id trace fst snd].
  destruct (decode reply) as [text|].
  - cbn. intros H. injection H as <- <-. eexists. split; [reflexivity|].
    split; reflexivity.
  - cbn. discriminate.
Qed.

Lemma first_handle_alike (ports : list str) :
  forall s s' r s1,
    Service.alike s s' ->
    scan_ports txt h ports s = (Ret r, s1) ->
    exists s1',
      Service.first_handle txt h ports s' = (Ret r, s1') /\ Service.alike s1 s1'.
Proof.
  induction ports as [|port rest IH]; intros s s' r s1 Ha.
  - cbn. intros H. injection H as <- <-. exists s'. split; [reflexivity|exact Ha].
  - rewrite scan_ports_step. cbn [Service.first_handle]. unfold bind.
    destruct (probe txt h port s) as [[[ser|]|e] s2] eqn:Ep; [| |discriminate].
    + intros H. injection H as <- <-.
      destruct (probe_alike _ _ _ _ _ Ha Ep) as (s2' & -> & Ha2).
      exists s2'. split; [reflexivity|exact Ha2].
    + intros H.
      destruct (probe_alike _ _ _ _ _ Ha Ep) as (s2' & -> & Ha2).
      exact (IH _ _ _ _ Ha2 H).
Qed.

Lemma find_device_alike (s : state) (r : option Serial) (s1 : state) :
  find_usb_scale txt h s = (Ret r, s1) ->
  exists s1',
    Service.find_device txt h s = (Ret r, s1') /\ Service.alike s1 s1'.
Proof.
  rewrite find_usb_scale_scan. intros H.
  unfold Service.find_device, Service.list_candidates, bind.
  unfold candidates, is_tty in H.
  destruct (os_name_nt h) eqn:Hnt.
  - cbn [ret]. refine (first_handle_alike _ _ _ _ _ _ H).
    unfold probing_state, first_probe. rewrite Hnt. split; reflexivity.
  - unfold listdir, bind, host_call, ret. cbn [clock next_id trace].
    refine (first_handle_alike _ _ _ _ _ _ H).
    unfold probing_state, first_probe. rewrite Hnt. split; reflexivity.
Qed.

(** A [try] whose handler catches everything and returns, returns. *)
Lemma try_all_returns {A : Type} (body : M A) (handler : exn -> M A) (s : state) :
  (forall e s1, exists a s', handler e s1 = (Ret a, s')) ->
  exists a s', try_except body (fun _ => true) handler s = (Ret a, s').
Proof.
  intros Hh. unfold try_except.
  destruct (body s) as [[a|e] s1]; [eauto | apply Hh].
Qed.

(** The design's service always returns an outcome. *)
Lemma probe_returns (port : str) (s : state) :
  exists r s', Service.probe txt h port s = (Ret r, s').
Proof.
  apply try_all_returns. intros e s1. exists None, s1. reflexivity.
Qed.

Lemma first_handle_returns (ports : list str) :
  forall s, exists r s', Service.first_handle txt h ports s = (Ret r, s').
Proof.
  induction ports as [|port rest IH]; intros s.
  { exists None, s. reflexivity. }
  cbn [Service.first_handle]. unfold bind.
  destruct (probe_returns port s) as (r & s' & ->).
  destruct r as [ser|]; [|apply IH].
  exists (Some ser), s'. reflexivity.
Qed.

Lemma find_device_returns (s : state) :
  exists r s', Service.find_device txt h s = (Ret r, s').
Proof.
  unfold Service.find_device, Service.list_candidates, bind.
  destruct (os_name_nt h).
  - cbn [ret]. apply first_handle_returns.
  - unfold listdir, bind, host_call, ret. apply first_handle_returns.
Qed.

Lemma service_always_returns (s : state) :
  exists o s', Service.get_weight nd txt h s = (Ret o, s').
Proof.
  unfold Service.get_weight, bind.
  destruct (find_device_returns s) as (r & s' & ->).
  destruct r as [ser|].
  2:{ exists Service.DeviceNotFound, s'. reflexivity. }
  apply try_all_returns. intros e s1.
  exists (Service.IOError (exn_str e)), s1. reflexivity.
Qed.

(** Once the discovery has returned, the view answers with the row of the
    outcome. *)
Lemma after_discovery_alike (scale : option Serial) (s s' : state) :
  Service.alike s s' ->
  fst (after_discovery nd txt h scale s) =
  map_result (fun r => (resp_json r, resp_status r))
    (map_result Service.respond
       (fst (match scale with
             | None => ret Service.DeviceNotFound
             | Some handle =>
                 try_except
                   (raw <- readline h handle ;;
                    line <- decode_utf8 txt raw ;;
                    match Service.parse nd (strip line) with
                    | Some (value, unit) => ret (Service.Success value unit)
                    | None => ret Service.ParseFailure
                    end)
                   (fun _ => true)
                   (fun e => ret (Service.IOError (exn_str e)))
             end s'))).
Proof.
  destruct s as [c n tr], s' as [c' n' tr']. unfold Service.alike.
  cbn [clock next_id]. intros [<- <-].
  destruct scale as [ser|]; [|reflexivity].
  unfold after_discovery, readline, decode_utf8, try_except, bind, host_call,
    raise, ret.
  cbn [clock next_id trace fst snd].
  destruct (serial_readline h (ser_port ser) c) as [msg|raw]; [reflexivity|].
  destruct (decode raw) as [text|]; [|reflexivity].
  cbv zeta. unfold Service.parse.
  rewrite ParserFacts.parse_scale_data_spec.
  destruct (number_of (cleaned_data nd (strip text))) as [[num rest]|];
    [|reflexivity].
  destruct (float_of_str num); reflexivity.
Qed.

(** Whenever the discovery of the code returns, the response of the view is
    the row of the outcome the design's service returns. *)
Lemma read_scale_row (s : state) (scale : option Serial) (s1 : state) :
  find_usb_scale txt h s = (Ret scale, s1) ->
  fst (read_scale nd txt h s) =
  map_result Service.respond (fst (Service.get_weight nd txt h s)).
Proof.
  intros Hf.
  destruct (find_device_alike s scale s1 Hf) as (s1' & Hd & Ha).
  rewrite read_scale_unfold. cbn [fst].
  rewrite read_usb_scale_data_unfold. unfold bind at 1.
  rewrite <- find_usb_scale_scan, Hf.
  rewrite (after_discovery_alike scale s1 s1' Ha).
  unfold Service.get_weight, bind. rewrite Hd.
  match goal with |- context [fst ?x] => destruct x as [[o|e] s2] end;
    cbn [fst map_result]; [|reflexivity].
  now destruct (Service.respond o).
Qed.

(** C7, as amended.  The candidates are tried in the order of the
    enumeration, and the handle is bound to the first one that is accepted,
    the candidates before it having been skipped.  A candidate is accepted
    when its open, probe write and probe read pass without a
    [SerialException] and the reply decodes, whatever the reply says.  When
    every candidate is skipped, and when there is none, the result is [None].
    On the numbered-port platform the candidates are COM1 to COM255. *)
Theorem find_usb_scale_first_accepted (s : state) :
  let cands := candidates h (listdir_dev h (clock s)) in
  let t0 := first_probe h (clock s) in
  (forall before p after t1,
     cands = before ++ p :: after ->
     skips h before t0 t1 ->
     fst (attempt h p t1) = Accepted ->
     exists ser s',
       find_usb_scale txt h s = (Ret (Some ser), s') /\
       ser_port ser = p /\ is_open ser = true) /\
  (forall t1, skips h cands t0 t1 ->
     exists s', find_usb_scale txt h s = (Ret None, s')) /\
  (cands = [] -> exists s', find_usb_scale txt h s = (Ret None, s')) /\
  (forall p t reply text,
     serial_open h p t = None ->
     serial_write h p (S t) = None ->
     serial_readline h p (S (S t)) = inr reply ->
     decode reply = Some text ->
     fst (attempt h p t) = Accepted) /\
  (os_name_nt h = true ->
     length cands = 255 /\ hd_error cands = Some (lit "COM1") /\
     nth_error cands 254 = Some (lit "COM255")).
Proof.
  cbv zeta. split; [|split; [|split; [|split]]].
  - intros before p after t1 Hc Hskip Hacc.
    rewrite find_usb_scale_scan, Hc.
    destruct (scan_ports_found txt h before p after _ _ Hskip Hacc
                (probing_state h s) eq_refl)
      as (ser & s' & Hfind & Hport & Hopen & _).
    eauto.
  - intros t1 Hskip. rewrite find_usb_scale_scan.
    destruct (scan_ports_skips txt h _ _ _ Hskip (probing_state h s) eq_refl)
      as (s' & Hs' & _).
    eauto.
  - intros Hc. rewrite find_usb_scale_scan, Hc. eexists. reflexivity.
  - intros p t reply text Ho Hw Hr Hd. apply attempt_accepted. eauto 6.
  - intros Hnt. unfold candidates. rewrite Hnt.
    split; [now rewrite length_map, length_seq|]. split; reflexivity.
Qed.

(** C2, as amended.  No handle is kept from one call to the next: every
    call of [read_usb_scale_data] starts a discovery, exactly one, and the
    serial objects it writes to or reads from afterwards are objects created
    during that same call. *)
Theorem every_call_rediscovers (s : state) :
  exists evs,
    trace (snd (read_usb_scale_data nd txt h s)) = trace s ++ searching :: evs /\
    discoveries (trace (snd (read_usb_scale_data nd txt h s))) =
      S (discoveries (trace s)) /\
    (forall e i, In e evs -> used_serial e = Some i -> next_id s <= i).
Proof.
  rewrite read_usb_scale_data_unfold.
  assert (Hk : keeps_to (next_id s)
                 (bind (scan_ports txt h (candidates h (listdir_dev h (clock s))))
                    (after_discovery nd txt h))
                 (fun _ => True)).
  { eapply keeps_bind; [apply keeps_scan_ports|].
    intros scale Hscale. now apply keeps_after_discovery. }
  destruct (Hk (probing_state h s) (le_n _)) as [[_ (evs & Htr & Hev)] _].
  set (pre := if os_name_nt h then [] else [Listdir (lit "/dev")]) in *.
  assert (Hpre : forallb (later_event (next_id s)) pre = true)
    by (unfold pre; destruct (os_name_nt h); reflexivity).
  exists (pre ++ evs). split; [|split].
  - rewrite Htr. unfold probing_state. cbn [trace]. fold pre.
    now rewrite <- app_assoc.
  - rewrite Htr. unfold probing_state. cbn [trace]. fold pre.
    rewrite !discoveries_app.
    change (searching :: pre) with ([searching] ++ pre).
    rewrite discoveries_app, (discoveries_later _ _ Hpre), (discoveries_later _ _ Hev).
    cbn. lia.
  - intros e i Hin Hu.
    assert (Hall : forallb (later_event (next_id s)) (pre ++ evs) = true)
      by now rewrite forallb_app, Hpre, Hev.
    rewrite forallb_forall in Hall. specialize (Hall e Hin).
    unfold later_event in Hall. rewrite Hu in Hall.
    apply andb_true_iff in Hall as [_ Hall]. now apply Nat.leb_le.
Qed.

End DeviceTheorems.

(** C1.  The response of [GET /read-scale] against the table of section
    4.5.  The Reading Service of the design always returns an outcome.  In
    every call in which the discovery of the code returns, the response is
    the row of that outcome: 200 with weight and unit, 404 with "USB scale
    not found", 500 with "Failed to parse weight from scale data", 500 with
    "Error reading scale: " and the text of the exception.  In a call in
    which the discovery raises, the view raises the same exception and there
    is no response at all.  That happens on the machine whose first port
    answers the probe with bytes that are not UTF-8 and whose second port is
    a scale sending "12.5g": the outcome is the reading 12.5 g, its row the
    200 one, and the view raises [UnicodeDecodeError]; no row is the
    response. *)
Theorem read_scale_maps_outcome :
  (forall nd txt h s,
     exists o s', Service.get_weight nd txt h s = (Ret o, s')) /\
  (forall nd txt h s scale s1,
     find_usb_scale txt h s = (Ret scale, s1) ->
     fst (read_scale nd txt h s) =
     map_result Service.respond (fst (Service.get_weight nd txt h s))) /\
  (forall nd txt h s e s1,
     find_usb_scale txt h s = (Raise e, s1) ->
     fst (read_scale nd txt h s) = Raise e) /\
  (let h := two_ports (inr [255; 10]%N) in
   fst (Service.get_weight nd_arabic codec_text h initial) =
     Ret (Service.Success (Prim2SF 12.5%float) (lit "g")) /\
   Service.respond (Service.Success (Prim2SF 12.5%float) (lit "g")) =
     MkResponse
       (PDict [(lit "weight", PFloat (Prim2SF 12.5%float));
               (lit "unit", PStr (lit "g"))]) 200 /\
   fst (read_scale nd_arabic codec_text h initial) =
     Raise (MkExn UnicodeDecodeError (codec_text [255; 10]%N)) /\
   forall o,
     fst (read_scale nd_arabic codec_text h initial) <> Ret (Service.respond o)).
Proof.
  split; [|split; [|split]].
  - intros nd txt h s. apply service_always_returns.
  - intros nd txt h s scale s1. apply read_scale_row.
  - intros nd txt h s e s1 Hf.
    unfold read_scale, read_usb_scale_data, bind. now rewrite Hf.
  - cbv zeta.
    assert (Hr : fst (read_scale nd_arabic codec_text
                        (two_ports (inr [255; 10]%N)) initial) =
                 Raise (MkExn UnicodeDecodeError (codec_text [255; 10]%N)))
      by (vm_compute; reflexivity).
    split; [vm_compute; reflexivity|].
    split; [reflexivity|].
    split; [exact Hr|].
    intros o. rewrite Hr. discriminate.
Qed.

(** The four rows of the table: no port opens; a scale sends "12.5g"; a
    scale sends "ERROR"; a scale sends bytes that are not UTF-8 after the
    probe. *)
Lemma read_scale_maps_outcome_witness :
  fst (read_scale nd_arabic codec_text no_port initial) =
    Ret (MkResponse (PDict [(lit "error", PStr (lit "USB scale not found"))]) 404) /\
  fst (read_scale nd_arabic codec_text (one_port (blit "12.5g" ++ crlf)) initial) =
    Ret (MkResponse
           (PDict [(lit "weight", PFloat (Prim2SF 12.5%float));
                   (lit "unit", PStr (lit "g"))]) 200) /\
  fst (read_scale nd_arabic codec_text (one_port (blit "ERROR" ++ crlf)) initial) =
    Ret (MkResponse
           (PDict [(lit "error",
                    PStr (lit "Failed to parse weight from scale data"))]) 500) /\
  fst (read_scale nd_arabic codec_text garbage_after_probe initial) =
    Ret (MkResponse
           (PDict [(lit "error",
                    PStr (lit "Error reading scale: " ++ codec_text [255; 10]%N))])
           500).
Proof.
  destruct read_scale_maps_outcome as (_ & Hrow & _).
  repeat split;
    (eapply eq_trans;
     [eapply Hrow; vm_compute; reflexivity | vm_compute; reflexivity]).
Defined.

(** On [two_ports (inl busy)] the first port is skipped and the second
    accepted; on [no_port] both candidates are skipped. *)
Lemma find_usb_scale_first_accepted_witness :
  (exists ser s',
     find_usb_scale codec_text (two_ports (inl busy)) initial =
       (Ret (Some ser), s') /\
     ser_port ser = lit "/dev/ttyUSB1" /\ is_open ser = true) /\
  (exists s', find_usb_scale codec_text no_port initial = (Ret None, s')).
Proof.
  split.
  - apply (proj1 (find_usb_scale_first_accepted codec_text
                    (two_ports (inl busy)) initial)
             [lit "/dev/ttyUSB0"] (lit "/dev/ttyUSB1") [] 4).
    + reflexivity.
    + eapply skips_cons; [reflexivity | apply skips_nil].
    + reflexivity.
  - apply (proj1 (proj2 (find_usb_scale_first_accepted codec_text no_port
                           initial)) 3).
    eapply skips_cons; [reflexivity|].
    eapply skips_cons; [reflexivity | apply skips_nil].
Defined.

(** C3.  On a machine whose first port opens and answers the probe with
    bytes that are not UTF-8, the codec's exception leaves [find_usb_scale]:
    the port is not skipped (the second port, which has a scale, is never
    opened), and the exception leaves [read_scale] too, instead of a mapped
    body.  The same bytes on the read of the weight line are caught and
    mapped to the 500 body. *)
Theorem undecodable_probe_reply_escapes :
  let h := two_ports (inr [255; 10]%N) in
  let e := MkExn UnicodeDecodeError (codec_text [255; 10]%N) in
  fst (attempt h (lit "/dev/ttyUSB0") 1) = Undecodable /\
  fst (find_usb_scale codec_text h initial) = Raise e /\
  fst (read_scale nd_arabic codec_text h initial) = Raise e /\
  opens (trace (snd (read_scale nd_arabic codec_text h initial))) = 1 /\
  fst (read_scale nd_arabic codec_text garbage_after_probe initial) =
    Ret (http_of_outcome (IOError (codec_text [255; 10]%N))).
Proof. cbv zeta. repeat split; vm_compute; reflexivity. Qed.

(** C7 as stated fails: the first candidate opens, its probe read raises a
    [SerialException], and the handle is bound to the second candidate. *)
Lemma opened_port_can_be_skipped :
  let h := two_ports (inl busy) in
  candidates h (listdir_dev h 0) = [lit "/dev/ttyUSB0"; lit "/dev/ttyUSB1"] /\
  serial_open h (lit "/dev/ttyUSB0") 1 = None /\
  option_map ser_port
    (match fst (find_usb_scale codec_text h initial) with
     | Ret r => r
     | Raise _ => None
     end) = Some (lit "/dev/ttyUSB1").
Proof. cbv zeta. repeat split; vm_compute; reflexivity. Qed.

(** C2 as stated fails: after a call that ends in ParseFailure the next
    call starts a discovery again, opens the port again and reads from the
    new object (1), not from the object of the first call (0). *)
Lemma parse_failure_then_reprobe :
  let h := one_port (blit "ERROR" ++ crlf) in
  let call := read_usb_scale_data nd_arabic codec_text h in
  let s1 := snd (call initial) in
  let s2 := snd (call s1) in
  fst (call initial) =
    Ret (PDict [(lit "error", PStr (lit "Failed to parse weight from scale data"))],
         500%Z) /\
  trace s1 =
    [searching; Listdir (lit "/dev"); SerialOpen (lit "/dev/ttyUSB0") 9600 1;
     SerialWrite 0 (blit "CHECK"); SerialReadline 0;
     Print (lit "Found USB scale at /dev/ttyUSB0"); SerialReadline 0] /\
  trace s2 =
    trace s1 ++
    [searching; Listdir (lit "/dev"); SerialOpen (lit "/dev/ttyUSB0") 9600 1;
     SerialWrite 1 (blit "CHECK"); SerialReadline 1;
     Print (lit "Found USB scale at /dev/ttyUSB0"); SerialReadline 1] /\
  discoveries (trace s1) = 1 /\ discoveries (trace s2) = 2 /\
  opens (trace s1) = 1 /\ opens (trace s2) = 2.
Proof. cbv zeta. repeat split; vm_compute; reflexivity. Qed.

End DeviceSpec.

(* ================================================================== *)
(** * Facts about the tunnel query *)
(* ================================================================== *)

Module TunnelFacts.
Import PyStr PyVal ApiScript Design TunnelDefs PyStrFacts.
Local Open Scope exc_scope.

Lemma split_from_nonempty (sep : str) :
  forall s skip cur, split_from sep skip cur s <> [].
Proof.
  induction s as [|c t IH]; intros skip cur; cbn [split_from]; [discriminate|].
  destruct skip; [|apply IH].
  destruct (startswith (c :: t) sep); [discriminate | apply IH].
Qed.

(** A text without the separator is one piece. *)
Lemma split_from_absent (sep : str) :
  forall s cur, contains s sep = false -> split_from sep 0 cur s = [rev cur ++ s].
Proof.
  induction s as [|c t IH]; intros cur H; cbn [split_from].
  - now rewrite app_nil_r.
  - cbn [contains] in H. apply orb_false_iff in H as [H1 H2].
    rewrite H1, IH by exact H2. cbn [rev]. now rewrite <- app_assoc.
Qed.

(** Up to the first point: the first piece of a split at ["."]. *)
Lemma split_dot_first (label rest : str) :
  forallb (fun c => negb (c =? ch_dot)%N) label = true ->
  forall cur,
    split_from (lit ".") 0 cur (label ++ ch_dot :: rest) =
    (rev cur ++ label) :: split_from (lit ".") 0 [] rest.
Proof.
  induction label as [|c t IH]; intros H cur.
  - cbn. now rewrite app_nil_r.
  - cbn [forallb] in H. apply andb_true_iff in H as [Hc Ht].
    apply negb_true_iff in Hc.
    cbn [app split_from]. cbn [startswith lit map list_ascii_of_string].
    change (N_of_ascii ".") with ch_dot. rewrite N.eqb_sym, Hc. cbn [andb].
    rewrite IH by exact Ht. cbn [rev]. now rewrite <- app_assoc.
Qed.

Lemma split_slashes_skip (c : char) (cur s : str) :
  c <> 47%N ->
  split_from (lit "//") 0 cur (c :: s) = split_from (lit "//") 0 (c :: cur) s.
Proof.
  intros Hc. change (lit "//") with [47; 47]%N. cbn [split_from startswith].
  assert (E : (47 =? c)%N = false) by (apply N.eqb_neq; congruence).
  now rewrite E.
Qed.

Lemma split_slashes_here (cur s : str) :
  split_from (lit "//") 0 cur (lit "//" ++ s) =
  rev cur :: split_from (lit "//") 0 [] s.
Proof. reflexivity. Qed.

(** The text after the scheme of an [https://] URL, when it has no ["//"]
    of its own, is the last piece of the split at ["//"]. *)
Lemma split_https (host : str) :
  contains host (lit "//") = false ->
  split (lit "https://" ++ host) (lit "//") = [lit "https:"; host].
Proof.
  intros Hs. unfold split.
  change (lit "https://" ++ host)
    with (104 :: 116 :: 116 :: 112 :: 115 :: 58 :: lit "//" ++ host)%N.
  rewrite !split_slashes_skip by discriminate.
  rewrite split_slashes_here, split_from_absent by exact Hs.
  reflexivity.
Qed.

(** The label of an [https://] URL: the text between the scheme and the
    first point. *)
Lemma label_of_https (label rest : str) :
  forallb (fun c => negb (c =? ch_dot)%N) label = true ->
  contains (label ++ ch_dot :: rest) (lit "//") = false ->
  label_of (lit "https://" ++ label ++ ch_dot :: rest) = label.
Proof.
  intros Hl Hs. unfold label_of. rewrite split_https by exact Hs.
  cbn [rev app]. unfold split.
  now rewrite (split_dot_first label rest Hl []).
Qed.

(** ** The loop over the listed tunnels *)

Lemma last_item_split (u : str) :
  exists host parts, rev (split u (lit "//")) = host :: parts.
Proof.
  destruct (rev (split u (lit "//"))) as [|host parts] eqn:E; [|eauto].
  exfalso. apply (f_equal (@rev str)) in E. rewrite rev_involutive in E.
  now apply (split_from_nonempty (lit "//") u 0 []).
Qed.

Lemma first_item_split (host : str) :
  exists label parts, split host (lit ".") = label :: parts.
Proof.
  destruct (split host (lit ".")) as [|label parts] eqn:E; [|eauto].
  exfalso. now apply (split_from_nonempty (lit ".") host 0 []).
Qed.

Lemma contains_nil_https : contains [] (lit "https") = false.
Proof. reflexivity. Qed.

(** On tunnels of the expected shape the loop returns the status of the
    first URL that contains ["https"], and falls through when there is
    none. *)
Lemma scan_tunnels_urls :
  forall tunnels urls,
    listed_urls tunnels = Some urls ->
    scan_tunnels tunnels =
    Ret (option_map (fun u => connected (label_of u))
           (find (fun u => contains u (lit "https")) urls)).
Proof.
  induction tunnels as [|t rest IH]; intros urls H.
  - injection H as <-. reflexivity.
  - cbn [listed_urls] in H.
    destruct (public_url t) as [u|] eqn:Eu; [|discriminate].
    destruct (listed_urls rest) as [us|]; [|discriminate].
    injection H as <-. specialize (IH us eq_refl).
    cbn [scan_tunnels find].
    destruct t as [| | | | |l|d]; try discriminate.
    cbn [public_url] in Eu. cbn [py_get py_getitem].
    destruct (dict_get d (lit "public_url")) as [v|] eqn:Ed.
    + destruct v as [| | | |u'| |]; try discriminate.
      injection Eu as ->. cbn [bind py_in].
      destruct (contains u (lit "https")) eqn:Ec; [|exact IH].
      cbn [py_split bind option_map].
      unfold connected, label_of, last_item, first_item.
      destruct (last_item_split u) as (host & parts & ->).
      cbn [bind py_split].
      destruct (first_item_split host) as (label & parts' & ->).
      reflexivity.
    + injection Eu as <-. cbn [bind py_in]. rewrite contains_nil_https.
      exact IH.
Qed.

End TunnelFacts.

(* ================================================================== *)
(** * The tunnel query: theorems *)
(* ================================================================== *)

Module TunnelSpec.
Import PyStr PyVal ApiScript Design TunnelDefs Examples PyStrFacts TunnelFacts.
Local Open Scope exc_scope.

(** C8.  [get_ngrok_url] against the claim, with the values written out
    as the file builds them (lines 46, 47 and 49).  Where the code keeps it: a
    request that fails with a [RequestException], also one raised by
    [response.json()], gives the offline status; an answer with another status
    code than 200 gives not_found; an answer of the expected shape gives the
    connected status with the label of the first listed [public_url] that
    contains the text "https", and not_found when there is none; for
    [https://label.rest] without a further "//" that label is [label].
    Where the code breaks it: the test of line 44 looks for the text "https"
    anywhere in the URL, so the single tunnel [http://https-demo.ngrok.io],
    which is not secure, is reported connected with the label "https-demo";
    on the answer [{"tunnels": null}] the function raises a [TypeError]; and
    for [https://ab12cd.ngrok.io//x.y] the label is "x", cut after the last
    "//", not the label "ab12cd" of the host. *)
Theorem get_ngrok_url_status :
  let status url state :=
    PDict [(lit "url", PStr url); (lit "status", PStr state)] in
  let answer url :=
    Ret (MkResponse 200
           (Ret (PDict [(lit "tunnels",
                         PList [PDict [(lit "public_url", PStr url)]])]))) in
  (forall e, is_class RequestException e = true ->
     get_ngrok_url (Raise e) = Ret (status (lit "Not available") (lit "offline"))) /\
  (forall e, is_class RequestException e = true ->
     get_ngrok_url (Ret (MkResponse 200 (Raise e))) =
     Ret (status (lit "Not available") (lit "offline"))) /\
  (forall code body, code <> 200%Z ->
     get_ngrok_url (Ret (MkResponse code body)) =
     Ret (status (lit "Not found") (lit "not_found"))) /\
  (forall doc tunnels urls,
     py_get (PDict doc) (lit "tunnels") (PList []) = Ret (PList tunnels) ->
     listed_urls tunnels = Some urls ->
     get_ngrok_url (Ret (MkResponse 200 (Ret (PDict doc)))) =
     Ret match find (fun u => contains u (lit "https")) urls with
         | Some u => status (label_of u) (lit "connected")
         | None => status (lit "Not found") (lit "not_found")
         end) /\
  (forall label rest,
     forallb (fun c => negb (c =? ch_dot)%N) label = true ->
     contains (label ++ ch_dot :: rest) (lit "//") = false ->
     label_of (lit "https://" ++ label ++ ch_dot :: rest) = label) /\
  (secure_url (lit "http://https-demo.ngrok.io") = false /\
   get_ngrok_url (answer (lit "http://https-demo.ngrok.io")) =
     Ret (status (lit "https-demo") (lit "connected"))) /\
  (exists e,
     get_ngrok_url
       (Ret (MkResponse 200 (Ret (PDict [(lit "tunnels", PNone)])))) = Raise e /\
     exn_class_of e = TypeError) /\
  (secure_url (lit "https://ab12cd.ngrok.io//x.y") = true /\
   get_ngrok_url (answer (lit "https://ab12cd.ngrok.io//x.y")) =
     Ret (status (lit "x") (lit "connected"))).
Proof.
  cbv zeta. repeat match goal with |- _ /\ _ => split end.
  - intros e He. unfold get_ngrok_url. cbn [bind try_except]. now rewrite He.
  - intros e He. unfold get_ngrok_url.
    cbn [bind try_except status_code json Z.eqb Pos.eqb]. now rewrite He.
  - intros code body Hcode. unfold get_ngrok_url. cbn [bind status_code].
    apply Z.eqb_neq in Hcode. now rewrite Hcode.
  - intros doc tunnels urls Hget Hurls. unfold get_ngrok_url.
    cbn [bind status_code json Z.eqb Pos.eqb]. rewrite Hget.
    cbn [bind py_iter]. rewrite (scan_tunnels_urls _ _ Hurls).
    cbn [bind]. destruct (find _ urls); reflexivity.
  - exact label_of_https.
  - reflexivity.
  - vm_compute. reflexivity.
  - eexists. split; reflexivity.
  - reflexivity.
  - vm_compute. reflexivity.
Qed.

Lemma get_ngrok_url_status_witness :
  get_ngrok_url (Raise (MkExn RequestException (lit "Connection refused"))) =
    Ret (PDict [(lit "url", PStr (lit "Not available"));
                (lit "status", PStr (lit "offline"))]) /\
  get_ngrok_url (Ret (MkResponse 200 (Ret (PDict two_tunnels)))) =
    Ret (PDict [(lit "url", PStr (lit "ab12cd"));
                (lit "status", PStr (lit "connected"))]) /\
  label_of (lit "https://" ++ lit "ab12cd" ++ ch_dot :: lit "ngrok.io") =
    lit "ab12cd".
Proof.
  destruct get_ngrok_url_status as (Hoff & _ & _ & Hshape & Hlabel & _).
  split; [|split].
  - apply Hoff. reflexivity.
  - refine (eq_trans
              (Hshape two_tunnels
                 (match dict_get two_tunnels (lit "tunnels") with
                  | Some (PList l) => l
                  | _ => []
                  end)
                 [lit "http://ab12cd.ngrok.io"; lit "https://ab12cd.ngrok.io"]
                 eq_refl eq_refl) _).
    vm_compute. reflexivity.
  - apply Hlabel; reflexivity.
Defined.

End TunnelSpec.

(* ================================================================== *)
(** * Facts about the conversion to floats *)
(* ================================================================== *)

Module FloatFacts.
Import PyStr PyFloat Measures.

Lemma shr_1_nonneg (mrs : shr_record) :
  (0 <= shr_m mrs)%Z -> (0 <= shr_m (shr_1 mrs))%Z.
Proof.
  destruct mrs as [m r s]. cbn [shr_m]. intros H.
  destruct m as [|p|p]; [cbn; lia | | lia].
  destruct p; cbn; lia.
Qed.

Lemma iter_pos_shr_1_nonneg (p : positive) :
  forall mrs, (0 <= shr_m mrs)%Z -> (0 <= shr_m (iter_pos shr_1 p mrs))%Z.
Proof.
  induction p as [p IH|p IH|]; intros mrs H; cbn [iter_pos].
  - apply IH, IH, shr_1_nonneg, H.
  - apply IH, IH, H.
  - apply shr_1_nonneg, H.
Qed.

Lemma shr_nonneg (mrs : shr_record) (e n : Z) :
  (0 <= shr_m mrs)%Z -> (0 <= shr_m (fst (shr mrs e n)))%Z.
Proof.
  intros H. unfold shr. destruct n; cbn [fst]; try exact H.
  now apply iter_pos_shr_1_nonneg.
Qed.

Lemma shr_record_of_loc_m (m : Z) (l : location) :
  shr_m (shr_record_of_loc m l) = m.
Proof. destruct l as [|[| |]]; reflexivity. Qed.

Lemma shr_fexp_nonneg (m e : Z) (l : location) :
  (0 <= m)%Z -> (0 <= shr_m (fst (shr_fexp prec emax m e l)))%Z.
Proof.
  intros H. unfold shr_fexp. apply shr_nonneg. now rewrite shr_record_of_loc_m.
Qed.

Lemma round_nearest_even_nonneg (m : Z) (l : location) :
  (0 <= m)%Z -> (0 <= round_nearest_even m l)%Z.
Proof.
  intros H. unfold round_nearest_even.
  destruct l as [|[| |]]; try lia. destruct (Z.even m); lia.
Qed.

(** Rounding a non-negative mantissa gives zero, a finite number or
    infinity, with the sign asked for. *)
Lemma binary_round_aux_nonneg (m e : Z) (l : location) :
  (0 <= m)%Z -> is_nonneg (binary_round_aux prec emax false m e l) = true.
Proof.
  intros H. unfold binary_round_aux.
  pose proof (shr_fexp_nonneg m e l H) as H1.
  destruct (shr_fexp prec emax m e l) as [mrs' e']. cbn [fst] in H1.
  pose proof (shr_fexp_nonneg _ e' loc_Exact
                (round_nearest_even_nonneg _ (loc_of_shr_record mrs') H1)) as H2.
  destruct (shr_fexp prec emax _ e' loc_Exact) as [mrs'' e'']. cbn [fst] in H2.
  destruct (shr_m mrs'') as [|p|p]; [reflexivity | | lia].
  destruct (Z.leb e'' (emax - prec)); reflexivity.
Qed.

Lemma of_decimal_nonneg (n : Z) (k : nat) : is_nonneg (of_decimal n k) = true.
Proof.
  unfold of_decimal. destruct n as [|m|m]; try reflexivity.
  unfold SFdiv. cbn [xorb].
  destruct (SFdiv_core_binary prec emax (Z.pos m) 0
              (Z.pos (Z.to_pos (10 ^ Z.of_nat k))) 0) as [[q e] l] eqn:E.
  apply binary_round_aux_nonneg.
  unfold SFdiv_core_binary in E. cbv zeta in E.
  set (m' := match _ with Z.pos _ => _ | Z0 => _ | Z.neg _ => _ end) in E.
  assert (Hm' : (0 <= m')%Z).
  { unfold m'. destruct (_ - _ - _)%Z; try lia. apply Z.shiftl_nonneg. lia. }
  pose proof (Z.div_eucl_eq m' (Z.pos (Z.to_pos (10 ^ Z.of_nat k))) ltac:(lia)) as Hd.
  pose proof (Z_div_mod m' (Z.pos (Z.to_pos (10 ^ Z.of_nat k))) ltac:(lia)) as Hr.
  destruct (Z.div_eucl m' _) as [q' r']. injection E as <- _ _.
  nia.
Qed.

Lemma float_of_str_nonneg (s : str) (w : float) :
  float_of_str s = Some w -> is_nonneg w = true.
Proof.
  unfold float_of_str.
  destruct (takewhile is_ascii_digit s); [discriminate|].
  destruct (dropwhile is_ascii_digit s).
  - intros H. injection H as <-. apply of_decimal_nonneg.
  - destruct (_ && _ && _); [|discriminate].
    intros H. injection H as <-. apply of_decimal_nonneg.
Qed.

End FloatFacts.

(* ================================================================== *)
(** * The frame parser: further laws *)
(* ================================================================== *)

Module ParserLaws.
Import PyStr Re PyFloat Utf8 PyVal ScaleApi Design Unfolded Examples Measures.
Import PyStrFacts ParserFacts FloatFacts.

Lemma dropwhile_app_all (p : char -> bool) (a b : str) :
  forallb p a = true -> dropwhile p (a ++ b) = dropwhile p b.
Proof.
  induction a as [|c t IH]; simpl; [reflexivity|].
  intros H. apply andb_true_iff in H as [-> Ht]. now apply IH.
Qed.

Lemma filter_dropped (p : char -> bool) (s : str) :
  forallb (fun c => negb (p c)) s = true -> filter p s = [].
Proof.
  induction s as [|c t IH]; simpl; [reflexivity|].
  intros H. apply andb_true_iff in H as [Hc Ht].
  apply negb_true_iff in Hc. rewrite Hc. now apply IH.
Qed.

Section Laws.
Variable nd : char -> bool.

(** X1. Lines 61-63 in one pass: what is left is the text from the first
    character of [\d] on, without the characters other than ASCII digits,
    points and the letter g; and the [strip] of line 63 never removes
    anything. *)
Theorem cleaning_is_one_pass (raw : str) :
  let substituted := re_sub_empty pat_noise (re_sub_empty (pat_leading nd) raw) in
  substituted = filter keeps (dropwhile (fun c => negb (re_d nd c)) raw) /\
  strip substituted = substituted /\
  forallb keeps substituted = true.
Proof.
  cbv zeta.
  pose proof (cleaned_data_spec nd raw) as Hc.
  pose proof (cleaned_keeps nd raw) as Hk.
  unfold cleaned_data in Hc, Hk.
  assert (Hs : forallb (fun c => negb (isspace c))
                 (filter keeps (dropwhile (fun c => negb (re_d nd c)) raw)) = true).
  { apply (forallb_impl keeps); [|apply forallb_filter].
    intros c Hc'. now rewrite (keeps_not_space c Hc'). }
  unfold pat_leading, pat_noise in *.
  rewrite ReFacts.re_sub_empty_leading, ReFacts.re_sub_empty_cls in *.
  assert (E : forall l, filter (fun c => negb (negb (keeps c))) l = filter keeps l).
  { intros l. apply filter_ext. intros c. apply negb_involutive. }
  rewrite E in *. repeat split.
  - now apply strip_no_space.
  - apply forallb_filter.
Qed.

(** The two shapes of a result, with what is known of each. *)
Lemma float_of_parse (raw : str) (w : float) (u : option str) :
  parse_scale_data nd raw = (Some w, u) ->
  is_nonneg w = true /\ u = Some (lit "g").
Proof.
  rewrite parse_scale_data_spec.
  destruct (number_of (cleaned_data nd raw)) as [[num rest]|]; [|discriminate].
  destruct (float_of_str num) as [w'|] eqn:Ef; [|discriminate].
  intros H. injection H as <- <-. split; [|reflexivity].
  exact (float_of_str_nonneg _ _ Ef).
Qed.

Lemma parse_without_digit (raw : str) :
  forallb (fun c => negb (is_ascii_digit c)) raw = true ->
  parse_scale_data nd raw = (None, None).
Proof.
  intros H. rewrite parse_scale_data_spec, cleaned_data_spec.
  rewrite number_of_none; [reflexivity|].
  apply forallb_forall. intros c Hc.
  apply filter_In in Hc as [Hc _].
  assert (Hin : In c raw).
  { clear H. induction raw as [|x t IH]; cbn in Hc; [exact Hc|].
    destruct (negb (re_d nd x)); [right; auto|exact Hc]. }
  rewrite forallb_forall in H. exact (H c Hin).
Qed.

(** X2. Whatever stands before the first character of [\d] has no effect on the
    result: a sign, a label, control characters. *)
Theorem leading_text_is_ignored (garbage s : str) :
  forallb (fun c => negb (re_d nd c)) garbage = true ->
  parse_scale_data nd (garbage ++ s) = parse_scale_data nd s.
Proof.
  intros Hg. rewrite !parse_scale_data_spec, !cleaned_data_spec.
  now rewrite dropwhile_app_all.
Qed.

(** X3. Once the first character of [\d] is passed, the characters that line 62
    drops leave no trace: the digits on both sides of them are read as one
    number. *)
Theorem dropped_characters_join_digits (c : char) (a noise b : str) :
  re_d nd c = true ->
  forallb (fun x => negb (keeps x)) noise = true ->
  parse_scale_data nd (c :: a ++ noise ++ b) = parse_scale_data nd (c :: a ++ b).
Proof.
  intros Hc Hn. rewrite !parse_scale_data_spec, !cleaned_data_spec.
  cbn [dropwhile]. rewrite Hc. cbn [negb].
  change (c :: a ++ noise ++ b) with ((c :: a) ++ noise ++ b).
  change (c :: a ++ b) with ((c :: a) ++ b).
  rewrite !filter_app. now rewrite (filter_dropped keeps noise Hn).
Qed.

(** X4. A weight that is returned is zero, a positive number or plus infinity:
    never a negative number, minus zero or a NaN. *)
Theorem weight_is_never_negative (raw : str) (w : float) (u : option str) :
  parse_scale_data nd raw = (Some w, u) -> is_nonneg w = true.
Proof.
  rewrite parse_scale_data_spec.
  destruct (number_of (cleaned_data nd raw)) as [[num rest]|]; [|discriminate].
  destruct (float_of_str num) as [w'|] eqn:Ef; [|discriminate].
  intros H. injection H as <- _. exact (float_of_str_nonneg _ _ Ef).
Qed.

End Laws.

Lemma leading_text_is_ignored_witness :
  parse_scale_data nd_arabic (lit "ST,GS,-" ++ lit "5.2 g") =
  parse_scale_data nd_arabic (lit "5.2 g").
Proof.
  apply (leading_text_is_ignored nd_arabic (lit "ST,GS,-") (lit "5.2 g")).
  reflexivity.
Defined.

Lemma dropped_characters_join_digits_witness :
  parse_scale_data nd_arabic (lit "1 2 kg") = parse_scale_data nd_arabic (lit "12 kg") /\
  parse_scale_data nd_arabic (lit "12 kg") = (Some (Prim2SF 12%float), Some (lit "g")).
Proof.
  split; [|vm_compute; reflexivity].
  apply (dropped_characters_join_digits nd_arabic 49%N [] (lit " ") (lit "2 kg"));
    reflexivity.
Defined.

Lemma weight_is_never_negative_witness :
  parse_scale_data nd_arabic (lit "-0.5g") = (Some (Prim2SF 0.5%float), Some (lit "g")) /\
  is_nonneg (Prim2SF 0.5%float) = true.
Proof.
  split; [vm_compute; reflexivity|].
  apply (weight_is_never_negative nd_arabic (lit "-0.5g") _ (Some (lit "g"))).
  vm_compute. reflexivity.
Defined.

End ParserLaws.

(* ================================================================== *)
(** * The device side: effects, cost and answers *)
(* ================================================================== *)

Module DeviceLaws.
Import PyStr Re PyFloat Utf8 PyVal ScaleApi Design Unfolded Examples Measures.
Import PyStrFacts ParserFacts FloatFacts DeviceFacts TraceFacts.
Local Open Scope py_scope.

Lemma opens_app (a b : list event) : opens (a ++ b) = opens a + opens b.
Proof. unfold opens. now rewrite filter_app, length_app. Qed.

Lemma writes_app (a b : list event) : writes (a ++ b) = writes a + writes b.
Proof. unfold writes. now rewrite filter_app, length_app. Qed.

Lemma entitled_incl (ports ports' : list str) (e : event) :
  incl ports ports' -> entitled ports e -> entitled ports' e.
Proof.
  intros Hi. destruct e; cbn; try tauto.
  intros (Hin & Hb & Ht). auto.
Qed.

(** The conjuncts of an effect, on a trace written out. *)
Ltac effect_cases :=
  repeat split; cbn; auto; try lia;
  repeat (constructor; cbn; auto).

Section Effects.
Variable nd : char -> bool.
Variable txt : bytes -> str.
Variable h : host.

(** What one probe adds to the trace: one open of its port; and, when the
    port opened, the write of the probe and possibly a read and the line
    that reports the device. *)
Lemma probe_effect (port : str) (s : state) :
  exists evs,
    trace (snd (probe txt h port s)) = trace s ++ evs /\
    Forall (entitled [port]) evs /\
    opens evs = 1 /\
    writes evs + next_id s = next_id (snd (probe txt h port s)) /\
    clock (snd (probe txt h port s)) <= clock s + 3.
Proof.
  unfold probe, try_except, Serial_new, write, readline, decode_utf8,
    bind, host_call, fresh_id, raise, ret, print, emit.
  cbn [clock next_id trace fst snd].
  destruct (serial_open h port (clock s)) as [msg|].
  { cbn [is_class exn_class_of snd trace clock next_id].
    exists [SerialOpen port 9600 1]. effect_cases. }
  cbn [is_open ser_id ser_port clock next_id trace fst snd].
  destruct (serial_write h port (S (clock s))) as [msg|].
  { cbn [is_class exn_class_of snd trace clock next_id].
    exists [SerialOpen port 9600 1; SerialWrite (next_id s) (blit "CHECK")].
    rewrite <- !app_assoc. effect_cases. }
  cbn [clock next_id trace fst snd].
  destruct (serial_readline h port (S (S (clock s)))) as [msg|reply].
  { cbn [is_class exn_class_of snd trace clock next_id].
    exists [SerialOpen port 9600 1; SerialWrite (next_id s) (blit "CHECK");
            SerialReadline (next_id s)].
    rewrite <- !app_assoc. effect_cases. }
  cbn [clock next_id trace fst snd].
  destruct (decode reply) as [text|].
  - cbn [is_class exn_class_of snd trace clock next_id].
    exists [SerialOpen port 9600 1; SerialWrite (next_id s) (blit "CHECK");
            SerialReadline (next_id s);
            Print (lit "Found USB scale at " ++ port)].
    rewrite <- !app_assoc. effect_cases.
  - cbn [is_class exn_class_of snd trace clock next_id].
    exists [SerialOpen port 9600 1; SerialWrite (next_id s) (blit "CHECK");
            SerialReadline (next_id s)].
    rewrite <- !app_assoc. effect_cases.
Qed.

(** The loop: the effects of its probes, one after the other; every port is
    opened when no handle comes out. *)
Lemma scan_ports_effect (cands ports : list str) :
  incl ports cands ->
  forall s,
  exists evs,
    trace (snd (scan_ports txt h ports s)) = trace s ++ evs /\
    Forall (entitled cands) evs /\
    opens evs <= length ports /\
    (fst (scan_ports txt h ports s) = Ret None -> opens evs = length ports) /\
    writes evs + next_id s = next_id (snd (scan_ports txt h ports s)) /\
    clock (snd (scan_ports txt h ports s)) <= clock s + 3 * length ports.
Proof.
  induction ports as [|port rest IH]; intros Hi s.
  - exists []. cbn. rewrite app_nil_r. repeat split; auto; lia.
  - rewrite scan_ports_step.
    destruct (probe_effect port s) as (ev1 & Ht1 & Hf1 & Ho1 & Hw1 & Hc1).
    assert (Hf1' : Forall (entitled cands) ev1).
    { eapply Forall_impl; [|exact Hf1]. intros e. apply entitled_incl.
      intros p [<-|[]]. apply Hi. now left. }
    destruct (probe txt h port s) as [[[ser|]|e] s1]; cbn [fst snd] in *.
    + exists ev1. repeat split; auto; cbn [length]; try lia. discriminate.
    + destruct (IH (fun p Hp => Hi p (or_intror Hp)) s1)
        as (ev2 & Ht2 & Hf2 & Ho2 & Hn2 & Hw2 & Hc2).
      exists (ev1 ++ ev2). rewrite Ht2, Ht1, app_assoc.
      rewrite opens_app, writes_app. cbn [length].
      repeat split; auto; try lia.
      * now apply Forall_app.
      * intros Hnone. specialize (Hn2 Hnone). lia.
    + exists ev1. repeat split; auto; cbn [length]; try lia. discriminate.
Qed.

(** After the discovery: at most one more call, a read from the handle. *)
Lemma after_discovery_effect (cands : list str) (scale : option Serial) (s : state) :
  exists evs,
    trace (snd (after_discovery nd txt h scale s)) = trace s ++ evs /\
    Forall (entitled cands) evs /\
    opens evs = 0 /\ writes evs = 0 /\
    next_id (snd (after_discovery nd txt h scale s)) = next_id s /\
    clock (snd (after_discovery nd txt h scale s)) <= clock s + 1.
Proof.
  destruct scale as [ser|]; cbn [after_discovery].
  - unfold readline, decode_utf8, try_except, bind, host_call, raise, ret.
    cbn [clock next_id trace fst snd].
    exists [SerialReadline (ser_id ser)].
    destruct (serial_readline h (ser_port ser) (clock s)) as [msg|raw].
    { effect_cases. }
    destruct (decode raw) as [text|].
    + cbv zeta.
      destruct (parse_scale_data nd (strip text)) as [[w|] u]; effect_cases.
    + effect_cases.
  - exists []. cbn. rewrite app_nil_r. repeat split; auto; lia.
Qed.

(** The state in which the first probe starts holds the start line and, on
    the other platforms, the listing. *)
Lemma probing_state_effect (s : state) :
  exists evs,
    trace (probing_state h s) = trace s ++ evs /\
    Forall (entitled (candidates h (listdir_dev h (clock s)))) evs /\
    opens evs = 0 /\ writes evs = 0 /\
    next_id (probing_state h s) = next_id s /\
    clock (probing_state h s) <= clock s + 1.
Proof.
  unfold probing_state, first_probe. cbn [trace next_id clock].
  eexists. split; [reflexivity|].
  generalize (candidates h (listdir_dev h (clock s))). intros cands.
  destruct (os_name_nt h).
  - repeat split; try reflexivity; try lia. repeat constructor.
  - repeat split; try reflexivity; try lia. repeat constructor.
Qed.

(** What a request does, start to end: the effects of the discovery and of
    the read that follows. *)
Lemma read_usb_scale_data_effect (s : state) :
  exists evs,
    trace (snd (read_usb_scale_data nd txt h s)) = trace s ++ evs /\
    Forall (entitled (candidates h (listdir_dev h (clock s)))) evs /\
    opens evs <= length (candidates h (listdir_dev h (clock s))) /\
    (forall body, fst (read_usb_scale_data nd txt h s) = Ret (body, 404%Z) ->
       opens evs = length (candidates h (listdir_dev h (clock s)))) /\
    writes evs + next_id s = next_id (snd (read_usb_scale_data nd txt h s)) /\
    clock (snd (read_usb_scale_data nd txt h s)) <=
      clock s + 3 * length (candidates h (listdir_dev h (clock s))) + 2.
Proof.
  rewrite read_usb_scale_data_unfold. unfold bind.
  set (cands := candidates h (listdir_dev h (clock s))).
  destruct (probing_state_effect s) as (ev0 & Ht0 & Hf0 & Ho0 & Hw0 & Hi0 & Hc0).
  fold cands in Hf0.
  destruct (scan_ports_effect cands cands (incl_refl _) (probing_state h s))
    as (ev1 & Ht1 & Hf1 & Ho1 & Hn1 & Hw1 & Hc1).
  destruct (scan_ports txt h cands (probing_state h s)) as [[scale|e] s1];
    cbn [fst snd] in *.
  - destruct (after_discovery_effect cands scale s1)
      as (ev2 & Ht2 & Hf2 & Ho2 & Hw2 & Hi2 & Hc2).
    exists (ev0 ++ ev1 ++ ev2).
    rewrite Ht2, Ht1, Ht0, <- !app_assoc, !opens_app, !writes_app.
    repeat split; auto; try lia.
    + apply Forall_app. split; [exact Hf0|]. apply Forall_app. now split.
    + intros body Hbody. destruct scale as [ser|].
      * rewrite DeviceSpec.after_discovery_found in Hbody.
        exfalso. revert Hbody. unfold line_response.
        destruct (serial_readline h (ser_port ser) (clock s1)) as [msg|raw];
          [discriminate|].
        destruct (decode raw) as [text|]; [|discriminate].
        destruct (parse_scale_data nd (strip text)) as [[w|] u]; discriminate.
      * specialize (Hn1 eq_refl). lia.
  - exists (ev0 ++ ev1).
    rewrite Ht1, Ht0, <- !app_assoc, !opens_app, !writes_app.
    repeat split; auto; try lia.
    + apply Forall_app. now split.
    + discriminate.
Qed.

(** X5. Serial footprint of a request.  Whatever the machine answers, a call of
    [read_usb_scale_data] only adds to the trace, and what it adds stays
    within: opening candidate ports (COM1..COM255, or the ttyUSB and ttyACM
    entries of [/dev]) at 9600 baud with a timeout of one second, writing
    [b'CHECK'], reading lines, listing [/dev], printing.  Every port that
    opens gets the probe written to it: the writes are as many as the serial
    objects created. *)
Theorem serial_footprint (s : state) :
  let cands := candidates h (listdir_dev h (clock s)) in
  let s' := snd (read_usb_scale_data nd txt h s) in
  exists evs,
    trace s' = trace s ++ evs /\
    Forall (entitled cands) evs /\
    writes evs + next_id s = next_id s'.
Proof.
  cbv zeta.
  destruct (read_usb_scale_data_effect s) as (evs & Ht & Hf & _ & _ & Hw & _).
  exists evs. auto.
Qed.

(** X6. Cost of a request.  A call of [read_usb_scale_data] makes at most three
    host calls per candidate, plus the listing and the final read, and opens
    each candidate at most once; when it answers 404 it has opened every
    candidate, which on the numbered-port platform is 255 opens for each
    request. *)
Theorem request_cost (s : state) :
  let cands := candidates h (listdir_dev h (clock s)) in
  let s' := snd (read_usb_scale_data nd txt h s) in
  clock s' <= clock s + 3 * length cands + 2 /\
  opens (trace s') <= opens (trace s) + length cands /\
  (forall body, fst (read_usb_scale_data nd txt h s) = Ret (body, 404%Z) ->
     opens (trace s') = opens (trace s) + length cands) /\
  (os_name_nt h = true -> length cands = 255).
Proof.
  cbv zeta.
  destruct (read_usb_scale_data_effect s) as (evs & Ht & _ & Ho & Hn & _ & Hc).
  rewrite Ht, opens_app. repeat split; auto; try lia.
  - intros body Hbody. rewrite (Hn body Hbody). reflexivity.
  - intros Hnt. unfold candidates. rewrite Hnt.
    now rewrite length_map, length_seq.
Qed.

End Effects.

Lemma strip_forall (q : char -> bool) (s : str) :
  forallb q s = true -> forallb q (strip s) = true.
Proof.
  intros H. unfold strip, rstrip, lstrip.
  rewrite forallb_rev. apply dropwhile_forall.
  rewrite forallb_rev. now apply dropwhile_forall.
Qed.

Section Responses.
Variable nd : char -> bool.
Variable txt : bytes -> str.
Variable h : host.

(** What the view can return. *)
Lemma read_scale_returns (s : state) (r : response) :
  fst (read_scale nd txt h s) = Ret r ->
  (exists w,
     is_nonneg w = true /\
     resp_status r = 200%Z /\
     resp_json r = PDict [(lit "weight", PFloat w); (lit "unit", PStr (lit "g"))]) \/
  (resp_status r = 404%Z /\
   resp_json r = PDict [(lit "error", PStr (lit "USB scale not found"))]) \/
  (exists msg,
     resp_status r = 500%Z /\ resp_json r = PDict [(lit "error", PStr msg)]).
Proof.
  rewrite DeviceSpec.read_scale_unfold. cbn [fst].
  rewrite read_usb_scale_data_unfold. unfold bind.
  destruct (scan_ports txt h _ (probing_state h s)) as [[[ser|]|e] s1];
    cbn [map_result]; [| |discriminate].
  - rewrite DeviceSpec.after_discovery_found. cbn [map_result fst snd jsonify].
    intros H. injection H as <-. unfold line_response.
    destruct (serial_readline h (ser_port ser) (clock s1)) as [msg|raw].
    { right. right. eexists. split; reflexivity. }
    destruct (decode raw) as [text|].
    2:{ right. right. eexists. split; reflexivity. }
    pose proof (ParserLaws.float_of_parse nd (strip text)) as Hp.
    destruct (parse_scale_data nd (strip text)) as [[w|] u].
    + left. exists w. destruct (Hp w u eq_refl) as [Hw ->].
      repeat split. exact Hw.
    + right. right. eexists. split; reflexivity.
  - cbn. intros H. injection H as <-. right. left. split; reflexivity.
Qed.

(** X7. The answers of [GET /read-scale].  When the view returns, the response
    is one of: 200 with a weight that is not negative and not a NaN and the
    unit 'g'; 404 with "USB scale not found"; 500 with an error text.  No
    other status code and no other body shape comes out. *)
Theorem read_scale_answers (s : state) (r : response) :
  fst (read_scale nd txt h s) = Ret r ->
  (exists w,
     is_nonneg w = true /\
     resp_status r = 200%Z /\
     resp_json r = PDict [(lit "weight", PFloat w); (lit "unit", PStr (lit "g"))]) \/
  (resp_status r = 404%Z /\
   resp_json r = PDict [(lit "error", PStr (lit "USB scale not found"))]) \/
  (exists msg,
     resp_status r = 500%Z /\ resp_json r = PDict [(lit "error", PStr msg)]).
Proof. exact (read_scale_returns s r). Qed.

(** X8. A line without a digit is a parse failure.  When the accepted port then
    sends a line that decodes to a text without any ASCII digit (nothing at
    all when the read times out, a status word, a blank line), the response
    is the 500 "Failed to parse weight from scale data": not the 404, and not
    the 500 of a read error. *)
Theorem line_without_digit_fails (s : state) (before : list str) (p : str)
  (after : list str) (t1 : nat) (raw : bytes) (text : str) :
  candidates h (listdir_dev h (clock s)) = before ++ p :: after ->
  skips h before (first_probe h (clock s)) t1 ->
  fst (attempt h p t1) = Accepted ->
  serial_readline h p (t1 + 3) = inr raw ->
  decode raw = Some text ->
  forallb (fun c => negb (is_ascii_digit c)) text = true ->
  fst (read_scale nd txt h s) =
  Ret (MkResponse
         (PDict [(lit "error", PStr (lit "Failed to parse weight from scale data"))])
         500).
Proof.
  intros Hc Hsk Hacc Hline Hdec Htext.
  rewrite DeviceSpec.read_scale_unfold. cbn [fst].
  rewrite read_usb_scale_data_unfold. unfold bind. rewrite Hc.
  destruct (scan_ports_found txt h before p after _ t1 Hsk Hacc
              (probing_state h s) eq_refl)
    as (ser & s1 & -> & Hport & _ & Hclock).
  rewrite DeviceSpec.after_discovery_found, Hport, Hclock, Hline.
  unfold line_response. rewrite Hdec.
  rewrite (ParserLaws.parse_without_digit nd (strip text)
             (strip_forall _ _ Htext)).
  reflexivity.
Qed.

End Responses.

Lemma read_scale_answers_witness :
  fst (read_scale nd_arabic codec_text (one_port (blit "12.5g" ++ crlf)) initial) =
    Ret (MkResponse
           (PDict [(lit "weight", PFloat (Prim2SF 12.5%float));
                   (lit "unit", PStr (lit "g"))]) 200) /\
  ((exists w,
      is_nonneg w = true /\
      200%Z = 200%Z /\
      PDict [(lit "weight", PFloat (Prim2SF 12.5%float));
             (lit "unit", PStr (lit "g"))] =
      PDict [(lit "weight", PFloat w); (lit "unit", PStr (lit "g"))]) \/
   (200%Z = 404%Z /\
    PDict [(lit "weight", PFloat (Prim2SF 12.5%float));
           (lit "unit", PStr (lit "g"))] =
    PDict [(lit "error", PStr (lit "USB scale not found"))]) \/
   (exists msg,
      200%Z = 500%Z /\
      PDict [(lit "weight", PFloat (Prim2SF 12.5%float));
             (lit "unit", PStr (lit "g"))] = PDict [(lit "error", PStr msg)])).
Proof.
  split; [vm_compute; reflexivity|].
  apply (read_scale_answers nd_arabic codec_text
           (one_port (blit "12.5g" ++ crlf)) initial
           (MkResponse
              (PDict [(lit "weight", PFloat (Prim2SF 12.5%float));
                      (lit "unit", PStr (lit "g"))]) 200)).
  vm_compute. reflexivity.
Defined.

(** A scale that is found and then stays silent for the second of the
    timeout: the read gives [b''], and the answer is the parse failure. *)
Lemma line_without_digit_fails_witness :
  fst (read_scale nd_arabic codec_text (one_port []) initial) =
  Ret (MkResponse
         (PDict [(lit "error", PStr (lit "Failed to parse weight from scale data"))])
         500).
Proof.
  apply (line_without_digit_fails nd_arabic codec_text (one_port []) initial
           [] (lit "/dev/ttyUSB0") [] 1 [] []); try reflexivity.
  constructor.
Defined.

Section Escapes.
Variable nd : char -> bool.
Variable txt : bytes -> str.
Variable h : host.

(** A probe raises only on a reply that is not UTF-8, and then with the
    codec's exception. *)
Lemma probe_raises (port : str) (s s' : state) (e : exn) :
  probe txt h port s = (Raise e, s') ->
  exists raw,
    serial_readline h port (S (S (clock s))) = inr raw /\
    decode raw = None /\
    e = MkExn UnicodeDecodeError (txt raw).
Proof.
  unfold probe, try_except, Serial_new, write, readline, decode_utf8,
    bind, host_call, fresh_id, raise, ret, print, emit.
  cbn [clock next_id trace fst snd].
  destruct (serial_open h port (clock s)) as [msg|]; [discriminate|].
  cbn [is_open ser_id ser_port clock next_id trace fst snd].
  destruct (serial_write h port (S (clock s))) as [msg|]; [discriminate|].
  cbn [clock next_id trace fst snd].
  destruct (serial_readline h port (S (S (clock s)))) as [msg|reply];
    [discriminate|].
  cbn [clock next_id trace fst snd].
  destruct (decode reply) as [text|] eqn:Ed; [discriminate|].
  cbn. intros H. injection H as <- _. exists reply. auto.
Qed.

Lemma scan_ports_raises (ports : list str) :
  forall s s' e,
    scan_ports txt h ports s = (Raise e, s') ->
    exists port t raw,
      In port ports /\
      serial_readline h port t = inr raw /\
      decode raw = None /\
      e = MkExn UnicodeDecodeError (txt raw).
Proof.
  induction ports as [|port rest IH]; intros s s' e; [discriminate|].
  rewrite scan_ports_step.
  destruct (probe txt h port s) as [[[ser|]|e1] s1] eqn:Ep.
  - discriminate.
  - intros H. destruct (IH _ _ _ H) as (p & t & raw & Hin & Hrest).
    exists p, t, raw. split; [now right | exact Hrest].
  - intros H. injection H as <- _.
    destruct (probe_raises _ _ _ _ Ep) as (raw & Hr & Hd & He).
    exists port, (S (S (clock s))), raw. split; [now left | auto].
Qed.

(** When the view raises, the exception is the one of the codec on the
    reply of a candidate port to the probe. *)
Lemma read_scale_raises (s : state) (e : exn) :
  fst (read_scale nd txt h s) = Raise e ->
  exists port t raw,
    In port (candidates h (listdir_dev h (clock s))) /\
    serial_readline h port t = inr raw /\
    decode raw = None /\
    e = MkExn UnicodeDecodeError (txt raw).
Proof.
  rewrite DeviceSpec.read_scale_unfold. cbn [fst].
  rewrite read_usb_scale_data_unfold. unfold bind.
  destruct (scan_ports txt h _ (probing_state h s)) as [[scale|e1] s1] eqn:Es.
  - destruct scale as [ser|].
    + rewrite DeviceSpec.after_discovery_found. discriminate.
    + discriminate.
  - cbn [fst map_result]. intros H. injection H as <-.
    exact (scan_ports_raises _ _ _ _ Es).
Qed.

(** X9. A failure of the serial driver never leaves the view.  A
    [SerialException] raised by the open, the write or the read of a probe is
    skipped by the discovery (lines 40 and 53), and one raised by the read of
    the weight line is mapped to a 500 body (line 91): when [read_scale]
    raises, the exception is not a [SerialException]. *)
Theorem serial_errors_never_escape (s : state) (e : exn) :
  fst (read_scale nd txt h s) = Raise e ->
  is_class SerialException e = false.
Proof.
  intros H.
  destruct (read_scale_raises s e H) as (port & t & raw & _ & _ & _ & ->).
  reflexivity.
Qed.

End Escapes.

(** The first port answers every read with a [SerialException], also the
    read of the weight line when it is the only port: nothing escapes.  The
    exception that does escape, on bytes that are not UTF-8, is the codec's. *)
Lemma serial_errors_never_escape_witness :
  fst (read_scale nd_arabic codec_text (two_ports (inl busy)) initial) =
    Ret (MkResponse
           (PDict [(lit "weight", PFloat (Prim2SF 12.5%float));
                   (lit "unit", PStr (lit "g"))]) 200) /\
  fst (read_scale nd_arabic codec_text (two_ports (inr [255; 10]%N)) initial) =
    Raise (MkExn UnicodeDecodeError (codec_text [255; 10]%N)) /\
  is_class SerialException (MkExn UnicodeDecodeError (codec_text [255; 10]%N)) =
    false.
Proof.
  split; [vm_compute; reflexivity|].
  split; [vm_compute; reflexivity|].
  apply (serial_errors_never_escape nd_arabic codec_text
           (two_ports (inr [255; 10]%N)) initial).
  vm_compute. reflexivity.
Defined.

End DeviceLaws.

(* ================================================================== *)
(** * The tunnel query on any answer *)
(* ================================================================== *)

Module TunnelLaws.
Import PyStr PyVal ApiScript Design TunnelDefs Examples PyStrFacts TunnelFacts.
Local Open Scope exc_scope.

(** ** Pieces of a split *)

(** The last piece is the end of the text. *)
Lemma split_from_last (sep : str) :
  forall s skip cur,
    exists a, rev cur ++ skipn skip s = a ++ last (split_from sep skip cur s) [].
Proof.
  induction s as [|c t IH]; intros skip cur.
  - exists []. cbn [split_from last app]. now rewrite skipn_nil, app_nil_r.
  - cbn [split_from]. destruct skip as [|n].
    + cbn [skipn]. destruct (startswith (c :: t) sep).
      * destruct (IH (length sep - 1) []) as (a & Ha).
        pose proof (split_from_nonempty sep t (length sep - 1) []) as Hne.
        destruct (split_from sep (length sep - 1) [] t) as [|x l] eqn:E;
          [contradiction|].
        cbn [last]. fold (last (x :: l) (@nil char)).
        exists (rev cur ++ c :: firstn (length sep - 1) t ++ a).
        cbn [rev app] in Ha.
        rewrite <- (firstn_skipn (length sep - 1) t) at 1.
        rewrite Ha, <- !app_assoc. cbn [app]. now rewrite <- !app_assoc.
      * destruct (IH 0 (c :: cur)) as (a & Ha). exists a.
        cbn [rev skipn] in Ha. rewrite <- app_assoc in Ha. exact Ha.
    + cbn [skipn]. apply IH.
Qed.

(** The first piece is the start of the text. *)
Lemma split_from_first (sep : str) :
  forall s cur,
    exists b, rev cur ++ s = hd [] (split_from sep 0 cur s) ++ b.
Proof.
  induction s as [|c t IH]; intros cur.
  - exists []. reflexivity.
  - cbn [split_from]. destruct (startswith (c :: t) sep).
    + exists (c :: t). reflexivity.
    + destruct (IH (c :: cur)) as (b & Hb). exists b.
      cbn [rev] in Hb. rewrite <- app_assoc in Hb. exact Hb.
Qed.

(** The first piece of a split at ["."] holds no point. *)
Lemma split_dot_no_dot :
  forall s cur : str,
    forallb (fun c => negb (c =? ch_dot)%N) cur = true ->
    forallb (fun c => negb (c =? ch_dot)%N)
      (hd [] (split_from (lit ".") 0 cur s)) = true.
Proof.
  induction s as [|c t IH]; intros cur Hcur.
  - cbn [split_from hd]. now rewrite forallb_rev.
  - cbn [split_from]. cbn [startswith lit map list_ascii_of_string].
    change (N_of_ascii ".") with ch_dot.
    destruct (ch_dot =? c)%N eqn:Ec; cbn [andb].
    + cbn [hd]. now rewrite forallb_rev.
    + apply IH. cbn [forallb]. now rewrite N.eqb_sym, Ec, Hcur.
Qed.

(** What lines 45-46 take from a URL is a part of it, without a point. *)
Lemma label_of_part (u : str) :
  forallb (fun c => negb (c =? ch_dot)%N) (label_of u) = true /\
  exists a b, u = a ++ label_of u ++ b.
Proof.
  unfold label_of, split.
  destruct (split_from_last (lit "//") u 0 []) as (a & Ha).
  cbn [rev app skipn] in Ha.
  destruct (last_item_split u) as (host & parts & Hrev).
  unfold split in Hrev. rewrite Hrev.
  assert (Hlast : last (split_from (lit "//") 0 [] u) [] = host).
  { rewrite <- (rev_involutive (split_from (lit "//") 0 [] u)), Hrev.
    cbn [rev]. apply last_last. }
  rewrite Hlast in Ha.
  pose proof (split_dot_no_dot host [] eq_refl) as Hdot.
  destruct (split_from_first (lit ".") host []) as (b & Hb).
  cbn [rev app] in Hb.
  destruct (split_from (lit ".") 0 [] host) as [|label parts']; cbn [hd] in *.
  - split; [reflexivity|]. exists u, []. now rewrite app_nil_r.
  - split; [exact Hdot|]. exists a, b. now rewrite Ha, Hb.
Qed.

(** ** The loop on any answer *)

(** Whatever the listed items are, the loop returns the connected status of
    a URL that one of them carries, falls through, or raises an exception
    that is not a [RequestException]. *)
Lemma scan_tunnels_any (items : list pyval) :
  match scan_tunnels items with
  | Ret (Some d) =>
      exists entries u,
        In (PDict entries) items /\
        dict_get entries (lit "public_url") = Some (PStr u) /\
        contains u (lit "https") = true /\
        d = connected (label_of u)
  | Ret None => True
  | Raise e => is_class RequestException e = false
  end.
Proof.
  induction items as [|t rest IH]; [exact I|].
  cbn [scan_tunnels].
  destruct t as [| | | | |l|d]; try reflexivity.
  cbn [py_get py_getitem bind].
  destruct (dict_get d (lit "public_url")) as [v|] eqn:Ed.
  - destruct v as [|b|z|f|u|l|d']; cbn [py_in bind]; try reflexivity.
    + destruct (contains u (lit "https")) eqn:Ec.
      * cbn [py_split bind]. unfold last_item, first_item.
        pose proof (eq_refl (label_of u)) as Hl. unfold label_of at 1 in Hl.
        destruct (last_item_split u) as (host & parts & Hrev).
        rewrite Hrev in Hl |- *. cbn [bind py_split].
        destruct (first_item_split host) as (label & parts' & Hsp).
        rewrite Hsp in Hl |- *.
        exists d, u. repeat split; auto.
        -- now left.
        -- now rewrite Hl.
      * destruct (scan_tunnels rest) as [[d'|]|e]; auto.
        destruct IH as (entries & u' & Hin & H). exists entries, u'.
        split; [now right | exact H].
    + destruct (existsb (is_str (lit "https")) l); [reflexivity|].
      destruct (scan_tunnels rest) as [[d''|]|e]; auto.
      destruct IH as (entries & u' & Hin & H). exists entries, u'.
      split; [now right | exact H].
    + destruct (existsb _ d'); [reflexivity|].
      destruct (scan_tunnels rest) as [[d''|]|e]; auto.
      destruct IH as (entries & u' & Hin & H). exists entries, u'.
      split; [now right | exact H].
  - cbn [py_in bind]. rewrite contains_nil_https.
    destruct (scan_tunnels rest) as [[d''|]|e]; auto.
    destruct IH as (entries & u' & Hin & H). exists entries, u'.
    split; [now right | exact H].
Qed.

Lemma Ret_inj {A : Type} (a b : A) : Ret a = Ret b -> a = b.
Proof.
  intros H.
  exact (f_equal (fun r => match r with Ret v => v | Raise _ => a end) H).
Qed.

(** What [get_ngrok_url] can return. *)
Lemma get_ngrok_url_returns (requests_get : result Response) (v : pyval) :
  get_ngrok_url requests_get = Ret v ->
  v = offline \/ v = not_found \/ exists u, v = connected (label_of u).
Proof.
  unfold get_ngrok_url, try_except.
  destruct requests_get as [response|e]; cbn [bind].
  2:{ destruct (is_class RequestException e); [|discriminate].
      intros H. apply Ret_inj in H. now left. }
  destruct (status_code response =? 200)%Z; cbn [bind].
  2:{ intros H. apply Ret_inj in H. now right; left. }
  destruct (json response) as [tunnels|e]; cbn [bind].
  2:{ destruct (is_class RequestException e); [|discriminate].
      intros H. apply Ret_inj in H. now left. }
  destruct (py_get tunnels (lit "tunnels") (PList [])) as [listed|e]; cbn [bind].
  2:{ destruct (is_class RequestException e); [|discriminate].
      intros H. apply Ret_inj in H. now left. }
  destruct (py_iter listed) as [items|e]; cbn [bind].
  2:{ destruct (is_class RequestException e); [|discriminate].
      intros H. apply Ret_inj in H. now left. }
  pose proof (scan_tunnels_any items) as Hscan.
  destruct (scan_tunnels items) as [[d|]|e]; cbn [bind].
  - destruct Hscan as (entries & u & _ & _ & _ & ->).
    intros H. apply Ret_inj in H. right; right. eauto.
  - intros H. apply Ret_inj in H. now right; left.
  - destruct (is_class RequestException e); [|discriminate].
    intros H. apply Ret_inj in H. now left.
Qed.

(** X10. The three answers of [get_ngrok_url].  The offline status comes
    out exactly when the request, or [response.json()] on a 200 answer, raised
    a [RequestException].  Whatever the request gives, a value that is
    returned is the offline status, with that cause; the not_found status, on
    an answer with another status code or on a 200 answer whose body was
    decoded; or a connected status, on a 200 answer whose body was decoded.
    An exception that comes out is never a [RequestException]. *)
Theorem get_ngrok_url_answers (requests_get : result Response) :
  ((exists e, is_class RequestException e = true /\
      (requests_get = Raise e \/
       exists response, requests_get = Ret response /\
         status_code response = 200%Z /\ json response = Raise e))
   <-> get_ngrok_url requests_get = Ret offline) /\
  match get_ngrok_url requests_get with
  | Ret v =>
      (v = offline /\
       exists e, is_class RequestException e = true /\
         (requests_get = Raise e \/
          exists response, requests_get = Ret response /\
            status_code response = 200%Z /\ json response = Raise e)) \/
      (v = not_found /\
       exists response, requests_get = Ret response /\
         (status_code response <> 200%Z \/
          status_code response = 200%Z /\
          exists body, json response = Ret body)) \/
      (exists label, v = connected label /\
         exists response body, requests_get = Ret response /\
           status_code response = 200%Z /\ json response = Ret body)
  | Raise e => is_class RequestException e = false
  end.
Proof.
  assert (Hoff : forall l, offline <> connected l).
  { intros l H. unfold offline, connected, status_dict in H.
    injection H as _ H. cbv in H. discriminate. }
  assert (Hnf : not_found <> offline).
  { intros H. cbv in H. discriminate. }
  assert (Hm : match get_ngrok_url requests_get with
    | Ret v =>
        (v = offline /\
         exists e, is_class RequestException e = true /\
           (requests_get = Raise e \/
            exists response, requests_get = Ret response /\
              status_code response = 200%Z /\ json response = Raise e)) \/
        (v = not_found /\
         exists response, requests_get = Ret response /\
           (status_code response <> 200%Z \/
            status_code response = 200%Z /\
            exists body, json response = Ret body)) \/
        (exists label, v = connected label /\
           exists response body, requests_get = Ret response /\
             status_code response = 200%Z /\ json response = Ret body)
    | Raise e => is_class RequestException e = false
    end).
  { unfold get_ngrok_url, try_except.
    destruct requests_get as [response|e]; cbn [bind].
    2:{ destruct (is_class RequestException e) eqn:Ec; [|exact Ec].
        left. split; [reflexivity|]. exists e. auto. }
    destruct (status_code response =? 200)%Z eqn:Es; cbn [bind].
    2:{ right. left. split; [reflexivity|]. exists response.
        split; [reflexivity|]. left. now apply Z.eqb_neq. }
    apply Z.eqb_eq in Es.
    destruct (json response) as [tunnels|e] eqn:Ej; cbn [bind].
    2:{ destruct (is_class RequestException e) eqn:Ec; [|exact Ec].
        left. split; [reflexivity|]. exists e. split; [exact Ec|].
        right. exists response. auto. }
    destruct (py_get tunnels (lit "tunnels") (PList [])) as [listed|e] eqn:Eg;
      cbn [bind].
    2:{ destruct tunnels; try discriminate; injection Eg as <-; reflexivity. }
    destruct (py_iter listed) as [items|e] eqn:Ei; cbn [bind].
    2:{ destruct listed; try discriminate; injection Ei as <-; reflexivity. }
    pose proof (scan_tunnels_any items) as Hscan.
    destruct (scan_tunnels items) as [[d|]|e]; cbn [bind].
    - destruct Hscan as (entries & u & _ & _ & _ & ->).
      right. right. exists (label_of u). split; [reflexivity|].
      exists response, tunnels. auto.
    - right. left. split; [reflexivity|]. exists response.
      split; [reflexivity|]. right. eauto.
    - rewrite Hscan. exact Hscan. }
  split; [|exact Hm]. split.
  - intros (e & He & [->|(response & -> & Hs & Hj)]);
      unfold get_ngrok_url, try_except; cbn [bind].
    + now rewrite He.
    + rewrite Hs, Hj. cbn [bind Z.eqb Pos.eqb]. now rewrite He.
  - intros H. rewrite H in Hm.
    destruct Hm as [(_ & Hc)|[(Hv & _)|(label & Hv & _)]].
    + exact Hc.
    + symmetry in Hv. now apply Hnf in Hv.
    + now apply Hoff in Hv.
Qed.

(** X11. Where a connected label comes from.  When [get_ngrok_url] returns a
    connected status, its label is cut out of the [public_url] of one of the
    listed tunnels, a URL that contains the text "https": the label is a
    contiguous part of that URL and holds no point. *)
Theorem connected_label_is_part_of_url (requests_get : result Response)
  (label : str) :
  get_ngrok_url requests_get = Ret (connected label) ->
  forallb (fun c => negb (c =? ch_dot)%N) label = true /\
  exists response tunnels items entries u a b,
    requests_get = Ret response /\
    json response = Ret tunnels /\
    (listed <- py_get tunnels (lit "tunnels") (PList []) ;; py_iter listed)
      = Ret items /\
    In (PDict entries) items /\
    dict_get entries (lit "public_url") = Some (PStr u) /\
    contains u (lit "https") = true /\
    u = a ++ label ++ b.
Proof.
  assert (Hoff : forall l, offline <> connected l).
  { intros l H. unfold offline, connected, status_dict in H.
    injection H as _ H. cbv in H. discriminate. }
  assert (Hnf : forall l, not_found <> connected l).
  { intros l H. unfold not_found, connected, status_dict in H.
    injection H as _ H. cbv in H. discriminate. }
  unfold get_ngrok_url, try_except.
  destruct requests_get as [response|e]; cbn [bind].
  2:{ destruct (is_class RequestException e); [|discriminate].
      intros H. apply Ret_inj in H. now apply Hoff in H. }
  destruct (status_code response =? 200)%Z; cbn [bind].
  2:{ intros H. apply Ret_inj in H. now apply Hnf in H. }
  destruct (json response) as [tunnels|e] eqn:Ej; cbn [bind].
  2:{ destruct (is_class RequestException e); [|discriminate].
      intros H. apply Ret_inj in H. now apply Hoff in H. }
  destruct (py_get tunnels (lit "tunnels") (PList [])) as [listed|e] eqn:Eg;
    cbn [bind].
  2:{ destruct (is_class RequestException e); [|discriminate].
      intros H. apply Ret_inj in H. now apply Hoff in H. }
  destruct (py_iter listed) as [items|e] eqn:Ei; cbn [bind].
  2:{ destruct (is_class RequestException e); [|discriminate].
      intros H. apply Ret_inj in H. now apply Hoff in H. }
  pose proof (scan_tunnels_any items) as Hscan.
  destruct (scan_tunnels items) as [[d|]|e]; cbn [bind].
  - destruct Hscan as (entries & u & Hin & Hd & Hc & ->).
    intros H. apply Ret_inj in H. unfold connected, status_dict in H.
    injection H as <-.
    destruct (label_of_part u) as (Hdot & a & b & Hu).
    split; [exact Hdot|].
    exists response, tunnels, items, entries, u, a, b.
    repeat split; auto. rewrite Eg. exact Ei.
  - intros H. apply Ret_inj in H. now apply Hnf in H.
  - destruct (is_class RequestException e); [|discriminate].
    intros H. apply Ret_inj in H. now apply Hoff in H.
Qed.

Lemma connected_label_is_part_of_url_witness :
  get_ngrok_url (Ret (MkResponse 200 (Ret (PDict two_tunnels)))) =
    Ret (connected (lit "ab12cd")) /\
  forallb (fun c => negb (c =? ch_dot)%N) (lit "ab12cd") = true.
Proof.
  split; [reflexivity|].
  apply (connected_label_is_part_of_url
           (Ret (MkResponse 200 (Ret (PDict two_tunnels)))) (lit "ab12cd")).
  reflexivity.
Defined.

End TunnelLaws.

(* ================================================================== *)
(** * Facts about the window *)
(* ================================================================== *)

Module WindowFacts.
Import PyStr PyFloat PyVal Window WindowParts TunnelDefs.
Local Open Scope gui_scope.

Lemma bind_assoc {A B C : Type} (c : W A) (k : A -> W B) (k' : B -> W C)
  (g : ScaleApp) :
  bind (bind c k) k' g = bind c (fun a => bind (k a) k') g.
Proof. unfold bind. destruct (c g) as [[a|e] g']; reflexivity. Qed.

Lemma bind_cong {A B : Type} (c : W A) (k k' : A -> W B) (g : ScaleApp) :
  (forall a g', k a g' = k' a g') -> bind c k g = bind c k' g.
Proof. intros H. unfold bind. destruct (c g) as [[a|e] g']; auto. Qed.

Lemma try_cong {A : Type} (b b' : W A) (caught : error -> bool)
  (handler : error -> W A) (g : ScaleApp) :
  (forall g', b g' = b' g') ->
  try_except b caught handler g = try_except b' caught handler g.
Proof. intros H. unfold try_except. now rewrite H. Qed.

Section Facts.
Variable str_of : pyval -> str.
Variable float_of_text : str -> option float.

Lemma update_info_sections (rw rn : result ApiScript.Response) (g : ScaleApp) :
  update_info str_of float_of_text rw rn g =
  try_except
    (weight_section str_of float_of_text rw ;; tunnel_section rn)
    (fun _ => true) update_failed g.
Proof.
  unfold update_info. apply try_cong. intros g0. symmetry.
  unfold weight_section.
  rewrite bind_assoc. apply bind_cong. intros weight_data g1.
  rewrite bind_assoc. apply bind_cong. intros formatted_weight g2.
  rewrite bind_assoc. apply bind_cong. intros _ g3.
  rewrite bind_assoc. apply bind_cong. intros status g4.
  reflexivity.
Qed.


(** The handler leaves the status line and the weight at fixed texts. *)
Lemma update_failed_effect (e : error) (g : ScaleApp) :
  exists g',
    update_failed e g = (Done tt, g') /\
    shown g' status_label = update_error /\
    shown g' weight_value = lit "0.0 g" /\
    current_ngrok_url g' = current_ngrok_url g /\
    copied (outputs g') = copied (outputs g).
Proof.
  eexists. split; [reflexivity|]. cbn.
  repeat split. unfold copied. rewrite flat_map_app. cbn. apply app_nil_r.
Qed.

(** The tunnel half: it fails only when [get_ngrok_url] raises, before any
    write; otherwise it shows the status it got and keeps its URL. *)
Lemma tunnel_section_cases (rn : result ApiScript.Response) (g : ScaleApp) :
  (exists e,
     ApiScript.get_ngrok_url rn = Raise e /\
     tunnel_section rn g = (Failed (Known e), g)) \/
  (exists url line g',
     tunnel_section rn g = (Done tt, g') /\
     ((ApiScript.get_ngrok_url rn = Ret offline /\
       url = lit "Not available" /\ line = tunnel_offline) \/
      (ApiScript.get_ngrok_url rn = Ret not_found /\
       url = lit "Not found" /\ line = tunnel_missing) \/
      (ApiScript.get_ngrok_url rn = Ret (connected url) /\ line = online)) /\
     shown g' status_label = line /\
     shown g' ngrok_value = url /\
     current_ngrok_url g' = PStr url /\
     label g' weight_value = label g weight_value /\
     label g' weight_status = label g weight_status /\
     outputs g' = outputs g).
Proof.
  unfold tunnel_section.
  destruct (ApiScript.get_ngrok_url rn) as [v|e] eqn:E.
  2:{ left. exists e. split; reflexivity. }
  right.
  destruct (TunnelLaws.get_ngrok_url_returns rn v E) as [->|[->|(u & ->)]].
  - exists (lit "Not available"), tunnel_offline. eexists.
    split; [reflexivity|]. split; [left; auto|]. repeat split.
  - exists (lit "Not found"), tunnel_missing. eexists.
    split; [reflexivity|]. split; [right; left; auto|]. repeat split.
  - exists (label_of u), online. eexists.
    split; [reflexivity|]. split; [right; right; auto|]. repeat split.
Qed.


(** What [get_weight] can return. *)
Lemma get_weight_returns (rw : result ApiScript.Response) (d : pyval) :
  get_weight rw = Ret d ->
  (exists weight unit response,
     d = reading weight unit (lit "connected") /\
     rw = Ret response /\ ApiScript.status_code response = 200%Z) \/
  d = reading (PStr (lit "0.0")) (PStr (lit "g")) (lit "error") \/
  d = reading (PStr (lit "0.0")) (PStr (lit "g")) (lit "disconnected").
Proof.
  unfold get_weight, ApiScript.try_except.
  destruct rw as [response|e]; cbn [ApiScript.bind].
  2:{ destruct (is_class RequestException e); [|discriminate].
      intros H. apply TunnelLaws.Ret_inj in H. auto. }
  destruct (ApiScript.status_code response =? 200)%Z eqn:Es;
    cbn [ApiScript.bind].
  2:{ intros H. apply TunnelLaws.Ret_inj in H. auto. }
  apply Z.eqb_eq in Es.
  destruct (ApiScript.json response) as [data|e]; cbn [ApiScript.bind].
  2:{ destruct (is_class RequestException e); [|discriminate].
      intros H. apply TunnelLaws.Ret_inj in H. auto. }
  destruct (subscript data (lit "weight")) as [weight|e]; cbn [ApiScript.bind].
  2:{ destruct (is_class RequestException e); [|discriminate].
      intros H. apply TunnelLaws.Ret_inj in H. auto. }
  destruct (subscript data (lit "unit")) as [unit|e]; cbn [ApiScript.bind].
  2:{ destruct (is_class RequestException e); [|discriminate].
      intros H. apply TunnelLaws.Ret_inj in H. auto. }
  intros H. apply TunnelLaws.Ret_inj in H. left. eauto 6.
Qed.

(** ** Computations that leave the tunnel side alone *)

Lemma quiet_ret {A : Type} (a : A) : quiet (ret a).
Proof. intros g. split; reflexivity. Qed.

Lemma quiet_raise {A : Type} (e : error) : quiet (@raise A e).
Proof. intros g. split; reflexivity. Qed.

Lemma quiet_call {A : Type} (r : result A) : quiet (call r).
Proof. destruct r; [apply quiet_ret | apply quiet_raise]. Qed.

Lemma quiet_bind {A B : Type} (c : W A) (k : A -> W B) :
  quiet c -> (forall a, quiet (k a)) -> quiet (bind c k).
Proof.
  intros Hc Hk g. unfold bind. specialize (Hc g).
  destruct (c g) as [[a|e] g1]; cbn [snd] in *; [|exact Hc].
  destruct (Hk a g1) as [H1 H2]. destruct Hc as [H3 H4].
  split; congruence.
Qed.

Lemma quiet_try {A : Type} (b : W A) (caught : error -> bool)
  (handler : error -> W A) :
  quiet b -> (forall e, quiet (handler e)) -> quiet (try_except b caught handler).
Proof.
  intros Hb Hh g. unfold try_except. specialize (Hb g).
  destruct (b g) as [[a|e] g1]; cbn [snd] in *; [exact Hb|].
  destruct (caught e); [|exact Hb].
  destruct (Hh e g1) as [H1 H2]. destruct Hb as [H3 H4].
  split; congruence.
Qed.

Lemma quiet_setText (w : widget) (v : pyval) : quiet (setText w v).
Proof. destruct v; intros g; split; reflexivity. Qed.

Lemma quiet_setStyleSheet (w : widget) (sheet : str) : quiet (setStyleSheet w sheet).
Proof. intros g. split; reflexivity. Qed.

Lemma quiet_py_float (v : pyval) : quiet (py_float float_of_text v).
Proof.
  destruct v as [|b|z|f|s|l|d]; cbn [py_float];
    try apply quiet_ret; try apply quiet_raise.
  - destruct (float_of_int z); try apply quiet_ret. apply quiet_raise.
  - destruct (float_of_str s); [apply quiet_ret|].
    destruct (float_of_text s); [apply quiet_ret | apply quiet_raise].
Qed.

Lemma quiet_weight_section (rw : result ApiScript.Response) :
  quiet (weight_section str_of float_of_text rw).
Proof.
  unfold weight_section.
  apply quiet_bind; [apply quiet_call|]. intros weight_data.
  apply quiet_bind.
  { apply quiet_try.
    - apply quiet_bind; [apply quiet_call|]. intros weight.
      apply quiet_bind; [apply quiet_py_float|]. intros weight_value.
      apply quiet_bind; [apply quiet_call|]. intros unit. apply quiet_ret.
    - intros _.
      apply quiet_bind; [apply quiet_call|]. intros weight.
      apply quiet_bind; [apply quiet_call|]. intros unit. apply quiet_ret. }
  intros formatted_weight.
  apply quiet_bind; [apply quiet_setText|]. intros _.
  apply quiet_bind; [apply quiet_call|]. intros status.
  destruct (equals_str status (lit "connected")).
  { apply quiet_bind; [apply quiet_setText|]. intros _. apply quiet_setStyleSheet. }
  apply quiet_bind; [apply quiet_call|]. intros status'.
  destruct (equals_str status' (lit "error")).
  { apply quiet_bind; [apply quiet_setText|]. intros _. apply quiet_setStyleSheet. }
  apply quiet_bind; [apply quiet_setText|]. intros _.
  apply quiet_bind; [apply quiet_setStyleSheet|]. intros _.
  apply quiet_setText.
Qed.

(** The weight half on the two fixed readings: the display is "0.0 g". *)
Lemma weight_section_fixed (rw : result ApiScript.Response) (status : str)
  (g : ScaleApp) :
  get_weight rw = Ret (reading (PStr (lit "0.0")) (PStr (lit "g")) status) ->
  exists g',
    weight_section str_of float_of_text rw g = (Done tt, g') /\
    shown g' weight_value = lit "0.0 g".
Proof.
  intros H. unfold weight_section. rewrite H.
  unfold bind at 1. cbn [call ret].
  unfold bind at 1.
  assert (E : try_except
      (weight <- call (subscript (reading (PStr (lit "0.0")) (PStr (lit "g")) status)
                         (lit "weight")) ;;
       weight_value <- py_float float_of_text weight ;;
       unit <- call (subscript (reading (PStr (lit "0.0")) (PStr (lit "g")) status)
                       (lit "unit")) ;;
       ret (format_1f weight_value ++ lit " " ++ fmt str_of unit))
      (fun e => is_known ValueError e || is_known TypeError e)
      (fun _ =>
         weight <- call (subscript (reading (PStr (lit "0.0")) (PStr (lit "g")) status)
                           (lit "weight")) ;;
         unit <- call (subscript (reading (PStr (lit "0.0")) (PStr (lit "g")) status)
                         (lit "unit")) ;;
         ret (fmt str_of weight ++ lit " " ++ fmt str_of unit)) g
      = (Done (lit "0.0 g"), g)) by reflexivity.
  rewrite E. clear E.
  unfold bind at 1. cbn [setText update_label].
  unfold bind at 1.
  change (call (subscript (reading (PStr (lit "0.0")) (PStr (lit "g")) status)
                  (lit "status")))
    with (@ret pyval (PStr status)).
  cbn [ret].
  destruct (equals_str (PStr status) (lit "connected")).
  { eexists. split; [reflexivity|]. reflexivity. }
  unfold bind at 1. cbn [ret].
  destruct (equals_str (PStr status) (lit "error")).
  { eexists. split; [reflexivity|]. reflexivity. }
  eexists. split; [reflexivity|]. reflexivity.
Qed.


(** [float] on a JSON number. *)
Lemma py_float_number (v : pyval) (w : float) (g : ScaleApp) :
  float_value v = Some w -> too_large v = false ->
  py_float float_of_text v g = (Done w, g).
Proof.
  destruct v as [|b|z|f|t|l|d]; try discriminate; cbn.
  - destruct (float_of_int z); intros H; injection H as <-;
      (reflexivity || discriminate).
  - intros H _. now injection H as <-.
Qed.

Lemma py_float_too_large (v : pyval) (g : ScaleApp) :
  too_large v = true ->
  py_float float_of_text v g =
  (Failed (OverflowError (lit "int too large to convert to float")), g).
Proof.
  destruct v as [|b|z|f|t|l|d]; try discriminate; cbn.
  destruct (float_of_int z); (reflexivity || discriminate).
Qed.

(** One decimal for every finite number. *)
Lemma format_1f_one_decimal (w : float) :
  is_finite w = true -> one_decimal (sign_of w) (format_1f w).
Proof.
  destruct w as [s|s| |s m e]; try discriminate; intros _.
  - exists 0%N, 0%N. split; [lia | reflexivity].
  - exists (Z.to_N (tenths m e / 10)), (Z.to_N (tenths m e mod 10)).
    split; [|reflexivity].
    pose proof (Z.mod_pos_bound (tenths m e) 10 eq_refl). lia.
Qed.

Lemma format_1f_not_finite (w : float) :
  is_finite w = false ->
  format_1f w = lit "inf" \/ format_1f w = lit "-inf" \/ format_1f w = lit "nan".
Proof.
  destruct w as [s|[|]| |s m e]; try discriminate; intros _; cbn; auto.
Qed.

(** The weight half on a connected reading with a number and a text. *)
Lemma weight_section_reading (rw : result ApiScript.Response) (v : pyval)
  (w : float) (u : str) (g : ScaleApp) :
  float_value v = Some w -> too_large v = false ->
  get_weight rw = Ret (reading v (PStr u) (lit "connected")) ->
  exists g',
    weight_section str_of float_of_text rw g = (Done tt, g') /\
    shown g' weight_value = format_1f w ++ lit " " ++ u /\
    shown g' weight_status = mark_ok ++ lit " Connected".
Proof.
  intros Hv Hl H. unfold weight_section. rewrite H.
  pose proof (fun g0 => py_float_number v w g0 Hv Hl) as Hp.
  unfold bind, try_except, call, ret at 1.
  cbn -[py_float format_1f float_of_int setText setStyleSheet equals_str].
  rewrite Hp.
  eexists. split; [reflexivity|]. split; reflexivity.
Qed.

(** The weight half on an integer too large: the [OverflowError] is not
    caught on line 543, and nothing is written. *)
Lemma weight_section_too_large (rw : result ApiScript.Response) (v : pyval)
  (u : str) (g : ScaleApp) :
  too_large v = true ->
  get_weight rw = Ret (reading v (PStr u) (lit "connected")) ->
  weight_section str_of float_of_text rw g =
  (Failed (OverflowError (lit "int too large to convert to float")), g).
Proof.
  intros Hl H. unfold weight_section. rewrite H.
  pose proof (fun g0 => py_float_too_large v g0 Hl) as Hp.
  unfold bind, try_except, call, ret at 1.
  cbn -[py_float format_1f float_of_int setText setStyleSheet equals_str].
  rewrite Hp. reflexivity.
Qed.

(** The two ways an update ends: in the handler, with the kept URL and the
    outputs as they were; or with the tunnel status on display. *)
Lemma update_info_cases (rw rn : result ApiScript.Response) (g : ScaleApp) :
  (exists e g1,
     update_info str_of float_of_text rw rn g = update_failed e g1 /\
     current_ngrok_url g1 = current_ngrok_url g /\
     outputs g1 = outputs g /\
     (weight_section str_of float_of_text rw g = (Failed e, g1) \/
      weight_section str_of float_of_text rw g = (Done tt, g1) /\
      exists e', ApiScript.get_ngrok_url rn = Raise e')) \/
  (exists g1 url line g',
     weight_section str_of float_of_text rw g = (Done tt, g1) /\
     update_info str_of float_of_text rw rn g = (Done tt, g') /\
     ((ApiScript.get_ngrok_url rn = Ret offline /\
       url = lit "Not available" /\ line = tunnel_offline) \/
      (ApiScript.get_ngrok_url rn = Ret not_found /\
       url = lit "Not found" /\ line = tunnel_missing) \/
      (ApiScript.get_ngrok_url rn = Ret (connected url) /\ line = online)) /\
     shown g' status_label = line /\
     shown g' ngrok_value = url /\
     current_ngrok_url g' = PStr url /\
     label g' weight_value = label g1 weight_value /\
     label g' weight_status = label g1 weight_status /\
     outputs g' = outputs g).
Proof.
  rewrite update_info_sections. unfold try_except, bind.
  destruct (quiet_weight_section rw g) as [Hcur Hout].
  destruct (weight_section str_of float_of_text rw g) as [[[]|e] g1] eqn:Ew;
    cbn [snd] in *.
  2:{ left. exists e, g1. repeat split; auto. }
  destruct (tunnel_section_cases rn g1)
    as [(e & He & ->)|(url & line & g' & -> & Hcase & H1 & H2 & H3 & H4 & H5 & H6)].
  - left. exists (Known e), g1. repeat split; eauto.
  - right. exists g1, url, line, g'. repeat split; auto. congruence.
Qed.

(** Without a 200 answer of the scale service the display is the zero. *)
Lemma zero_without_reading (scale_request tunnel_request :
  result ApiScript.Response) (g : ScaleApp) :
  (forall response,
     scale_request = Ret response -> ApiScript.status_code response <> 200%Z) ->
  shown (snd (update_info str_of float_of_text scale_request tunnel_request g))
    weight_value = lit "0.0 g".
Proof.
  intros Hno.
  destruct (update_info_cases scale_request tunnel_request g)
    as [(e & g1 & -> & _)|(g1 & url & line & g' & Hw & -> & _ & _ & _ & _ & Hl & _)].
  - destruct (update_failed_effect e g1) as (g' & -> & _ & Hz & _). exact Hz.
  - cbn [snd]. unfold shown. rewrite Hl.
    destruct (get_weight scale_request) as [v|e] eqn:Eg.
    + assert (Hs : exists status,
        v = reading (PStr (lit "0.0")) (PStr (lit "g")) status).
      { destruct (get_weight_returns scale_request v Eg)
          as [(w & u & response & _ & -> & Hs)|[-> | ->]]; eauto.
        exfalso. exact (Hno response eq_refl Hs). }
      destruct Hs as (status & ->).
      destruct (weight_section_fixed scale_request status g Eg)
        as (g2 & Hg2 & Hz).
      rewrite Hw in Hg2. injection Hg2 as <-. exact Hz.
    + exfalso. unfold weight_section, bind in Hw. rewrite Eg in Hw.
      discriminate.
Qed.

(** A reading with a number and a text, and a tunnel query that returns:
    the number is shown with one decimal, before the text. *)
Lemma reading_shown (scale_request tunnel_request : result ApiScript.Response)
  (g : ScaleApp) (v : pyval) (w : float) (u : str) :
  float_value v = Some w -> too_large v = false ->
  get_weight scale_request = Ret (reading v (PStr u) (lit "connected")) ->
  (exists r, ApiScript.get_ngrok_url tunnel_request = Ret r) ->
  let g' := snd (update_info str_of float_of_text scale_request tunnel_request g) in
  shown g' weight_value = format_1f w ++ lit " " ++ u /\
  shown g' weight_status = mark_ok ++ lit " Connected".
Proof.
  intros Hv Hl Hw (r & Hr). cbv zeta.
  destruct (weight_section_reading scale_request v w u g Hv Hl Hw)
    as (g1 & Hg1 & Hs1 & Hs2).
  destruct (update_info_cases scale_request tunnel_request g)
    as [(e & g2 & _ & _ & _ & [Hf|(_ & e' & He')])
       |(g2 & url & line & g' & Hw2 & -> & _ & _ & _ & _ & Hl1 & Hl2 & _)];
    try congruence.
  cbn [snd]. unfold shown in *. rewrite Hl1, Hl2.
  rewrite Hg1 in Hw2. injection Hw2 as <-. auto.
Qed.

(** A reading with an integer too large: the handler takes over. *)
Lemma too_large_shown (scale_request tunnel_request : result ApiScript.Response)
  (g : ScaleApp) (v : pyval) (u : str) :
  too_large v = true ->
  get_weight scale_request = Ret (reading v (PStr u) (lit "connected")) ->
  let g' := snd (update_info str_of float_of_text scale_request tunnel_request g) in
  shown g' weight_value = lit "0.0 g" /\
  shown g' status_label = update_error.
Proof.
  intros Hl Hw. cbv zeta.
  pose proof (weight_section_too_large scale_request v u g Hl Hw) as Hf.
  destruct (update_info_cases scale_request tunnel_request g)
    as [(e & g2 & -> & _)|(g2 & url & line & g' & Hw2 & _)];
    [|congruence].
  destruct (update_failed_effect e g2) as (g' & -> & Hs & Hz & _).
  cbn [snd]. auto.
Qed.

(** ** The copy button *)

Lemma copy_placeholder (refusal : option str) (g : ScaleApp) :
  current_ngrok_url g = PStr (lit "Not available") \/
  current_ngrok_url g = PStr (lit "Not found") ->
  exists g',
    copy_ngrok_url str_of refusal g = (Done tt, g') /\
    copied (outputs g') = copied (outputs g) /\
    shown g' status_label = lit "Status: Nothing to copy - Ngrok not available".
Proof.
  destruct g as [lbl cur dark out]. cbn [current_ngrok_url outputs].
  intros [-> | ->]; (eexists; split; [reflexivity|]); cbn;
    (split; [|reflexivity]); unfold copied; rewrite flat_map_app; cbn;
    apply app_nil_r.
Qed.

Lemma copy_label (url : str) (g : ScaleApp) :
  current_ngrok_url g = PStr url ->
  eqb url (lit "Not available") = false ->
  eqb url (lit "Not found") = false ->
  exists g',
    copy_ngrok_url str_of None g = (Done tt, g') /\
    copied (outputs g') = copied (outputs g) ++ [url] /\
    shown g' status_label = lit "Status: Copied '" ++ url ++ lit "' to clipboard".
Proof.
  destruct g as [lbl cur dark out]. cbn [current_ngrok_url outputs].
  intros -> H1 H2.
  unfold copy_ngrok_url, try_except, bind at 1, get_current_ngrok_url.
  cbn [current_ngrok_url equals_str]. rewrite H1, H2. cbn [orb negb].
  eexists. split; [reflexivity|]. cbn [outputs snd].
  split; [|reflexivity].
  unfold copied. rewrite !flat_map_app. cbn. now rewrite app_nil_r.
Qed.

(** A click never changes the kept URL. *)
Lemma copy_keeps_url (refusal : option str) (g : ScaleApp) :
  current_ngrok_url (snd (copy_ngrok_url str_of refusal g)) = current_ngrok_url g.
Proof.
  destruct g as [lbl cur dark out].
  unfold copy_ngrok_url, try_except, bind at 1, get_current_ngrok_url.
  cbn [current_ngrok_url].
  destruct (negb (equals_str cur (lit "Not available")
                  || equals_str cur (lit "Not found"))).
  - unfold bind at 1. cbn [get_current_ngrok_url current_ngrok_url].
    unfold bind at 1.
    destruct cur as [|b|z|f|u|l|d]; cbn [pyperclip_copy raise];
      try reflexivity; destruct refusal; reflexivity.
  - reflexivity.
Qed.

End Facts.
End WindowFacts.

(* ================================================================== *)
(** * The window: theorems *)
(* ================================================================== *)

Module WindowSpec.
Import PyStr PyFloat PyVal Window WindowParts TunnelDefs WindowFacts.
Local Open Scope gui_scope.

(** X12. The answers of the client [get_weight].  A value that is returned is
    the connected reading with the weight and the unit of a 200 body, the
    fixed error reading for any other status code, whatever the body says, or
    the fixed disconnected reading when the request or [response.json()]
    raised a [RequestException]; an exception that comes out is never a
    [RequestException]. *)
Theorem get_weight_answers (requests_get : result ApiScript.Response) :
  match get_weight requests_get with
  | Ret v =>
      (v = reading (PStr (lit "0.0")) (PStr (lit "g")) (lit "disconnected") /\
       exists e, is_class RequestException e = true /\
         (requests_get = Raise e \/
          exists response, requests_get = Ret response /\
            ApiScript.status_code response = 200%Z /\
            ApiScript.json response = Raise e)) \/
      (v = reading (PStr (lit "0.0")) (PStr (lit "g")) (lit "error") /\
       exists response, requests_get = Ret response /\
         ApiScript.status_code response <> 200%Z) \/
      (exists response body weight unit,
         requests_get = Ret response /\
         ApiScript.status_code response = 200%Z /\
         ApiScript.json response = Ret (PDict body) /\
         dict_get body (lit "weight") = Some weight /\
         dict_get body (lit "unit") = Some unit /\
         v = reading weight unit (lit "connected"))
  | Raise e => is_class RequestException e = false
  end.
Proof.
  unfold get_weight, ApiScript.try_except.
  destruct requests_get as [response|e]; cbn [ApiScript.bind].
  2:{ destruct (is_class RequestException e) eqn:Ec; [|exact Ec].
      left. split; [reflexivity|]. exists e. auto. }
  destruct (ApiScript.status_code response =? 200)%Z eqn:Es;
    cbn [ApiScript.bind].
  2:{ right. left. split; [reflexivity|]. exists response.
      split; [reflexivity|]. now apply Z.eqb_neq. }
  apply Z.eqb_eq in Es.
  destruct (ApiScript.json response) as [data|e] eqn:Ej; cbn [ApiScript.bind].
  2:{ destruct (is_class RequestException e) eqn:Ec; [|exact Ec].
      left. split; [reflexivity|]. exists e. split; [exact Ec|].
      right. exists response. auto. }
  destruct data as [|b|z|f|s|l|body]; try reflexivity.
  cbn [subscript].
  destruct (dict_get body (lit "weight")) as [weight|] eqn:Ew;
    cbn [ApiScript.bind]; [|reflexivity].
  destruct (dict_get body (lit "unit")) as [unit|] eqn:Eu;
    cbn [ApiScript.bind]; [|reflexivity].
  right. right. exists response, body, weight, unit. auto 7.
Qed.

Section Handlers.
Variable str_of : pyval -> str.
Variable float_of_text : str -> option float.

(** X13. The status line after an update.  [update_info] always returns, and the
    status line then shows the state of the tunnel or the failure of the
    update: the text "Scale disconnected. Check USB connection." that line
    559 writes is always overwritten before the handler returns. *)
Theorem status_line_after_update (scale_request tunnel_request :
  result ApiScript.Response) (g : ScaleApp) :
  exists g',
    update_info str_of float_of_text scale_request tunnel_request g = (Done tt, g') /\
    (shown g' status_label = online \/
     shown g' status_label = tunnel_offline \/
     shown g' status_label = tunnel_missing \/
     shown g' status_label = update_error) /\
    shown g' status_label <> scale_disconnected.
Proof.
  assert (Hne : forall t,
    t = online \/ t = tunnel_offline \/ t = tunnel_missing \/ t = update_error ->
    t <> scale_disconnected).
  { intros t [->|[->|[->| ->]]]; intros H; cbv in H; discriminate. }
  destruct (update_info_cases str_of float_of_text scale_request tunnel_request g)
    as [(e & g1 & -> & _)|(g1 & url & line & g' & _ & -> & Hcase & Hline & _)].
  - destruct (update_failed_effect e g1) as (g' & -> & Hs & _).
    exists g'. split; [reflexivity|]. split; [auto|]. apply Hne. auto.
  - exists g'. split; [reflexivity|].
    assert (Ht : shown g' status_label = online \/
                 shown g' status_label = tunnel_offline \/
                 shown g' status_label = tunnel_missing \/
                 shown g' status_label = update_error).
    { rewrite Hline.
      destruct Hcase as [(_ & _ & ->)|[(_ & _ & ->)|(_ & ->)]]; auto. }
    split; [exact Ht | apply Hne, Ht].
Qed.

(** X14. No reading, zero on display.  When the scale service does not answer
    200 (it answers 404 or 500, or the request fails), the weight on display
    after the update is "0.0 g", whatever the tunnel does: the text of an
    empty scale. *)
Theorem no_reading_shows_zero (scale_request tunnel_request :
  result ApiScript.Response) (g : ScaleApp) :
  (forall response,
     scale_request = Ret response -> ApiScript.status_code response <> 200%Z) ->
  shown (snd (update_info str_of float_of_text scale_request tunnel_request g))
    weight_value = lit "0.0 g".
Proof. apply zero_without_reading. Qed.

(** X15. A tunnel answer that makes [get_ngrok_url] raise wipes the weight.  The
    weight just read is replaced by "0.0 g", the status line reports the
    failure of the update, and the URL kept for the copy button is the one of
    the update before. *)
Theorem tunnel_failure_resets_weight (scale_request tunnel_request :
  result ApiScript.Response) (g : ScaleApp) (e : exn) :
  ApiScript.get_ngrok_url tunnel_request = Raise e ->
  let g' := snd (update_info str_of float_of_text scale_request tunnel_request g) in
  shown g' weight_value = lit "0.0 g" /\
  shown g' status_label = update_error /\
  current_ngrok_url g' = current_ngrok_url g.
Proof.
  intros He. cbv zeta.
  destruct (update_info_cases str_of float_of_text scale_request tunnel_request g)
    as [(e1 & g1 & -> & Hcur & _)|(g1 & url & line & g' & _ & _ & Hcase & _)].
  - destruct (update_failed_effect e1 g1) as (g' & -> & Hs & Hz & Hc & _).
    cbn [snd]. repeat split; auto. congruence.
  - exfalso.
    destruct Hcase as [(H & _)|[(H & _)|(H & _)]]; congruence.
Qed.

(** X16. A number on display.  When the scale service answers 200 with a
    JSON number as weight (a float or an integer) and a text as unit, and the
    tunnel query returns: if the number is an integer too large for [float],
    the [OverflowError] is not caught on line 543 and the handler shows
    "0.0 g" and "Error updating information"; otherwise the display shows
    [format(float(weight), '.1f')], a blank and the unit, and the scale is
    reported connected.  For a finite number that text is a sign or none,
    digits, a point and one digit (the exact value rounded to the nearest
    tenth, ties to even); for the others it is "inf", "-inf" or "nan". *)
Theorem reading_on_display (scale_request tunnel_request :
  result ApiScript.Response) (g : ScaleApp) (response : ApiScript.Response)
  (body : list (str * pyval)) (v : pyval) (w : float) (u : str) :
  scale_request = Ret response ->
  ApiScript.status_code response = 200%Z ->
  ApiScript.json response = Ret (PDict body) ->
  dict_get body (lit "weight") = Some v ->
  dict_get body (lit "unit") = Some (PStr u) ->
  float_value v = Some w ->
  (exists r, ApiScript.get_ngrok_url tunnel_request = Ret r) ->
  let g' := snd (update_info str_of float_of_text scale_request tunnel_request g) in
  if too_large v then
    shown g' weight_value = lit "0.0 g" /\
    shown g' status_label = update_error
  else
    shown g' weight_value = format_1f w ++ lit " " ++ u /\
    shown g' weight_status = mark_ok ++ lit " Connected" /\
    (is_finite w = true -> one_decimal (sign_of w) (format_1f w)) /\
    (is_finite w = false ->
     format_1f w = lit "inf" \/ format_1f w = lit "-inf" \/
     format_1f w = lit "nan").
Proof.
  intros -> Hs Hj Hw Hu Hv Hr.
  assert (Hg : get_weight (Ret response) =
               Ret (reading v (PStr u) (lit "connected"))).
  { unfold get_weight, ApiScript.try_except. cbn [ApiScript.bind].
    rewrite Hs, Hj. cbn [ApiScript.bind Z.eqb Pos.eqb subscript].
    rewrite Hw. cbn [ApiScript.bind]. rewrite Hu. reflexivity. }
  cbv zeta. destruct (too_large v) eqn:Hl.
  - exact (too_large_shown str_of float_of_text _ tunnel_request g v u Hl Hg).
  - destruct (reading_shown str_of float_of_text _ tunnel_request g v w u
                Hv Hl Hg Hr) as [H1 H2].
    repeat split; auto.
    + apply format_1f_one_decimal.
    + apply format_1f_not_finite.
Qed.

(** X17. With the tunnel down there is nothing to copy.  When the status line
    after an update says that Ngrok is not running or that no tunnel was
    found, the copy button puts nothing on the clipboard, whatever
    [pyperclip] would do, and says so. *)
Theorem copy_needs_a_tunnel (scale_request tunnel_request :
  result ApiScript.Response) (g : ScaleApp) (refusal : option str) :
  let g1 := snd (update_info str_of float_of_text scale_request tunnel_request g) in
  shown g1 status_label = tunnel_offline \/
  shown g1 status_label = tunnel_missing ->
  exists g2,
    copy_ngrok_url str_of refusal g1 = (Done tt, g2) /\
    copied (outputs g2) = copied (outputs g1) /\
    shown g2 status_label = lit "Status: Nothing to copy - Ngrok not available".
Proof.
  cbv zeta. intros Hline. apply copy_placeholder.
  destruct (update_info_cases str_of float_of_text scale_request tunnel_request g)
    as [(e & g1 & Hu & _)|(g1 & url & line & g' & _ & Hu & Hcase & Hl & _ & Hc & _)];
    rewrite Hu in Hline |- *.
  - exfalso. destruct (update_failed_effect e g1) as (g' & Hg' & Hs & _).
    rewrite Hg' in Hline. cbn [snd] in Hline. rewrite Hs in Hline.
    destruct Hline as [H|H]; cbv in H; discriminate.
  - cbn [snd] in *. rewrite Hc. rewrite Hl in Hline.
    destruct Hcase as [(_ & -> & _)|[(_ & -> & _)|(_ & ->)]]; auto.
    exfalso. destruct Hline as [H|H]; cbv in H; discriminate.
Qed.

(** X18. What is copied is the label on display.  When the status line after an
    update says the system is online, and the clipboard works, the copy
    button puts on the clipboard exactly the text that the tunnel label
    shows, a label that is neither of the two placeholders. *)
Theorem copy_takes_the_label_on_display (scale_request tunnel_request :
  result ApiScript.Response) (g : ScaleApp) :
  let g1 := snd (update_info str_of float_of_text scale_request tunnel_request g) in
  shown g1 status_label = online ->
  eqb (shown g1 ngrok_value) (lit "Not available") = false ->
  eqb (shown g1 ngrok_value) (lit "Not found") = false ->
  exists g2,
    copy_ngrok_url str_of None g1 = (Done tt, g2) /\
    copied (outputs g2) = copied (outputs g1) ++ [shown g1 ngrok_value] /\
    shown g2 status_label =
      lit "Status: Copied '" ++ shown g1 ngrok_value ++ lit "' to clipboard".
Proof.
  cbv zeta. intros Hline H1 H2. apply copy_label; auto.
  destruct (update_info_cases str_of float_of_text scale_request tunnel_request g)
    as [(e & g1 & Hu & _)|(g1 & url & line & g' & _ & Hu & _ & _ & Hv & Hc & _)];
    rewrite Hu in Hline |- *.
  - exfalso. destruct (update_failed_effect e g1) as (g' & Hg' & Hs & _).
    rewrite Hg' in Hline. cbn [snd] in Hline. rewrite Hs in Hline.
    cbv in Hline. discriminate.
  - cbn [snd]. now rewrite Hc, Hv.
Qed.

(** X19. The kept URL is always a text.  Started as a text (it is "Not
    available" when the window is built), [current_ngrok_url] is a text after
    every update and every click on the copy button, whatever the two
    services answer: an update stores the label or a placeholder, or leaves
    the old value; a click never changes it.  So [pyperclip.copy] is never
    given anything but a [str]. *)
Theorem kept_url_stays_text (scale_request tunnel_request :
  result ApiScript.Response) (refusal : option str) (g : ScaleApp) :
  (exists url, current_ngrok_url g = PStr url) ->
  (exists url,
     current_ngrok_url
       (snd (update_info str_of float_of_text scale_request tunnel_request g))
     = PStr url) /\
  current_ngrok_url (snd (copy_ngrok_url str_of refusal g)) = current_ngrok_url g.
Proof.
  intros (url & Hurl). split; [|apply copy_keeps_url].
  destruct (update_info_cases str_of float_of_text scale_request tunnel_request g)
    as [(e & g1 & -> & Hcur & _)|(g1 & url' & line & g' & _ & -> & _ & _ & _ & Hc & _)].
  - destruct (update_failed_effect e g1) as (g' & -> & _ & _ & Hc & _).
    cbn [snd]. exists url. congruence.
  - exists url'. exact Hc.
Qed.

End Handlers.

(** The scale service answers 404, the tunnel is up. *)
Lemma no_reading_shows_zero_witness :
  shown
    (snd (update_info (fun _ => []) (fun _ => None)
            (Ret (ApiScript.MkResponse 404
                    (Ret (PDict [(lit "error", PStr (lit "USB scale not found"))]))))
            (Ret (ApiScript.MkResponse 200 (Ret (PDict Examples.two_tunnels))))
            sample_window))
    weight_value = lit "0.0 g".
Proof.
  apply no_reading_shows_zero.
  intros response H. injection H as <-. discriminate.
Defined.

(** The scale reads 12.5 g, the tunnel manager answers [{"tunnels": null}]. *)
Lemma tunnel_failure_resets_weight_witness :
  let g' :=
    snd (update_info (fun _ => []) (fun _ => None)
           (Ret (ApiScript.MkResponse 200
                   (Ret (PDict [(lit "weight", PFloat (Prim2SF 12.5%float));
                                (lit "unit", PStr (lit "g"))]))))
           (Ret (ApiScript.MkResponse 200 (Ret (PDict [(lit "tunnels", PNone)]))))
           sample_window) in
  shown g' weight_value = lit "0.0 g" /\
  shown g' status_label = update_error /\
  current_ngrok_url g' = PStr (lit "Not available").
Proof.
  apply (tunnel_failure_resets_weight (fun _ => []) (fun _ => None) _ _
           sample_window ApiScript.not_iterable).
  reflexivity.
Defined.

(** The tunnel manager is not running. *)
Lemma copy_needs_a_tunnel_witness :
  exists g2,
    copy_ngrok_url (fun _ => []) None
      (snd (update_info (fun _ => []) (fun _ => None)
              (Raise (MkExn RequestException (lit "connection refused")))
              (Raise (MkExn RequestException (lit "connection refused")))
              sample_window)) = (Done tt, g2) /\
    copied (outputs g2) = [] /\
    shown g2 status_label = lit "Status: Nothing to copy - Ngrok not available".
Proof.
  apply (copy_needs_a_tunnel (fun _ => []) (fun _ => None)
           (Raise (MkExn RequestException (lit "connection refused")))
           (Raise (MkExn RequestException (lit "connection refused")))
           sample_window None).
  left. reflexivity.
Defined.

(** The tunnel [https://ab12cd.ngrok.io] is up. *)
Lemma copy_takes_the_label_on_display_witness :
  exists g2,
    copy_ngrok_url (fun _ => []) None
      (snd (update_info (fun _ => []) (fun _ => None)
              (Raise (MkExn RequestException (lit "connection refused")))
              (Ret (ApiScript.MkResponse 200 (Ret (PDict Examples.two_tunnels))))
              sample_window)) = (Done tt, g2) /\
    copied (outputs g2) = [lit "ab12cd"] /\
    shown g2 status_label = lit "Status: Copied 'ab12cd' to clipboard".
Proof.
  apply (copy_takes_the_label_on_display (fun _ => []) (fun _ => None)
           (Raise (MkExn RequestException (lit "connection refused")))
           (Ret (ApiScript.MkResponse 200 (Ret (PDict Examples.two_tunnels))))
           sample_window); reflexivity.
Defined.


(** The scale reads 0.25 g: the display shows 0.2.  The service sends the
    integer 10^400: the display shows 0.0 and the update is reported failed. *)
Lemma reading_on_display_witness :
  let shows weight :=
    snd (update_info (fun _ => []) (fun _ => None)
           (Ret (ApiScript.MkResponse 200
                   (Ret (PDict [(lit "weight", weight);
                                (lit "unit", PStr (lit "g"))]))))
           (Raise (MkExn RequestException (lit "connection refused")))
           sample_window) in
  shown (shows (PFloat (Prim2SF 0.25%float))) weight_value = lit "0.2 g" /\
  (shown (shows (PInt (10 ^ 400))) weight_value = lit "0.0 g" /\
   shown (shows (PInt (10 ^ 400))) status_label = update_error).
Proof.
  cbv zeta. split.
  - apply (reading_on_display (fun _ => []) (fun _ => None) _ _ sample_window
             (ApiScript.MkResponse 200
                (Ret (PDict [(lit "weight", PFloat (Prim2SF 0.25%float));
                             (lit "unit", PStr (lit "g"))])))
             [(lit "weight", PFloat (Prim2SF 0.25%float));
              (lit "unit", PStr (lit "g"))]
             (PFloat (Prim2SF 0.25%float)) (Prim2SF 0.25%float) (lit "g"));
      try reflexivity.
    eexists. reflexivity.
  - assert (Hl : too_large (PInt (10 ^ 400)) = true) by (vm_compute; reflexivity).
    pose proof (reading_on_display (fun _ => []) (fun _ => None) _
                  (Raise (MkExn RequestException (lit "connection refused")))
                  sample_window
                  (ApiScript.MkResponse 200
                     (Ret (PDict [(lit "weight", PInt (10 ^ 400));
                                  (lit "unit", PStr (lit "g"))])))
                  [(lit "weight", PInt (10 ^ 400)); (lit "unit", PStr (lit "g"))]
                  (PInt (10 ^ 400)) (float_of_int (10 ^ 400)) (lit "g")
                  eq_refl eq_refl eq_refl eq_refl eq_refl eq_refl
                  (ex_intro _ _ eq_refl)) as H.
    cbv zeta in H. rewrite Hl in H. exact H.
Defined.

Lemma kept_url_stays_text_witness :
  (exists url,
     current_ngrok_url
       (snd (update_info (fun _ => []) (fun _ => None)
               (Raise (MkExn RequestException (lit "connection refused")))
               (Ret (ApiScript.MkResponse 200 (Ret (PDict Examples.two_tunnels))))
               sample_window))
     = PStr url) /\
  current_ngrok_url (snd (copy_ngrok_url (fun _ => []) None sample_window)) =
    PStr (lit "Not available").
Proof.
  apply (kept_url_stays_text (fun _ => []) (fun _ => None)
           (Raise (MkExn RequestException (lit "connection refused")))
           (Ret (ApiScript.MkResponse 200 (Ret (PDict Examples.two_tunnels))))
           None sample_window).
  eexists. reflexivity.
Defined.

End WindowSpec.

(* ================================================================== *)
(** * The two programs together *)
(* ================================================================== *)

Module EndToEnd.
Import PyStr PyFloat Utf8 PyVal ScaleApi Design Measures Examples.
Import Window WindowParts WindowFacts.

Section Together.
Variable nd : char -> bool.
Variable txt : bytes -> str.
Variable str_of : pyval -> str.
Variable float_of_text : str -> option float.

(** X20. From the serial line to the display.  Whatever the machine of the
    scale service does, when the window asks it and gets its answer (or no
    answer at all: a refused connection, a timeout), the weight on display
    after the update is "0.0 g"; or digits, a point, one digit and " g",
    without a sign; or "inf g", which a line with a number too large for a
    float gives.  It never shows a negative number or "nan". *)
Theorem display_is_reading_or_zero (h : host) (s : state)
  (scale_request tunnel_request : result ApiScript.Response) (g : ScaleApp) :
  scale_request = Ret (served (fst (read_scale nd txt h s))) \/
  (exists e, scale_request = Raise e) ->
  let g' := snd (update_info str_of float_of_text scale_request tunnel_request g) in
  shown g' weight_value = lit "0.0 g" \/
  shown g' weight_value = lit "inf g" \/
  exists t, one_decimal false t /\ shown g' weight_value = t ++ lit " g".
Proof.
  intros Hreq. cbv zeta.
  destruct Hreq as [->|(e & ->)].
  2:{ left. apply zero_without_reading. discriminate. }
  destruct (fst (read_scale nd txt h s)) as [resp|e] eqn:Er; cbn [served].
  2:{ left. apply zero_without_reading.
      intros response H. injection H as <-. discriminate. }
  destruct (DeviceLaws.read_scale_returns nd txt h s resp Er)
    as [(w & Hw & Hst & Hj)|[(Hst & _)|(msg & Hst & _)]].
  - destruct (update_info_cases str_of float_of_text
                (Ret (ApiScript.MkResponse (resp_status resp) (Ret (resp_json resp))))
                tunnel_request g)
      as [(e & g1 & -> & _)|(g1 & url & line & g' & Hws & -> & _ & _ & _ & _ & Hl & _)].
    + left. destruct (update_failed_effect e g1) as (g' & -> & _ & Hz & _).
      exact Hz.
    + right. cbn [snd].
      assert (Hg : get_weight
                (Ret (ApiScript.MkResponse (resp_status resp) (Ret (resp_json resp))))
              = Ret (reading (PFloat w) (PStr (lit "g")) (lit "connected"))).
      { rewrite Hst, Hj. reflexivity. }
      destruct (weight_section_reading str_of float_of_text _ (PFloat w) w
                  (lit "g") g eq_refl eq_refl Hg)
        as (g2 & Hg2 & Hs2 & _).
      rewrite Hws in Hg2. injection Hg2 as <-.
      unfold shown in *. rewrite Hl, Hs2.
      destruct w as [[|]|[|]| |[|] m e]; try discriminate.
      * right. exists (lit "0.0"). split; [|reflexivity].
        exact (format_1f_one_decimal (S754_zero false) eq_refl).
      * now left.
      * right. exists (format_1f (S754_finite false m e)).
        split; [|reflexivity].
        exact (format_1f_one_decimal (S754_finite false m e) eq_refl).
  - left. apply zero_without_reading.
    intros response H. injection H as <-. cbn. rewrite Hst. discriminate.
  - left. apply zero_without_reading.
    intros response H. injection H as <-. cbn. rewrite Hst. discriminate.
Qed.

End Together.

(** One scale on [/dev/ttyUSB0] sends "-12.5g": the display shows "12.5 g".
    It sends 401 nines and a g: the display shows "inf g". *)
Lemma display_is_reading_or_zero_witness :
  let shows line :=
    snd (update_info (fun _ => []) (fun _ => None)
           (Ret (served (fst (read_scale nd_arabic codec_text
                                (one_port (line ++ crlf)) initial))))
           (Raise (MkExn RequestException (lit "connection refused")))
           sample_window) in
  shown (shows (blit "-12.5g")) weight_value = lit "12.5 g" /\
  shown (shows (repeat 57%N 401 ++ blit "g")) weight_value = lit "inf g" /\
  (shown (shows (blit "-12.5g")) weight_value = lit "0.0 g" \/
   shown (shows (blit "-12.5g")) weight_value = lit "inf g" \/
   exists t, one_decimal false t /\
     shown (shows (blit "-12.5g")) weight_value = t ++ lit " g").
Proof.
  cbv zeta.
  split; [vm_compute; reflexivity|].
  split; [vm_compute; reflexivity|].
  apply (display_is_reading_or_zero nd_arabic codec_text (fun _ => []) (fun _ => None)
           (one_port (blit "-12.5g" ++ crlf)) initial).
  left. reflexivity.
Defined.

End EndToEnd.
